(** * Workbench application template: path builder and operators

    Shallow embedding of [scripts/startup/bl_app_templates_system/Workbench/__init__.py].

    The add-on is path-string construction plus calls into the operating
    system ([os.makedirs], [os.path.exists], [shutil.move]) and into the host
    ([bpy.ops...], [bpy.path.abspath]).  The path utilities are embedded as
    pure functions on strings; the operators are embedded in a small
    state-and-exception monad over an explicit model of the file system and
    of the host document. *)

From Stdlib Require Import ZArith List String Ascii Bool Lia.
From Stdlib Require Import DecimalString DecimalZ.
Import ListNotations.

Local Open Scope string_scope.
Local Open Scope Z_scope.

(* ====================================================================== *)
(** ** Python built-ins used by the add-on *)
(* ====================================================================== *)

Module Py.

(** [s.replace(old, new)] for one-character [old] and [new], the only way the
    add-on calls it ([.replace(" ", "_")]): every occurrence is replaced. *)
Fixpoint replace (old new : ascii) (s : string) : string :=
  match s with
  | EmptyString => EmptyString
  | String c s' => String (if Ascii.eqb c old then new else c) (replace old new s')
  end.

(** [s.startswith(p)]. *)
Fixpoint startswith (p s : string) : bool :=
  match p, s with
  | EmptyString, _ => true
  | String _ _, EmptyString => false
  | String a p', String b s' => Ascii.eqb a b && startswith p' s'
  end.

(** The last character of a string, if any. *)
Fixpoint last_char (s : string) : option ascii :=
  match s with
  | EmptyString => None
  | String c EmptyString => Some c
  | String _ s' => last_char s'
  end.

(** [s.endswith(c)] for a one-character [c]. *)
Definition endswith (c : ascii) (s : string) : bool :=
  match last_char s with
  | Some d => Ascii.eqb d c
  | None => false
  end.

(** [str(v)] for an [int]: decimal digits, a leading [-] when negative. *)
Definition str_int (v : Z) : string := NilEmpty.string_of_int (Z.to_int v).

(** The format specification [{v:02d}]: decimal, zero-padded on the left to
    a minimum width of two, the sign counting towards the width.  Only a
    one-character rendering (0..9) is shorter than two. *)
Definition format_02d (v : Z) : string :=
  let s := str_int v in
  if (String.length s <? 2)%nat then "0" ++ s else s.

End Py.

(* ====================================================================== *)
(** ** [os.path] (POSIX flavour) *)
(* ====================================================================== *)

Module posixpath.

Definition sep : ascii := "/"%char.

(** One step of [os.path.join]: an absolute component discards what came
    before; otherwise the component is appended, with a separator unless the
    path so far is empty or already ends with one. *)
Definition join2 (path b : string) : string :=
  if Py.startswith "/" b then b
  else if (String.eqb path "" || Py.endswith sep path)%bool then path ++ b
  else path ++ "/" ++ b.

(** [os.path.join(a, *p)]. *)
Definition join (a : string) (p : list string) : string := fold_left join2 p a.

(** [os.path.dirname(p)]: everything up to the last separator, with trailing
    separators removed unless the head consists of separators only. *)
Fixpoint drop_while (f : ascii -> bool) (l : list ascii) : list ascii :=
  match l with
  | [] => []
  | c :: l' => if f c then drop_while f l' else l
  end.

Definition dirname (p : string) : string :=
  let is_sep c := Ascii.eqb c sep in
  let rhead := drop_while (fun c => negb (is_sep c)) (rev (list_ascii_of_string p)) in
  let rhead' := match drop_while is_sep rhead with
                | [] => rhead
                | stripped => stripped
                end in
  string_of_list_ascii (rev rhead').

End posixpath.


(* ====================================================================== *)
(** ** Constants and data properties *)
(* ====================================================================== *)

(** A row of an [EnumProperty] item table:
    [(identifier, name, description, icon, number)]. *)
Record EnumItem := mkEnumItem {
  identifier : string;
  name : string;
  description : string;
  icon : string;
  number : nat
}.

Definition TYPE_ITEMS : list EnumItem := [
  mkEnumItem "prp" "Prop (prp)" "Standard Prop Asset" "OBJECT_DATAMODE" 0;
  mkEnumItem "chr" "Character (chr)" "Character/Rig Asset" "OUTLINER_OB_ARMATURE" 1;
  mkEnumItem "res" "Resource (res)" "General Resource or Environment" "WORLD" 2
].

(** The value of the [asset_type] enum property: one of the rows of
    [TYPE_ITEMS].  Read from Python it is the row's identifier. *)
Inductive AssetType := prp | chr | res.

Definition enum_number (t : AssetType) : nat :=
  match t with prp => 0 | chr => 1 | res => 2 end%nat.

Definition enum_item (t : AssetType) : EnumItem :=
  nth (enum_number t) TYPE_ITEMS (mkEnumItem "" "" "" "" 0).

(** [str(props.asset_type)], as interpolated by the f-strings. *)
Definition str_asset_type (t : AssetType) : string := identifier (enum_item t).

(** [StudioProjectProps], with the declared defaults below. *)
Record StudioProjectProps := mkProps {
  base_path : string;
  asset_type : AssetType;
  asset_name : string;
  version : Z;
  is_generated : bool
}.

Definition default_props : StudioProjectProps :=
  mkProps "//" prp "New_Asset" 1 false.

(** The declared range of [version] ([min=1]). *)
Definition valid_props (p : StudioProjectProps) : Prop := 1 <= version p.

(* ====================================================================== *)
(** ** The world outside the add-on: file system and host document *)
(* ====================================================================== *)

(** A file-system entry: whether the path is absolute, and its non-empty
    components.  ["/a//b/"] and ["/a/b"] name the same entry. *)
Definition node : Type := bool * list string.

(** [s.split("/")]. *)
Fixpoint split_sep (s : string) : list string :=
  match s with
  | EmptyString => [""]
  | String c s' =>
      if Ascii.eqb c posixpath.sep then "" :: split_sep s'
      else match split_sep s' with
           | [] => [String c ""]
           | h :: t => String c h :: t
           end
  end.

Definition node_of (p : string) : node :=
  (Py.startswith "/" p,
   filter (fun c => negb (String.eqb c "")) (split_sep p)).

Definition node_eqb (a b : node) : bool :=
  Bool.eqb (fst a) (fst b) &&
  (if list_eq_dec string_dec (snd a) (snd b) then true else false).

Definition mem (n : node) (l : list node) : bool := existsb (node_eqb n) l.

(** The entries above [n], nearest last, then [n] itself:
    [prefixes (true, [a; b])] is [(true, [a]); (true, [a; b])]. *)
Fixpoint prefixes_from (abs : bool) (done todo : list string) : list node :=
  match todo with
  | [] => []
  | c :: todo' => (abs, (done ++ [c])%list) :: prefixes_from abs (done ++ [c])%list todo'
  end.

Definition prefixes (n : node) : list node := prefixes_from (fst n) [] (snd n).

Definition parent (n : node) : node := (fst n, removelast (snd n)).

(** [strip_prefix p l] is [Some r] when [l = p ++ r]. *)
Fixpoint strip_prefix (p l : list string) : option (list string) :=
  match p, l with
  | [], _ => Some l
  | _ :: _, [] => None
  | x :: p', y :: l' => if String.eqb x y then strip_prefix p' l' else None
  end.

(** Renaming the subtree at [src] to [dst]: the effect of a move on one entry. *)
Definition rebase (src dst : node) (n : node) : node :=
  if Bool.eqb (fst src) (fst n) then
    match strip_prefix (snd src) (snd n) with
    | Some rest => (fst dst, (snd dst ++ rest)%list)
    | None => n
    end
  else n.

(** [n] is the entry [src] or lies below it. *)
Definition under (src n : node) : bool :=
  Bool.eqb (fst src) (fst n) &&
  match strip_prefix (snd src) (snd n) with
  | Some _ => true
  | None => false
  end.

(** [n] lies below the entry [src] and is not [src] itself. *)
Definition below (src n : node) : bool := under src n && negb (node_eqb src n).

(** External calls that change something, as issued by an operator. *)
Inductive Call :=
| os_makedirs_call (path : string) (exist_ok : bool)
| shutil_move_call (src dst : string)
| wm_save_as_mainfile_call (filepath : string) (copy : bool)
| object_select_all_call (action : string)
| object_delete_call
| outliner_orphans_purge_call.

Inductive ReportLevel := INFO | WARNING | ERROR.

Record World := mkWorld {
  fs_dirs : list node;          (* directories on disk *)
  fs_files : list node;         (* regular files on disk *)
  data_filepath : string;       (* bpy.data.filepath: where the document lives *)
  calls : list Call;            (* external calls issued so far, oldest first *)
  reports : list (ReportLevel * string)   (* self.report(...) messages, oldest first *)
}.

(** [context]: the scene's property group and the world it runs in. *)
Record Context := mkContext {
  studio_props : StudioProjectProps;
  world : World
}.

(** Python exceptions, by the classes the add-on distinguishes: [except
    OSError] catches the first only, [except Exception] catches all three. *)
Module Exceptions.
Inductive ExnClass := OSError | RuntimeError | ValueError.
End Exceptions.
Export Exceptions.

Record Exn := mkExn { exn_class : ExnClass; exn_msg : string }.

Definition is_OSError (e : Exn) : bool :=
  match exn_class e with OSError => true | RuntimeError | ValueError => false end.

Definition is_Exception (e : Exn) : bool := true.

(** What an operator returns: [{'FINISHED'}] or [{'CANCELLED'}]. *)
Inductive OpResult := FINISHED | CANCELLED.

(** What a host operator called through [bpy.ops] does in a given run: it
    returns a status, or it fails with an error report, which [bpy.ops]
    raises as a [RuntimeError]. *)
Inductive HostOutcome := Finishes | Cancels | Errors (msg : string).

(** A [shutil.move] that fails.  When the rename is refused [shutil.move]
    copies the tree to the destination and then removes the source, and
    either can fail half way: by the time it raises, some entries of the
    source may have been copied and, once all are copied, some entries
    below the source may have been removed.  The source itself is removed
    last, so it is still there whenever the move raises. *)
Record MoveFailure := mkMoveFailure {
  move_exn : Exn;
  copied : node -> bool;      (* entries of the source already at the destination *)
  removed : node -> bool      (* entries below the source already removed *)
}.

(** A move that is refused before anything is done. *)
Definition refused (e : Exn) : MoveFailure :=
  mkMoveFailure e (fun _ => false) (fun _ => false).

(** The part of a run the add-on does not control: the working directory
    of the process, the host's "Save Versions" preference (off, or the
    default, one backup), and which external calls fail.  Each answer may
    depend on the world at the time of the call.  A failing [os.makedirs]
    comes with its message and with how many of the directories on the way
    it had made before it failed. *)
Record Env := mkEnv {
  cwd : string;
  keep_backup : bool;
  makedirs_fault : World -> string -> option (string * nat);
  move_fault : World -> string -> string -> option MoveFailure;
  save_fault : World -> string -> bool -> option string;
  select_all_outcome : World -> HostOutcome;
  delete_outcome : World -> HostOutcome;
  orphans_purge_outcome : World -> HostOutcome
}.

(** The environment in which nothing fails. *)
Definition no_faults : Env :=
  mkEnv "/home/u" true (fun _ _ => None) (fun _ _ _ => None) (fun _ _ _ => None)
        (fun _ => Finishes) (fun _ => Finishes) (fun _ => Finishes).

(** *** File-system observations *)

Definition isdir (w : World) (p : string) : bool :=
  let n := node_of p in
  match snd n with
  | [] => fst n
  | _ => mem n (fs_dirs w)
  end.

Definition isfile (w : World) (p : string) : bool := mem (node_of p) (fs_files w).

(** [os.path.exists(p)]. *)
Definition os_path_exists (w : World) (p : string) : bool := isdir w p || isfile w p.

(** [bpy.path.abspath(p)]: a path starting with [//] is relative to the
    directory of the current document; any other path is returned as is. *)
Definition bpy_path_abspath (w : World) (p : string) : string :=
  if Py.startswith "//" p
  then posixpath.join (posixpath.dirname (data_filepath w))
                      [String.substring 2 (String.length p - 2)%nat p]
  else p.

(** One component of a path being normalised: empty and [.] components are
    dropped, [..] steps up. *)
Definition normpath_step (acc : list string) (c : string) : list string :=
  if (String.eqb c "" || String.eqb c ".")%bool then acc
  else if String.eqb c ".." then removelast acc
  else (acc ++ [c])%list.

(** The absolute path with the given components. *)
Fixpoint absolute_of (l : list string) : string :=
  match l with
  | [] => ""
  | c :: l' => "/" ++ c ++ absolute_of l'
  end.

(** The absolute, normalised form of [p], under which the host records the
    document it saves at [p]: a relative path is taken from the working
    directory [cwd]. *)
Definition host_abspath (cwd p : string) : string :=
  match fold_left normpath_step (split_sep (posixpath.join2 cwd p)) [] with
  | [] => "/"
  | l => absolute_of l
  end.

(** The backup the host keeps of a file it is about to overwrite. *)
Definition backup_of (filepath : string) : string := filepath ++ "1".

(** Adding the entries of [ns] that [l] lacks. *)
Definition add_missing (ns l : list node) : list node :=
  fold_left (fun acc n => if mem n acc then acc else (acc ++ [n])%list) ns l.

(* ====================================================================== *)
(** ** Path utilities *)
(* ====================================================================== *)

(** [props.asset_name.replace(" ", "_")]. *)
Definition safe_name (props : StudioProjectProps) : string :=
  Py.replace " " "_" (asset_name props).

(** [f"{props.asset_type}_{safe_name}"]. *)
Definition folder_name (props : StudioProjectProps) : string :=
  str_asset_type (asset_type props) ++ "_" ++ safe_name props.

(** Returns: /Path/To/Root/prp_Asset *)
Definition get_project_root (scene : Context) : string :=
  let props := studio_props scene in
  posixpath.join (bpy_path_abspath (world scene) (base_path props)) [folder_name props].

(** Returns: .../prp_Asset/v01 *)
Definition get_version_folder (scene : Context) (version_int : Z) : string :=
  let root := get_project_root scene in
  posixpath.join root ["v" ++ Py.format_02d version_int].

(** Returns: .../prp_Asset/arch *)
Definition get_arch_folder (scene : Context) : string :=
  let root := get_project_root scene in
  posixpath.join root ["arch"].

(** Returns: prp_Asset_v01_wip.blend *)
Definition get_blend_filename (scene : Context) (version_int : Z) (state : string) : string :=
  let props := studio_props scene in
  str_asset_type (asset_type props) ++ "_" ++ safe_name props
    ++ "_v" ++ Py.format_02d version_int ++ "_" ++ state ++ ".blend".

(* ====================================================================== *)
(** ** A state-and-exception monad for the operators *)
(* ====================================================================== *)

Inductive Result (A : Type) : Type :=
| Returns (a : A)
| Raises (e : Exn).
Arguments Returns {A} a.
Arguments Raises {A} e.

(** A computation reads and updates the context and either returns a value
    or raises; what it did to the context before raising stays done. *)
Definition M (A : Type) : Type := Context -> Result A * Context.

Definition ret {A} (a : A) : M A := fun ctx => (Returns a, ctx).

Definition bind {A B} (m : M A) (k : A -> M B) : M B := fun ctx =>
  match m ctx with
  | (Returns a, ctx') => k a ctx'
  | (Raises e, ctx') => (Raises e, ctx')
  end.

Definition raise {A} (e : Exn) : M A := fun ctx => (Raises e, ctx).

(** [try: body / except C as e: handler e], execution continuing after the
    statement in both cases; an exception outside [C] propagates. *)
Definition try_except {A} (body : M A) (C : Exn -> bool) (handler : Exn -> M A) : M A :=
  fun ctx =>
    match body ctx with
    | (Returns a, ctx') => (Returns a, ctx')
    | (Raises e, ctx') => if C e then handler e ctx' else (Raises e, ctx')
    end.

(** [try: body / except C as e: handler e; return ...] followed by the rest
    of the function [k]: the handler's value is the function's value, and
    [k] runs only when [body] returned, outside the [try]. *)
Definition try_except_return {A R} (body : M A) (C : Exn -> bool)
    (handler : Exn -> M R) (k : A -> M R) : M R :=
  fun ctx =>
    match body ctx with
    | (Returns a, ctx') => k a ctx'
    | (Raises e, ctx') => if C e then handler e ctx' else (Raises e, ctx')
    end.

(** Evaluating an expression in the current context. *)
Definition reads {A} (f : Context -> A) : M A := fun ctx => (Returns (f ctx), ctx).

Definition modify_world (f : World -> World) : M unit := fun ctx =>
  (Returns tt, mkContext (studio_props ctx) (f (world ctx))).

Definition modify_props (f : StudioProjectProps -> StudioProjectProps) : M unit := fun ctx =>
  (Returns tt, mkContext (f (studio_props ctx)) (world ctx)).

(** [if c: body] with no [else]. *)
Definition when (c : bool) (body : M unit) : M unit := if c then body else ret tt.

Declare Scope monad_scope.
Delimit Scope monad_scope with monad.
Notation "x <- m ;; k" := (bind m (fun x => k))
  (at level 61, m at next level, right associativity) : monad_scope.
Notation "m ;; k" := (bind m (fun _ => k))
  (at level 61, right associativity) : monad_scope.
Local Open Scope monad_scope.

(** *** Property assignments *)

Definition set_is_generated (b : bool) (p : StudioProjectProps) : StudioProjectProps :=
  mkProps (base_path p) (asset_type p) (asset_name p) (version p) b.

Definition set_version (v : Z) (p : StudioProjectProps) : StudioProjectProps :=
  mkProps (base_path p) (asset_type p) (asset_name p) v (is_generated p).

(** The range of a C [int], in which an [IntProperty] is stored. *)
Definition INT_MIN : Z := -2147483648.
Definition INT_MAX : Z := 2147483647.

(** *** World updates *)

Definition log_call (c : Call) (w : World) : World :=
  mkWorld (fs_dirs w) (fs_files w) (data_filepath w) (calls w ++ [c])%list (reports w).

Definition add_report (l : ReportLevel) (msg : string) (w : World) : World :=
  mkWorld (fs_dirs w) (fs_files w) (data_filepath w) (calls w) (reports w ++ [(l, msg)])%list.

Definition set_fs (dirs files : list node) (w : World) : World :=
  mkWorld dirs files (data_filepath w) (calls w) (reports w).

Definition set_data_filepath (p : string) (w : World) : World :=
  mkWorld (fs_dirs w) (fs_files w) p (calls w) (reports w).

(** [self.report({level}, msg)]. *)
Definition report (l : ReportLevel) (msg : string) : M unit :=
  modify_world (add_report l msg).

(** [props.version = v]: the host refuses a value outside the range of a
    C [int] with a [ValueError].  (A value below the declared minimum would
    be stored as the minimum; [v] is the current version plus one, and the
    current version is never below that minimum.) *)
Definition assign_version (v : Z) : M unit := fun ctx =>
  if ((v <? INT_MIN) || (INT_MAX <? v))%bool
  then (Raises (mkExn Exceptions.ValueError "value not in 'int' range"), ctx)
  else (Returns tt, mkContext (set_version v (studio_props ctx)) (world ctx)).

(** A directory entry exists; the entry with no component is the root or
    the current directory. *)
Definition node_isdir (w : World) (n : node) : bool :=
  match snd n with
  | [] => true
  | _ => mem n (fs_dirs w)
  end.

(* ====================================================================== *)
(** ** External operations *)
(* ====================================================================== *)

Section Operators.

Variable env : Env.

(** The entries of [l] before the first that is a file. *)
Fixpoint until_file (files : list node) (l : list node) : list node :=
  match l with
  | [] => []
  | a :: l' => if mem a files then [] else a :: until_file files l'
  end.

(** [os.makedirs(p, exist_ok=...)]: creates the missing directories above
    [p], from the top, and then [p].  An existing directory is left alone
    when [exist_ok] is set.  Any failure is an [OSError]; the directories
    made before it stay. *)
Definition os_makedirs (p : string) (exist_ok : bool) : M unit := fun ctx =>
  let w0 := world ctx in
  let w := log_call (os_makedirs_call p exist_ok) w0 in
  let n := node_of p in
  let made := fun ds =>
    mkContext (studio_props ctx) (set_fs (add_missing ds (fs_dirs w)) (fs_files w) w) in
  if isdir w0 p then
    if exist_ok then (Returns tt, mkContext (studio_props ctx) w)
    else (Raises (mkExn OSError ("File exists: " ++ p)), mkContext (studio_props ctx) w)
  else
    match snd n with
    | [] => (Raises (mkExn OSError ("No such file or directory: " ++ p)),
             mkContext (studio_props ctx) w)
    | _ =>
        match makedirs_fault env w0 p with
        | Some (msg, k) =>
            (Raises (mkExn OSError msg),
             made (firstn k (until_file (fs_files w0) (removelast (prefixes n)))))
        | None =>
            if existsb (fun a => mem a (fs_files w0)) (prefixes n) then
              (Raises (mkExn OSError ("Not a directory: " ++ p)),
               made (until_file (fs_files w0) (prefixes n)))
            else (Returns tt, made (prefixes n))
        end
    end.

(** Where [shutil.move(src, dst)] puts [src]: inside [dst] when that is an
    existing directory, at [dst] otherwise. *)
Definition real_dst (w : World) (src dst : string) : node :=
  let nd := node_of dst in
  if isdir w dst then (fst nd, (snd nd ++ [last (snd (node_of src)) ""])%list) else nd.

(** What a failed move leaves: the copies made, with the directories
    above them, and the entries below the source that are not removed. *)
Definition partial_move (f : MoveFailure) (ns nd : node) (w : World) : World :=
  let cd := filter (fun d => under ns d && copied f d) (fs_dirs w) in
  let cf := filter (fun x => under ns x && copied f x) (fs_files w) in
  let keep := fun n => negb (below ns n && removed f n) in
  set_fs (add_missing (flat_map (fun d => prefixes (rebase ns nd d)) cd ++
                       flat_map (fun x => prefixes (parent (rebase ns nd x))) cf)
                      (filter keep (fs_dirs w)))
         (add_missing (map (rebase ns nd) cf) (filter keep (fs_files w))) w.

(** [shutil.move(src, dst)]: the subtree at [src] is renamed, the
    directories above the destination being created as needed.  A move
    that fails part of the way raises and leaves what it had done. *)
Definition shutil_move (src dst : string) : M unit := fun ctx =>
  let w0 := world ctx in
  let w := log_call (shutil_move_call src dst) w0 in
  let ns := node_of src in
  let nd := real_dst w0 src dst in
  match move_fault env w0 src dst with
  | Some f => (Raises (move_exn f), mkContext (studio_props ctx) (partial_move f ns nd w))
  | None =>
      if negb (os_path_exists w0 src) then
        (Raises (mkExn OSError ("No such file or directory: " ++ src)),
         mkContext (studio_props ctx) w)
      else if mem nd (fs_dirs w0) || mem nd (fs_files w0) then
        (Raises (mkExn OSError ("Destination path already exists: " ++ dst)),
         mkContext (studio_props ctx) w)
      else if node_eqb (rebase ns nd nd) nd then
        (Returns tt,
         mkContext (studio_props ctx)
           (set_fs (add_missing (prefixes (parent nd)) (map (rebase ns nd) (fs_dirs w)))
                   (map (rebase ns nd) (fs_files w)) w))
      else
        (Raises (mkExn OSError ("Cannot move a directory into itself: " ++ src)),
         mkContext (studio_props ctx) w)
  end.

(** The status a host operator hands back through [bpy.ops]. *)
Definition host_op (c : Call) (outcome : World -> HostOutcome) : M OpResult := fun ctx =>
  let ctx' := mkContext (studio_props ctx) (log_call c (world ctx)) in
  match outcome (world ctx) with
  | Finishes => (Returns FINISHED, ctx')
  | Cancels => (Returns CANCELLED, ctx')
  | Errors msg => (Raises (mkExn RuntimeError msg), ctx')
  end.

Definition bpy_ops_object_select_all (action : string) : M OpResult :=
  host_op (object_select_all_call action) (select_all_outcome env).

Definition bpy_ops_object_delete : M OpResult :=
  host_op object_delete_call (delete_outcome env).

Definition bpy_ops_outliner_orphans_purge : M OpResult :=
  host_op outliner_orphans_purge_call (orphans_purge_outcome env).

(** The text of the [RuntimeError] that [bpy.ops] raises for an error
    report: the message after ["Error: "], and a line feed. *)
Definition newline : string := String (ascii_of_nat 10) "".

Definition error_text (msg : string) : string := "Error: " ++ msg ++ newline.

(** [bpy.ops.wm.save_as_mainfile(filepath=..., copy=...)]: writes the
    document to [filepath], which needs its directory to exist.  A file
    already there is kept as a backup beside it when the host keeps
    backups.  Unless [copy] is set the document then lives at [filepath],
    which the host records in absolute form.  A failed save is an error
    report of the host, which [bpy.ops] raises. *)
Definition bpy_ops_wm_save_as_mainfile (filepath : string) (copy : bool) : M OpResult :=
  fun ctx =>
  let w0 := world ctx in
  let w := log_call (wm_save_as_mainfile_call filepath copy) w0 in
  let n := node_of filepath in
  match save_fault env w0 filepath copy with
  | Some msg => (Raises (mkExn RuntimeError msg), mkContext (studio_props ctx) w)
  | None =>
      match snd n with
      | [] => (Raises (mkExn RuntimeError (error_text ("Cannot save to " ++ filepath))),
               mkContext (studio_props ctx) w)
      | _ =>
          if node_isdir w0 (parent n) && negb (mem n (fs_dirs w0)) then
            (Returns FINISHED,
             mkContext (studio_props ctx)
               (set_data_filepath
                  (if copy then data_filepath w else host_abspath (cwd env) filepath)
                  (set_fs (fs_dirs w)
                     (add_missing
                        (if keep_backup env && mem n (fs_files w0)
                         then [node_of (backup_of filepath); n] else [n])
                        (fs_files w)) w)))
          else
            (Raises (mkExn RuntimeError
                      (error_text ("Cannot open file " ++ filepath ++ " for writing"))),
             mkContext (studio_props ctx) w)
      end
  end.

(* ====================================================================== *)
(** ** Operators *)
(* ====================================================================== *)

(** *** [STUDIO_OT_create_structure]: Initialize the project folders and
    save the first file *)

(** The three [os.makedirs] calls inside the first [try]. *)
Definition create_structure_makedirs (wip_dir fin_dir arch_dir : string) : M unit :=
  os_makedirs wip_dir true ;;
  os_makedirs fin_dir true ;;
  os_makedirs arch_dir true.

(** The body of the second [try]. *)
Definition create_structure_save (full_path fname : string) : M unit :=
  bpy_ops_wm_save_as_mainfile full_path false ;;
  modify_props (set_is_generated true) ;;
  report INFO ("Workbench Initialized: " ++ fname).

Definition STUDIO_OT_create_structure_execute : M OpResult :=
  (* 1. Define paths for v01 *)
  ver_folder <- reads (fun context =>
                  get_version_folder context (version (studio_props context))) ;;
  let wip_dir := posixpath.join ver_folder ["wip"; "projects"] in
  let fin_dir := posixpath.join ver_folder ["fin"; "projects"] in
  arch_dir <- reads get_arch_folder ;;
  (* 2. Create physical folders *)
  try_except_return
    (create_structure_makedirs wip_dir fin_dir arch_dir)
    is_OSError
    (fun e => report ERROR ("Could not create folders: " ++ exn_msg e) ;;
              ret CANCELLED)
    (fun _ =>
  (* 3. Save the initial .blend file *)
  fname <- reads (fun context =>
             get_blend_filename context (version (studio_props context)) "wip") ;;
  let full_path := posixpath.join wip_dir [fname] in
  try_except_return
    (create_structure_save full_path fname)
    is_Exception
    (fun e => report ERROR ("Could not save file: " ++ exn_msg e) ;;
              ret CANCELLED)
    (fun _ => ret FINISHED)).

(** *** [STUDIO_OT_archive_and_iterate]: Archive current version and start
    the next *)

(** 1. Setup Next Version Folders *)
Definition archive_iterate_setup (new_wip_dir new_fin_dir : string) : M unit :=
  os_makedirs new_wip_dir true ;;
  os_makedirs new_fin_dir true.

(** 2. Wipe Scene (Optional) *)
Definition archive_iterate_wipe (wipe_scene : bool) : M unit :=
  when wipe_scene
    (bpy_ops_object_select_all "SELECT" ;;
     bpy_ops_object_delete ;;
     bpy_ops_outliner_orphans_purge ;;
     ret tt).

(** 4. Move Old Version to Archive *)
Definition archive_iterate_move (old_ver_folder arch_root : string) (cur_ver : Z) : M unit :=
  old_exists <- reads (fun context => os_path_exists (world context) old_ver_folder) ;;
  when old_exists
    (let dest_in_arch := posixpath.join arch_root ["v" ++ Py.format_02d cur_ver] in
     dest_exists <- reads (fun context => os_path_exists (world context) dest_in_arch) ;;
     if negb dest_exists then
       try_except
         (shutil_move old_ver_folder dest_in_arch ;;
          report INFO ("v" ++ Py.format_02d cur_ver ++ " Archived."))
         is_Exception
         (fun e => report WARNING ("Failed to move to archive: " ++ exn_msg e))
     else
       report WARNING ("Archive for v" ++ Py.format_02d cur_ver ++ " already exists.")).

Definition STUDIO_OT_archive_and_iterate_execute (wipe_scene : bool) : M OpResult :=
  cur_ver <- reads (fun context => version (studio_props context)) ;;
  let next_ver := cur_ver + 1 in
  old_ver_folder <- reads (fun context => get_version_folder context cur_ver) ;;
  arch_root <- reads get_arch_folder ;;
  (* 1. Setup Next Version Folders *)
  new_ver_folder <- reads (fun context => get_version_folder context next_ver) ;;
  let new_wip_dir := posixpath.join new_ver_folder ["wip"; "projects"] in
  let new_fin_dir := posixpath.join new_ver_folder ["fin"; "projects"] in
  archive_iterate_setup new_wip_dir new_fin_dir ;;
  (* 2. Wipe Scene (Optional) *)
  archive_iterate_wipe wipe_scene ;;
  (* 3. Save New Version File *)
  new_fname <- reads (fun context => get_blend_filename context next_ver "wip") ;;
  let new_filepath := posixpath.join new_wip_dir [new_fname] in
  bpy_ops_wm_save_as_mainfile new_filepath false ;;
  (* 4. Move Old Version to Archive *)
  archive_iterate_move old_ver_folder arch_root cur_ver ;;
  (* 5. Update Version Property *)
  assign_version next_ver ;;
  ret FINISHED.

(** *** [STUDIO_OT_finalize]: Save a copy to the FIN folder *)

Definition STUDIO_OT_finalize_execute : M OpResult :=
  ver_folder <- reads (fun context =>
                  get_version_folder context (version (studio_props context))) ;;
  let fin_dir := posixpath.join ver_folder ["fin"; "projects"] in
  fin_exists <- reads (fun context => os_path_exists (world context) fin_dir) ;;
  when (negb fin_exists) (os_makedirs fin_dir true) ;;
  fname <- reads (fun context =>
             get_blend_filename context (version (studio_props context)) "fin") ;;
  let path := posixpath.join fin_dir [fname] in
  bpy_ops_wm_save_as_mainfile path true ;;
  report INFO ("Published Final: " ++ fname) ;;
  ret FINISHED.

(** *** [STUDIO_OT_startup_dialog]: [return bpy.ops.studio.create_structure()]

    Called through [bpy.ops], an operator that reported an error raises a
    [RuntimeError] in the caller instead of handing back its status; the
    text of the exception is the report as [error_text] renders it. *)
Definition first_error (before after : list (ReportLevel * string)) : option string :=
  match find (fun r => match fst r with ERROR => true | _ => false end)
             (skipn (List.length before) after) with
  | Some r => Some (snd r)
  | None => None
  end.

Definition bpy_ops_studio_create_structure : M OpResult := fun ctx =>
  match STUDIO_OT_create_structure_execute ctx with
  | (Returns r, ctx') =>
      match first_error (reports (world ctx)) (reports (world ctx')) with
      | Some msg => (Raises (mkExn RuntimeError (error_text msg)), ctx')
      | None => (Returns r, ctx')
      end
  | (Raises e, ctx') => (Raises e, ctx')
  end.

Definition STUDIO_OT_startup_dialog_execute : M OpResult :=
  bpy_ops_studio_create_structure.

(** *** The operators a user can trigger *)

Inductive Operator :=
| create_structure
| archive_iterate (wipe_scene : bool)
| finalize
| startup_dialog.

Definition execute (op : Operator) : M OpResult :=
  match op with
  | create_structure => STUDIO_OT_create_structure_execute
  | archive_iterate wipe_scene => STUDIO_OT_archive_and_iterate_execute wipe_scene
  | finalize => STUDIO_OT_finalize_execute
  | startup_dialog => STUDIO_OT_startup_dialog_execute
  end.

End Operators.

(* ====================================================================== *)
(** ** Notions used to state the properties *)
(* ====================================================================== *)

(** The string contains a path separator. *)
Fixpoint has_sep (s : string) : bool :=
  match s with
  | EmptyString => false
  | String c s' => Ascii.eqb c posixpath.sep || has_sep s'
  end.

(** [p] is a direct child of [root]: it extends [root] as a string, the
    entry right above it is the entry of [root], and it is not that entry. *)
Definition is_direct_child (root p : string) : bool :=
  Py.startswith root p
  && node_eqb (parent (node_of p)) (node_of root)
  && negb (node_eqb (node_of p) (node_of root)).

(** The separator [os.path.join] inserts after [path]. *)
Definition join_sep (path : string) : string :=
  if (String.eqb path "" || Py.endswith posixpath.sep path)%bool then "" else "/".

(** Reading back a run of decimal digits (leading zeros allowed). *)
Definition parse_decimal (s : string) : option Z :=
  option_map Z.of_uint (NilEmpty.uint_of_string s).

(** What sanitization does to one character. *)
Definition sanitize_char (c : ascii) : ascii :=
  if Ascii.eqb c " " then "_"%char else c.

(** Sample scenes used to evaluate the path builder. *)
Definition scene_default : Context :=
  mkContext default_props (mkWorld [] [] "/home/u/untitled.blend" [] []).

Definition scene_a : Context :=
  mkContext (mkProps "/a" chr "Hero" 1 false) (mkWorld [] [] "" [] []).

Definition scene_b : Context :=
  mkContext (mkProps "/b" chr "Hero" 1 false) (mkWorld [] [] "" [] []).

(** Same asset and root as [scene_a]; everything else differs. *)
Definition scene_a_later : Context :=
  mkContext (mkProps "/a" chr "Hero" 7 true)
            (mkWorld [(true, ["a"])] [] "/elsewhere/x.blend"
                     [object_delete_call] [(INFO, "note")]).

(** *** Frame conditions

    [preserves R m]: whatever [m] does, and whether it returns or raises,
    the context it leaves is related by [R] to the one it started from. *)
Definition preserves {A} (R : Context -> Context -> Prop) (m : M A) : Prop :=
  forall ctx, R ctx (snd (m ctx)).

(** The property group is untouched. *)
Definition same_props (c c' : Context) : Prop := studio_props c' = studio_props c.

(** Every field of the property group but [is_generated] is untouched. *)
Definition same_config (c c' : Context) : Prop :=
  set_is_generated false (studio_props c') = set_is_generated false (studio_props c).

(** The document still lives where it did. *)
Definition same_filepath (c c' : Context) : Prop :=
  data_filepath (world c') = data_filepath (world c).

(** No directory entry was removed. *)
Definition dirs_kept (c c' : Context) : Prop :=
  forall n, mem n (fs_dirs (world c)) = true -> mem n (fs_dirs (world c')) = true.

(** The file system is untouched. *)
Definition same_fs (c c' : Context) : Prop :=
  fs_dirs (world c') = fs_dirs (world c) /\ fs_files (world c') = fs_files (world c).

(** No message was reported. *)
Definition same_reports (c c' : Context) : Prop :=
  reports (world c') = reports (world c).

(** [c] saved the document: one of the calls is a save. *)
Definition is_save_call (c : Call) : bool :=
  match c with wm_save_as_mainfile_call _ _ => true | _ => false end.

(** Only [os.makedirs] calls were issued: the log grew by calls that are
    all directory creations. *)
Definition is_makedirs_call (c : Call) : bool :=
  match c with os_makedirs_call _ _ => true | _ => false end.

Definition only_makedirs (c c' : Context) : Prop :=
  exists new, calls (world c') = (calls (world c) ++ new)%list /\
              forallb is_makedirs_call new = true.

(** *** The paths an operator works on, as it computes them *)

(** [os.path.join(ver_folder, "wip", "projects")] for version [v]. *)
Definition wip_dir_of (scene : Context) (v : Z) : string :=
  posixpath.join (get_version_folder scene v) ["wip"; "projects"].

(** [os.path.join(ver_folder, "fin", "projects")] for version [v]. *)
Definition fin_dir_of (scene : Context) (v : Z) : string :=
  posixpath.join (get_version_folder scene v) ["fin"; "projects"].

(** The wip file of version [v], inside its working-projects folder. *)
Definition wip_path_of (scene : Context) (v : Z) : string :=
  posixpath.join (wip_dir_of scene v) [get_blend_filename scene v "wip"].

(** The fin file of version [v], inside its final-projects folder. *)
Definition fin_path_of (scene : Context) (v : Z) : string :=
  posixpath.join (fin_dir_of scene v) [get_blend_filename scene v "fin"].

(** [c] with one more message reported. *)
Definition reported (l : ReportLevel) (msg : string) (c : Context) : Context :=
  mkContext (studio_props c) (add_report l msg (world c)).

(** *** Sample runs *)

(** An empty disk, an unsaved document, nothing logged. *)
Definition fresh_world : World := mkWorld [] [] "" [] [].

(** A project rooted at an absolute path, not yet initialized. *)
Definition fresh_project : Context :=
  mkContext (mkProps "/proj" prp "My Asset" 1 false) fresh_world.

(** A project with the declared defaults, its document never saved. *)
Definition default_project : Context := mkContext default_props fresh_world.

(** Every directory creation is refused. *)
Definition env_makedirs_denied : Env :=
  mkEnv "/home/u" true
        (fun _ _ => Some ("Permission denied", 0%nat))
        (fun _ _ _ => None) (fun _ _ _ => None)
        (fun _ => Finishes) (fun _ => Finishes) (fun _ => Finishes).

(** Every save is refused. *)
Definition env_save_denied : Env :=
  mkEnv "/home/u" true
        (fun _ _ => None) (fun _ _ _ => None) (fun _ _ _ => Some "Cannot save")
        (fun _ => Finishes) (fun _ => Finishes) (fun _ => Finishes).

(** Every move is refused. *)
Definition env_move_denied : Env :=
  mkEnv "/home/u" true
        (fun _ _ => None)
        (fun _ _ _ => Some (refused (mkExn OSError "Device or resource busy")))
        (fun _ _ _ => None)
        (fun _ => Finishes) (fun _ => Finishes) (fun _ => Finishes).

(** Every move fails after the source has been copied to the destination
    and before anything is removed. *)
Definition env_move_half_done : Env :=
  mkEnv "/home/u" true
        (fun _ _ => None)
        (fun _ _ _ => Some (mkMoveFailure (mkExn OSError "Directory not empty")
                                          (fun _ => true) (fun _ => false)))
        (fun _ _ _ => None)
        (fun _ => Finishes) (fun _ => Finishes) (fun _ => Finishes).

(** The host's delete operator cancels (nothing is selected); the purge
    finds nothing to do. *)
Definition env_wipe_cancelled : Env :=
  mkEnv "/home/u" true (fun _ _ => None) (fun _ _ _ => None) (fun _ _ _ => None)
        (fun _ => Finishes) (fun _ => Cancels) (fun _ => Cancels).

(** The host's delete operator fails its poll. *)
Definition env_wipe_error : Env :=
  mkEnv "/home/u" true (fun _ _ => None) (fun _ _ _ => None) (fun _ _ _ => None)
        (fun _ => Finishes) (fun _ => Errors "context is incorrect") (fun _ => Finishes).

(** The project of [fresh_project] after a successful initialization. *)
Definition initialized_project : Context :=
  snd (STUDIO_OT_create_structure_execute no_faults fresh_project).

(** Running operators one after the other, whatever each one returns. *)
Fixpoint run_all (env : Env) (ops : list Operator) (ctx : Context) : Context :=
  match ops with
  | [] => ctx
  | op :: ops' => run_all env ops' (snd (execute env op ctx))
  end.

(** The same context with the [is_generated] flag set to [b]. *)
Definition with_is_generated (b : bool) (c : Context) : Context :=
  mkContext (set_is_generated b (studio_props c)) (world c).

(** [m] does not look at [is_generated]: with the flag changed it returns
    or raises the same and does the same to everything else. *)
Definition flag_blind {A} (m : M A) : Prop :=
  forall b ctx, m (with_is_generated b ctx) = (fst (m ctx), with_is_generated b (snd (m ctx))).

(** Version Up on the initialized project when directory creation is refused. *)
Definition run_iterate_makedirs_denied : Result OpResult * Context :=
  STUDIO_OT_archive_and_iterate_execute env_makedirs_denied true initialized_project.

(** Version Up on the initialized project when the host's delete fails. *)
Definition run_iterate_wipe_error : Result OpResult * Context :=
  STUDIO_OT_archive_and_iterate_execute env_wipe_error true initialized_project.

(** The calls issued after the first [n]. *)
Definition calls_after (n : nat) (c : Context) : list Call := skipn n (calls (world c)).

(** Step 4 on the initialized project, nothing failing. *)
Definition run_archive_step_ok : Result unit * Context :=
  archive_iterate_move no_faults "/proj/prp_My_Asset/v01" "/proj/prp_My_Asset/arch" 1
                       initialized_project.

(** The initialized project with version 1 already in the archive. *)
Definition project_with_archived_v01 : Context :=
  snd (os_makedirs no_faults "/proj/prp_My_Asset/arch/v01" true initialized_project).

(** The log of calls only grew. *)
Definition calls_kept (c c' : Context) : Prop :=
  exists new, calls (world c') = (calls (world c) ++ new)%list.

(* ====================================================================== *)
(** ** Further notions: what a run calls, keeps and changes *)
(* ====================================================================== *)

(** The log grew by calls that all satisfy [P]. *)
Definition new_calls_satisfy (P : Call -> bool) (c c' : Context) : Prop :=
  exists new, calls (world c') = (calls (world c) ++ new)%list /\ forallb P new = true.

(** Calls that change the host's scene. *)
Definition is_scene_call (c : Call) : bool :=
  match c with
  | object_select_all_call _ | object_delete_call | outliner_orphans_purge_call => true
  | _ => false
  end.

Definition is_move_call (c : Call) : bool :=
  match c with shutil_move_call _ _ => true | _ => false end.

(** No entry of the file system was removed. *)
Definition fs_kept (c c' : Context) : Prop :=
  (forall n, mem n (fs_dirs (world c)) = true -> mem n (fs_dirs (world c')) = true) /\
  (forall n, mem n (fs_files (world c)) = true -> mem n (fs_files (world c')) = true).

(** The property group is as before, or as before with [is_generated] set. *)
Definition flag_raised_only (c c' : Context) : Prop :=
  studio_props c' = studio_props c \/
  studio_props c' = set_is_generated true (studio_props c).

(** The directories allow a file to be written at [f]: the path names
    something, its directory exists and it is not itself a directory. *)
Definition save_possible (w : World) (f : string) : bool :=
  match snd (node_of f) with
  | [] => false
  | _ => node_isdir w (parent (node_of f)) && negb (mem (node_of f) (fs_dirs w))
  end.

(** The open document is the wip file of the current version. *)
Definition at_current_wip (c : Context) : Prop :=
  data_filepath (world c) = wip_path_of c (version (studio_props c)).

(** A path component that normalisation keeps: not empty, not [.], not [..]. *)
Definition is_simple (c : string) : bool :=
  negb (String.eqb c "" || String.eqb c "." || String.eqb c "..").

(** The fields that name the project are as before. *)
Definition same_identity (c c' : Context) : Prop :=
  base_path (studio_props c') = base_path (studio_props c) /\
  asset_type (studio_props c') = asset_type (studio_props c) /\
  asset_name (studio_props c') = asset_name (studio_props c).

(** [os.path.join(arch_root, f"v{cur_ver:02d}")], where step 4 of Version Up
    moves version [v]. *)
Definition dest_in_arch_of (scene : Context) (v : Z) : string :=
  posixpath.join (get_arch_folder scene) ["v" ++ Py.format_02d v].

(* ====================================================================== *)
(** ** User interface: what the [draw] methods lay out *)
(* ====================================================================== *)

(** [os.path.basename(p)]: what follows the last separator. *)
Fixpoint take_while (f : ascii -> bool) (l : list ascii) : list ascii :=
  match l with
  | [] => []
  | c :: l' => if f c then c :: take_while f l' else []
  end.

Definition os_path_basename (p : string) : string :=
  string_of_list_ascii
    (rev (take_while (fun c => negb (Ascii.eqb c posixpath.sep))
                     (rev (list_ascii_of_string p)))).

(** Whose property a [layout.prop] edits: the scene's property group or the
    operator itself. *)
Inductive PropOwner := of_studio_props | of_operator.

(** A layout, as the calls on [self.layout] build it.  An attribute that
    the code does not set is [None]; a number is kept as written. *)
#[warnings="-register-all"]
Inductive UI :=
| ui_label (text : string) (icon : option string)
| ui_operator (idname text : string) (icon : option string)
| ui_prop (owner : PropOwner) (property : string) (text : option string)
| ui_separator
| ui_column (align : bool) (scale_y : option string) (active : bool) (items : list UI)
| ui_box (items : list UI)
| ui_row (alignment : option string) (items : list UI).

(** The operators a layout offers, by [bl_idname], in display order. *)
Fixpoint operators_in (u : UI) : list string :=
  match u with
  | ui_operator idname _ _ => [idname]
  | ui_column _ _ _ items => flat_map operators_in items
  | ui_box items => flat_map operators_in items
  | ui_row _ items => flat_map operators_in items
  | _ => []
  end.

(** The properties a layout lets the user edit. *)
Fixpoint props_in (u : UI) : list (PropOwner * string) :=
  match u with
  | ui_prop owner property _ => [(owner, property)]
  | ui_column _ _ _ items => flat_map props_in items
  | ui_box items => flat_map props_in items
  | ui_row _ items => flat_map props_in items
  | _ => []
  end.

(** The texts a layout shows as labels. *)
Fixpoint labels_in (u : UI) : list string :=
  match u with
  | ui_label text _ => [text]
  | ui_column _ _ _ items => flat_map labels_in items
  | ui_box items => flat_map labels_in items
  | ui_row _ items => flat_map labels_in items
  | _ => []
  end.

(** [STUDIO_OT_archive_and_iterate.draw] *)
Definition STUDIO_OT_archive_and_iterate_draw (context : Context) : list UI :=
  let props := studio_props context in
  let current := version props in
  [ui_box [ui_label ("Archive: v" ++ Py.format_02d current) (Some "FILE_FOLDER");
           ui_label ("Create:  v" ++ Py.format_02d (current + 1)) (Some "FILE_NEW")];
   ui_separator;
   ui_prop of_operator "wipe_scene" None].

(** [STUDIO_OT_startup_dialog.draw] *)
Definition STUDIO_OT_startup_dialog_draw (context : Context) : list UI :=
  [ui_label "Project Settings" (Some "PREFERENCES");
   ui_box [ui_prop of_studio_props "base_path" None];
   ui_box [ui_row None [ui_prop of_studio_props "asset_type" (Some "");
                        ui_prop of_studio_props "asset_name" (Some "")]];
   ui_separator;
   ui_label "Initial Version: v01" None].

(** The folder the panel's footer names: the last component of the
    directory of the open document, or "Unsaved". *)
Definition footer_folder_name (context : Context) : string :=
  let path := posixpath.dirname (data_filepath (world context)) in
  if String.eqb path "" then "Unsaved" else os_path_basename path.

(** [STUDIO_PT_asset_management.draw] *)
Definition STUDIO_PT_asset_management_draw (context : Context) : list UI :=
  let props := studio_props context in
  (* If project isn't set up, show the setup button *)
  if negb (is_generated props) then
    [ui_column true (Some "1.5") true
       [ui_operator "studio.startup_dialog" "Setup Project" (Some "FILE_NEW")]]
  else
    (* Main Interface *)
    [ui_box [ui_row (Some "CENTER")
               [ui_label (asset_name props) (Some "OUTLINER_OB_GROUP_INSTANCE");
                ui_label ("v" ++ Py.format_02d (version props)) None]];
     ui_separator;
     (* Operations *)
     ui_column true (Some "1.2") true
       [ui_operator "studio.finalize" "Publish Final" None;
        ui_operator "studio.archive_iterate" "Version Up" None];
     ui_separator;
     (* Footer info *)
     ui_column true None false
       [ui_label "Current State: WIP" (Some "TIME");
        ui_label ("Folder: .../" ++ footer_folder_name context ++ "/") None]].

(** [bl_idname] of the operator classes. *)
Definition bl_idname (op : Operator) : string :=
  match op with
  | create_structure => "studio.create_structure"
  | archive_iterate _ => "studio.archive_iterate"
  | finalize => "studio.finalize"
  | startup_dialog => "studio.startup_dialog"
  end.

(* ====================================================================== *)
(** ** Registration and the load handler *)
(* ====================================================================== *)

(** The members of [classes], in the tuple's order. *)
Inductive RegClass :=
| cls_StudioProjectProps
| cls_STUDIO_OT_create_structure
| cls_STUDIO_OT_startup_dialog
| cls_STUDIO_OT_archive_and_iterate
| cls_STUDIO_OT_finalize
| cls_STUDIO_PT_asset_management.

Definition classes : list RegClass :=
  [cls_StudioProjectProps; cls_STUDIO_OT_create_structure; cls_STUDIO_OT_startup_dialog;
   cls_STUDIO_OT_archive_and_iterate; cls_STUDIO_OT_finalize;
   cls_STUDIO_PT_asset_management].

Definition RegClass_eq_dec (a b : RegClass) : {a = b} + {a <> b}.
Proof. decide equality. Defined.

(** A load handler: this add-on's, or somebody else's. *)
Inductive Handler := the_workbench_load_handler | other_handler (name : string).

Definition Handler_eq_dec (a b : Handler) : {a = b} + {a <> b}.
Proof. decide equality. apply string_dec. Defined.

(** What a timer runs: [lambda: bpy.ops.studio.startup_dialog('INVOKE_DEFAULT')]. *)
Inductive Callback := invoke_startup_dialog.

Record Timer := mkTimer { timer_callback : Callback; first_interval : string }.

(** The host's registries. *)
Record Bpy := mkBpy {
  registered : list RegClass;     (* classes known to bpy.utils *)
  Scene_studio_props : bool;      (* bpy.types.Scene.studio_props is defined *)
  load_post : list Handler;       (* bpy.app.handlers.load_post *)
  timers : list Timer             (* bpy.app.timers *)
}.

Inductive PyError :=
| ValueError (msg : string)
| AttributeError (msg : string)
| RegistrationError (msg : string).

(** A registration step: the registries it leaves and, if it raised, what. *)
Definition Reg : Type := Bpy -> option PyError * Bpy.

(** [bpy.utils.register_class(cls)]: a class registers once. *)
Definition register_class (cls : RegClass) : Reg := fun b =>
  if in_dec RegClass_eq_dec cls (registered b)
  then (Some (ValueError "already registered"), b)
  else (None, mkBpy (registered b ++ [cls])%list (Scene_studio_props b)
                    (load_post b) (timers b)).

(** [bpy.utils.unregister_class(cls)]: only a registered class unregisters. *)
Definition unregister_class (cls : RegClass) : Reg := fun b =>
  if in_dec RegClass_eq_dec cls (registered b)
  then (None, mkBpy (remove RegClass_eq_dec cls (registered b)) (Scene_studio_props b)
                    (load_post b) (timers b))
  else (Some (RegistrationError "not registered"), b).

(** [for cls in cs: f(cls)]: stops at the first call that raises. *)
Fixpoint for_each (f : RegClass -> Reg) (cs : list RegClass) : Reg := fun b =>
  match cs with
  | [] => (None, b)
  | cls :: cs' =>
      match f cls b with
      | (None, b') => for_each f cs' b'
      | (Some e, b') => (Some e, b')
      end
  end.

(** [l.remove(x)]: removes the first occurrence. *)
Fixpoint list_remove_first (x : Handler) (l : list Handler) : list Handler :=
  match l with
  | [] => []
  | y :: l' => if Handler_eq_dec x y then l' else y :: list_remove_first x l'
  end.

Definition handler_in (x : Handler) (l : list Handler) : bool :=
  if in_dec Handler_eq_dec x l then true else false.

(** [register()] *)
Definition register : Reg := fun b =>
  match for_each register_class classes b with
  | (Some e, b') => (Some e, b')
  | (None, b1) =>
      let b2 := mkBpy (registered b1) true (load_post b1) (timers b1) in
      (* Register the handler that makes this behave like an App Template *)
      if negb (handler_in the_workbench_load_handler (load_post b2))
      then (None, mkBpy (registered b2) (Scene_studio_props b2)
                        (load_post b2 ++ [the_workbench_load_handler])%list (timers b2))
      else (None, b2)
  end.

(** [unregister()] *)
Definition unregister : Reg := fun b =>
  let b1 :=
    if handler_in the_workbench_load_handler (load_post b)
    then mkBpy (registered b) (Scene_studio_props b)
               (list_remove_first the_workbench_load_handler (load_post b)) (timers b)
    else b in
  (* del bpy.types.Scene.studio_props *)
  if Scene_studio_props b1
  then for_each unregister_class classes
                (mkBpy (registered b1) false (load_post b1) (timers b1))
  else (Some (AttributeError "studio_props"), b1).

(** [workbench_load_handler(dummy)], run by the host after a file is
    loaded: [scene] is [bpy.context.scene], if there is one.  Reading
    [studio_props] raises [AttributeError] when there is no scene or the
    property is not defined; the handler swallows it. *)
Definition workbench_load_handler (scene : option Context) (b : Bpy) : Bpy :=
  match (if Scene_studio_props b then scene else None) with
  | Some c =>
      if negb (is_generated (studio_props c))
      then mkBpy (registered b) (Scene_studio_props b) (load_post b)
                 (timers b ++ [mkTimer invoke_startup_dialog "0.1"])%list
      else b
  | None => b
  end.

(** Registries in which nothing of the add-on is present. *)
Definition clean (b : Bpy) : Prop :=
  (forall c, In c classes -> ~ In c (registered b)) /\
  Scene_studio_props b = false /\
  ~ In the_workbench_load_handler (load_post b).

Definition sample_bpy : Bpy :=
  mkBpy [] false [other_handler "autosave"] [].

(* ====================================================================== *)
(** * Properties *)
(* ====================================================================== *)

(** ** Evaluation of the path primitives on sample inputs *)

Example format_02d_1 : Py.format_02d 1 = "01". Proof. reflexivity. Qed.
Example format_02d_12 : Py.format_02d 12 = "12". Proof. reflexivity. Qed.
Example format_02d_123 : Py.format_02d 123 = "123". Proof. reflexivity. Qed.
Example format_02d_neg : Py.format_02d (-5) = "-5". Proof. reflexivity. Qed.
Example join_abs : posixpath.join "/a" ["/b"; "c"] = "/b/c". Proof. reflexivity. Qed.
Example join_trailing : posixpath.join "/a/" ["b"; "c"] = "/a/b/c". Proof. reflexivity. Qed.
Example join_empty : posixpath.join "" ["b"] = "b". Proof. reflexivity. Qed.
Example dirname_file : posixpath.dirname "/a/b/c.blend" = "/a/b". Proof. reflexivity. Qed.
Example dirname_root : posixpath.dirname "/c.blend" = "/". Proof. reflexivity. Qed.
Example dirname_none : posixpath.dirname "c.blend" = "". Proof. reflexivity. Qed.
Example dirname_slashes : posixpath.dirname "/a//b" = "/a". Proof. reflexivity. Qed.
Example split_sep_abs : split_sep "/a//b/" = [""; "a"; ""; "b"; ""]. Proof. reflexivity. Qed.
Example node_of_abs : node_of "/a//b/" = (true, ["a"; "b"]). Proof. reflexivity. Qed.
Example node_of_rel : node_of "a/b" = (false, ["a"; "b"]). Proof. reflexivity. Qed.
Example abspath_relative :
  bpy_path_abspath (mkWorld [] [] "/home/u/scene.blend" [] []) "//" = "/home/u/".
Proof. reflexivity. Qed.
Example abspath_absolute :
  bpy_path_abspath (mkWorld [] [] "/home/u/scene.blend" [] []) "/proj" = "/proj".
Proof. reflexivity. Qed.

(** ** Strings *)

#[local] Arguments Ascii.eqb : simpl never.

Lemma append_inj_l (p a b : string) : p ++ a = p ++ b -> a = b.
Proof.
  induction p as [|c p IH]; simpl; intros H; [exact H|].
  injection H as H. auto.
Qed.

Lemma append_assoc (a b c : string) : (a ++ b) ++ c = a ++ b ++ c.
Proof. induction a as [|x a IH]; simpl; [reflexivity | now rewrite IH]. Qed.

Lemma append_nonempty_r (a b : string) : b <> "" -> a ++ b <> "".
Proof. destruct a; simpl; [auto | discriminate]. Qed.

Lemma startswith_append (a b : string) : Py.startswith a (a ++ b) = true.
Proof.
  induction a as [|c a IH]; simpl; [reflexivity|].
  now rewrite Ascii.eqb_refl.
Qed.

Lemma has_sep_append (a b : string) : has_sep (a ++ b) = has_sep a || has_sep b.
Proof. induction a as [|c a IH]; simpl; [reflexivity | now rewrite IH, orb_assoc]. Qed.

Lemma startswith_sep (s : string) :
  Py.startswith "/" s = true -> has_sep s = true.
Proof.
  destruct s as [|c s]; simpl; [discriminate|].
  rewrite Ascii.eqb_sym. unfold posixpath.sep.
  destruct (Ascii.eqb c "/"); [reflexivity | discriminate].
Qed.

Lemma startswith_sep_append (a b : string) :
  a <> "" -> Py.startswith "/" (a ++ b) = Py.startswith "/" a.
Proof.
  destruct a as [|c a]; [congruence|]. intros _. reflexivity.
Qed.

Lemma endswith_sep_inv (s : string) :
  Py.endswith posixpath.sep s = true -> exists r, s = r ++ "/".
Proof.
  unfold Py.endswith. induction s as [|c s IH]; simpl; [discriminate|].
  destruct s as [|d s].
  - intros H. apply Ascii.eqb_eq in H. subst c. now exists "".
  - intros H. destruct (IH H) as [r Hr]. exists (String c r). simpl. now rewrite <- Hr.
Qed.

(** ** Sanitization *)

Lemma replace_length (old new : ascii) (s : string) :
  String.length (Py.replace old new s) = String.length s.
Proof. induction s; simpl; congruence. Qed.

Lemma replace_get (old new : ascii) (s : string) (n : nat) :
  String.get n (Py.replace old new s) =
  option_map (fun c => if Ascii.eqb c old then new else c) (String.get n s).
Proof.
  revert n. induction s as [|c s IH]; intros [|n]; simpl; auto.
Qed.

Lemma replace_no_old (old new : ascii) (s : string) (n : nat) :
  old <> new -> String.get n (Py.replace old new s) <> Some old.
Proof.
  intros Hne. rewrite replace_get. destruct (String.get n s) as [c|]; simpl; [|discriminate].
  destruct (Ascii.eqb c old) eqn:E; intros [= H]; [congruence|].
  apply Ascii.eqb_neq in E. congruence.
Qed.

(** ** Decimal rendering *)

Lemma parse_str_int (v : Z) : 0 <= v -> parse_decimal (Py.str_int v) = Some v.
Proof.
  intros Hv. unfold parse_decimal, Py.str_int.
  destruct v as [|p|p]; [reflexivity | | lia].
  simpl. rewrite NilEmpty.usu. simpl. unfold Z.of_uint.
  now rewrite DecimalPos.Unsigned.of_to.
Qed.

Lemma parse_format_02d (v : Z) : 0 <= v -> parse_decimal (Py.format_02d v) = Some v.
Proof.
  intros Hv. unfold Py.format_02d. cbv zeta.
  destruct (String.length (Py.str_int v) <? 2)%nat; [|now apply parse_str_int].
  pose proof (parse_str_int v Hv) as H. unfold parse_decimal in *. simpl.
  destruct (NilEmpty.uint_of_string (Py.str_int v)) as [d|]; simpl in *; [|discriminate].
  exact H.
Qed.

Lemma format_02d_inj (v1 v2 : Z) :
  0 <= v1 -> 0 <= v2 -> Py.format_02d v1 = Py.format_02d v2 -> v1 = v2.
Proof.
  intros H1 H2 E. apply parse_format_02d in H1, H2. rewrite E in H1. congruence.
Qed.

Lemma has_sep_uint (d : Decimal.uint) : has_sep (NilEmpty.string_of_uint d) = false.
Proof. induction d; simpl; auto. Qed.

Lemma has_sep_str_int (v : Z) : has_sep (Py.str_int v) = false.
Proof. destruct v; unfold Py.str_int; simpl; auto using has_sep_uint. Qed.

Lemma has_sep_format_02d (v : Z) : has_sep (Py.format_02d v) = false.
Proof.
  unfold Py.format_02d. cbv zeta.
  destruct (String.length (Py.str_int v) <? 2)%nat; simpl; apply has_sep_str_int.
Qed.

(** ** Paths and file-system entries *)

Lemma split_sep_nonempty (s : string) : split_sep s <> [].
Proof.
  induction s as [|c s IH]; simpl; [discriminate|].
  destruct (Ascii.eqb c posixpath.sep); [discriminate|].
  destruct (split_sep s); [contradiction | discriminate].
Qed.

Lemma split_sep_no_sep (s : string) : has_sep s = false -> split_sep s = [s].
Proof.
  induction s as [|c s IH]; simpl; [reflexivity|].
  destruct (Ascii.eqb c posixpath.sep); simpl; [discriminate|].
  intros H. now rewrite (IH H).
Qed.

Lemma split_sep_append (a b : string) :
  split_sep (a ++ String "/" b) = (split_sep a ++ split_sep b)%list.
Proof.
  induction a as [|c a IH]; simpl.
  - reflexivity.
  - rewrite IH. destruct (Ascii.eqb c posixpath.sep); [reflexivity|].
    pose proof (split_sep_nonempty a) as Hne.
    destruct (split_sep a); [contradiction | reflexivity].
Qed.

Lemma components_append (a b : string) :
  snd (node_of (a ++ String "/" b)) = (snd (node_of a) ++ snd (node_of b))%list.
Proof. unfold node_of. simpl. now rewrite split_sep_append, filter_app. Qed.

Lemma components_single (name : string) :
  name <> "" -> has_sep name = false -> snd (node_of name) = [name].
Proof.
  intros Hne Hs. unfold node_of. simpl. rewrite (split_sep_no_sep _ Hs). simpl.
  destruct (String.eqb name "") eqn:E; [|reflexivity].
  apply String.eqb_eq in E. contradiction.
Qed.

Lemma node_eqb_refl (n : node) : node_eqb n n = true.
Proof.
  unfold node_eqb. rewrite Bool.eqb_reflx. simpl.
  destruct (list_eq_dec string_dec (snd n) (snd n)); congruence.
Qed.

Lemma node_eqb_eq (a b : node) : node_eqb a b = true <-> a = b.
Proof.
  split; [|intros ->; apply node_eqb_refl].
  unfold node_eqb. destruct a as [a1 a2], b as [b1 b2]. simpl.
  intros H. apply andb_prop in H as [H1 H2]. apply Bool.eqb_prop in H1.
  destruct (list_eq_dec string_dec a2 b2); [congruence | discriminate].
Qed.

Lemma join2_relative (path b : string) :
  Py.startswith "/" b = false -> posixpath.join2 path b = path ++ join_sep path ++ b.
Proof.
  intros H. unfold posixpath.join2, join_sep. rewrite H.
  now destruct (String.eqb path "" || Py.endswith posixpath.sep path)%bool.
Qed.

Lemma no_sep_relative (b : string) : has_sep b = false -> Py.startswith "/" b = false.
Proof.
  intros H. destruct (Py.startswith "/" b) eqn:E; [|reflexivity].
  apply startswith_sep in E. congruence.
Qed.

Lemma join_app (a : string) (l1 l2 : list string) :
  posixpath.join a (l1 ++ l2)%list = posixpath.join (posixpath.join a l1) l2.
Proof. apply fold_left_app. Qed.

(** Joining one separator-free name onto a path goes one entry down. *)
Lemma node_of_join2 (path name : string) :
  path <> "" -> name <> "" -> has_sep name = false ->
  node_of (posixpath.join2 path name) =
  (fst (node_of path), (snd (node_of path) ++ [name])%list).
Proof.
  intros Hp Hn Hs. rewrite (join2_relative _ _ (no_sep_relative _ Hs)).
  apply injective_projections.
  - unfold node_of at 1 2. cbn [fst]. now apply startswith_sep_append.
  - cbn [snd]. unfold join_sep.
    destruct (String.eqb path "") eqn:E; [apply String.eqb_eq in E; contradiction|].
    cbn [orb]. destruct (Py.endswith posixpath.sep path) eqn:E2.
    + apply endswith_sep_inv in E2 as [r ->].
      change ((r ++ "/") ++ "" ++ name) with ((r ++ "/") ++ name).
      rewrite append_assoc.
      change ("/" ++ name) with (String "/" name).
      change (r ++ "/") with (r ++ String "/" "").
      rewrite !components_append, (components_single _ Hn Hs).
      change (snd (node_of "")) with (@nil string). now rewrite app_nil_r.
    + change (path ++ "/" ++ name) with (path ++ String "/" name).
      now rewrite components_append, (components_single _ Hn Hs).
Qed.

Lemma is_direct_child_join2 (path name : string) :
  path <> "" -> name <> "" -> has_sep name = false ->
  is_direct_child path (posixpath.join2 path name) = true.
Proof.
  intros Hp Hn Hs. unfold is_direct_child.
  rewrite (node_of_join2 _ _ Hp Hn Hs).
  rewrite (join2_relative _ _ (no_sep_relative _ Hs)), startswith_append.
  unfold parent. cbn [fst snd]. rewrite removelast_last.
  rewrite <- surjective_pairing, node_eqb_refl. cbn [andb].
  destruct (node_eqb _ _) eqn:E; [|reflexivity].
  apply node_eqb_eq in E. apply (f_equal snd) in E. cbn [snd] in E.
  apply (f_equal (@List.length string)) in E. rewrite length_app in E. simpl in E. lia.
Qed.

Lemma str_asset_type_cases (t : AssetType) :
  str_asset_type t = "prp" \/ str_asset_type t = "chr" \/ str_asset_type t = "res".
Proof. destruct t; auto. Qed.

Lemma folder_name_relative (props : StudioProjectProps) :
  Py.startswith "/" (folder_name props) = false.
Proof. unfold folder_name. now destruct (asset_type props). Qed.

Lemma folder_name_nonempty (props : StudioProjectProps) : folder_name props <> "".
Proof. unfold folder_name. now destruct (asset_type props). Qed.

Lemma get_project_root_nonempty (scene : Context) : get_project_root scene <> "".
Proof.
  unfold get_project_root, posixpath.join. simpl.
  rewrite (join2_relative _ _ (folder_name_relative _)).
  apply append_nonempty_r, append_nonempty_r, folder_name_nonempty.
Qed.

Lemma version_name_ok (v : Z) :
  "v" ++ Py.format_02d v <> "" /\ has_sep ("v" ++ Py.format_02d v) = false.
Proof. split; [discriminate|]. simpl. apply has_sep_format_02d. Qed.

(* ====================================================================== *)
(** ** Path Builder *)
(* ====================================================================== *)

Lemma get_version_folder_eq (scene : Context) (v : Z) :
  get_version_folder scene v =
  get_project_root scene ++ join_sep (get_project_root scene) ++ "v" ++ Py.format_02d v.
Proof.
  unfold get_version_folder, posixpath.join. cbn [fold_left].
  apply join2_relative. reflexivity.
Qed.

Lemma get_version_folder_inj (scene : Context) (v1 v2 : Z) :
  0 <= v1 -> 0 <= v2 ->
  get_version_folder scene v1 = get_version_folder scene v2 -> v1 = v2.
Proof.
  intros H1 H2 E. rewrite !get_version_folder_eq in E.
  do 2 apply append_inj_l in E. injection E as E.
  now apply format_02d_inj.
Qed.

Lemma get_version_folder_child (scene : Context) (v : Z) :
  is_direct_child (get_project_root scene) (get_version_folder scene v) = true.
Proof.
  unfold get_version_folder, posixpath.join. cbn [fold_left].
  destruct (version_name_ok v) as [Hn Hs].
  apply is_direct_child_join2; auto using get_project_root_nonempty.
Qed.

(** C7: for a fixed configuration and versions [v1 <> v2], both at least 1,
    the version folders are different path strings; and the version folder
    of a version is a direct child of the project root: it extends the root
    string by one separator-free name, the file-system entry right above it
    being the root's. *)
Theorem version_folder_distinct_and_child (scene : Context) (v1 v2 : Z) :
  1 <= v1 -> 1 <= v2 -> v1 <> v2 ->
  get_version_folder scene v1 <> get_version_folder scene v2 /\
  is_direct_child (get_project_root scene) (get_version_folder scene v1) = true /\
  is_direct_child (get_project_root scene) (get_version_folder scene v2) = true.
Proof.
  intros H1 H2 Hne. repeat split; try apply get_version_folder_child.
  intros E. apply Hne. apply (get_version_folder_inj scene); [lia | lia | exact E].
Qed.

Lemma version_folder_distinct_and_child_witness :
  (1 <= 1 /\ 1 <= 2 /\ 1 <> 2) /\
  get_version_folder scene_default 1 <> get_version_folder scene_default 2 /\
  is_direct_child (get_project_root scene_default) (get_version_folder scene_default 1) = true /\
  is_direct_child (get_project_root scene_default) (get_version_folder scene_default 2) = true.
Proof.
  split; [lia|].
  apply (version_folder_distinct_and_child scene_default 1 2); lia.
Defined.


Example version_folder_default :
  get_project_root scene_default = "/home/u/prp_New_Asset" /\
  get_version_folder scene_default 1 = "/home/u/prp_New_Asset/v01" /\
  get_version_folder scene_default 12 = "/home/u/prp_New_Asset/v12" /\
  get_version_folder scene_default 123 = "/home/u/prp_New_Asset/v123" /\
  get_arch_folder scene_default = "/home/u/prp_New_Asset/arch" /\
  get_blend_filename scene_default 1 "wip" = "prp_New_Asset_v01_wip.blend".
Proof. repeat split. Qed.

Lemma get_blend_filename_eq (scene : Context) (v : Z) (state : string) :
  get_blend_filename scene v state =
  folder_name (studio_props scene) ++ "_v" ++ Py.format_02d v ++ "_" ++ state ++ ".blend".
Proof. unfold get_blend_filename, folder_name. now rewrite !append_assoc. Qed.

Lemma blend_filename_wip_fin (scene : Context) (v : Z) :
  get_blend_filename scene v "wip" <> get_blend_filename scene v "fin".
Proof.
  rewrite !get_blend_filename_eq. intros E.
  do 3 apply append_inj_l in E. discriminate E.
Qed.

(** C6 (as amended): the wip and fin file names of a version differ; the
    file name is determined by the asset type, the asset name, the version
    and the state alone; the version folder is determined by those together
    with the resolved root path [bpy.path.abspath(base_path)], on which it
    does depend. *)
Theorem path_builder_determined (c1 c2 : Context) (v : Z) (state : string) :
  asset_type (studio_props c1) = asset_type (studio_props c2) ->
  asset_name (studio_props c1) = asset_name (studio_props c2) ->
  get_blend_filename c1 v "wip" <> get_blend_filename c1 v "fin" /\
  get_blend_filename c1 v state = get_blend_filename c2 v state /\
  (bpy_path_abspath (world c1) (base_path (studio_props c1)) =
   bpy_path_abspath (world c2) (base_path (studio_props c2)) ->
   get_version_folder c1 v = get_version_folder c2 v).
Proof.
  intros Ht Hn. split; [apply blend_filename_wip_fin|]. split.
  - unfold get_blend_filename, safe_name. now rewrite Ht, Hn.
  - intros Hr. unfold get_version_folder, get_project_root, folder_name, safe_name.
    now rewrite Ht, Hn, Hr.
Qed.

Lemma path_builder_determined_witness :
  (asset_type (studio_props scene_a) = asset_type (studio_props scene_a_later) /\
   asset_name (studio_props scene_a) = asset_name (studio_props scene_a_later)) /\
  get_blend_filename scene_a 3 "wip" <> get_blend_filename scene_a 3 "fin" /\
  get_blend_filename scene_a 3 "fin" = get_blend_filename scene_a_later 3 "fin" /\
  get_version_folder scene_a 3 = get_version_folder scene_a_later 3.
Proof.
  split; [split; reflexivity|].
  pose proof (path_builder_determined scene_a scene_a_later 3 "fin" eq_refl eq_refl)
    as [H1 [H2 H3]].
  split; [exact H1|]. split; [exact H2|]. apply H3. reflexivity.
Defined.

(** C6, the claim as stated fails: two configurations with the same asset
    type, asset name and version, differing in the root path only, have
    different version folders. *)
Lemma version_folder_depends_on_base_path :
  asset_type (studio_props scene_a) = asset_type (studio_props scene_b) /\
  asset_name (studio_props scene_a) = asset_name (studio_props scene_b) /\
  get_version_folder scene_a 1 = "/a/chr_Hero/v01" /\
  get_version_folder scene_b 1 = "/b/chr_Hero/v01" /\
  get_version_folder scene_a 1 <> get_version_folder scene_b 1.
Proof. repeat split. discriminate. Qed.

(** With the default root path [//] the version folder also follows the
    document: the same property group resolves under the directory of
    whichever file the host has open. *)
Example version_folder_follows_the_document :
  get_version_folder (mkContext default_props (mkWorld [] [] "/home/u/untitled.blend" [] [])) 1
    = "/home/u/prp_New_Asset/v01" /\
  get_version_folder (mkContext default_props (mkWorld [] [] "/srv/shots/a.blend" [] [])) 1
    = "/srv/shots/prp_New_Asset/v01".
Proof. split; reflexivity. Qed.

(** C8: sanitization maps each character of the asset name to itself, except
    the space, which becomes an underscore, and keeps the length; the
    folder and file-name prefix is the identifier of the asset type's row
    of [TYPE_ITEMS], which is not that row's display name, followed by an
    underscore and the sanitized name; "My Asset" of type prp gives
    prp_My_Asset. *)
Theorem sanitization_and_prefix :
  (forall props, String.length (safe_name props) = String.length (asset_name props)) /\
  (forall props n,
      String.get n (safe_name props) =
      option_map sanitize_char (String.get n (asset_name props))) /\
  (forall props,
      folder_name props =
      identifier (enum_item (asset_type props)) ++ "_" ++ safe_name props /\
      In (enum_item (asset_type props)) TYPE_ITEMS /\
      identifier (enum_item (asset_type props)) <> name (enum_item (asset_type props))) /\
  (forall scene v state,
      get_project_root scene =
      posixpath.join (bpy_path_abspath (world scene) (base_path (studio_props scene)))
                     [folder_name (studio_props scene)] /\
      get_blend_filename scene v state =
      folder_name (studio_props scene) ++ "_v" ++ Py.format_02d v ++ "_" ++ state ++ ".blend") /\
  (forall base v g, folder_name (mkProps base prp "My Asset" v g) = "prp_My_Asset").
Proof.
  split; [intros; apply replace_length|].
  split; [intros; apply replace_get|].
  split.
  - intros props. split; [reflexivity|].
    destruct (asset_type props); simpl; split; auto; discriminate.
  - split; [|reflexivity].
    intros scene v state. split; [reflexivity | apply get_blend_filename_eq].
Qed.

Example my_asset_paths :
  let scene := mkContext (mkProps "/proj" prp "My Asset" 1 false) (mkWorld [] [] "" [] []) in
  get_project_root scene = "/proj/prp_My_Asset" /\
  get_version_folder scene 1 = "/proj/prp_My_Asset/v01" /\
  get_blend_filename scene 1 "wip" = "prp_My_Asset_v01_wip.blend" /\
  safe_name (mkProps "/proj" prp " a  b/c " 1 false) = "_a__b/c_".
Proof. repeat split. Qed.

(* ====================================================================== *)
(** ** The monad: frame rules *)
(* ====================================================================== *)

Section Frame.

Variable R : Context -> Context -> Prop.
Hypothesis R_refl : forall c, R c c.
Hypothesis R_trans : forall a b c, R a b -> R b c -> R a c.

Lemma preserves_ret {A} (a : A) : preserves R (ret a).
Proof. intros ctx. apply R_refl. Qed.

Lemma preserves_raise {A} (e : Exn) : preserves R (@raise A e).
Proof. intros ctx. apply R_refl. Qed.

Lemma preserves_reads {A} (f : Context -> A) : preserves R (reads f).
Proof. intros ctx. apply R_refl. Qed.

Lemma preserves_bind {A B} (m : M A) (k : A -> M B) :
  preserves R m -> (forall a, preserves R (k a)) -> preserves R (bind m k).
Proof.
  intros Hm Hk ctx. unfold bind. specialize (Hm ctx).
  destruct (m ctx) as [[a|e] ctx1]; simpl in *; [|exact Hm].
  eapply R_trans; [exact Hm | apply Hk].
Qed.

Lemma preserves_when (c : bool) (body : M unit) :
  preserves R body -> preserves R (when c body).
Proof. destruct c; simpl; [auto | intros _; apply preserves_ret]. Qed.

Lemma preserves_if {A} (c : bool) (m1 m2 : M A) :
  preserves R m1 -> preserves R m2 -> preserves R (if c then m1 else m2).
Proof. now destruct c. Qed.

Lemma preserves_try_except {A} (body : M A) (C : Exn -> bool) (handler : Exn -> M A) :
  preserves R body -> (forall e, preserves R (handler e)) ->
  preserves R (try_except body C handler).
Proof.
  intros Hb Hh ctx. unfold try_except. specialize (Hb ctx).
  destruct (body ctx) as [[a|e] ctx1]; simpl in *; [exact Hb|].
  destruct (C e); simpl; [|exact Hb].
  eapply R_trans; [exact Hb | apply Hh].
Qed.

Lemma preserves_try_except_return {A B} (body : M A) (C : Exn -> bool)
    (handler : Exn -> M B) (k : A -> M B) :
  preserves R body -> (forall e, preserves R (handler e)) ->
  (forall a, preserves R (k a)) ->
  preserves R (try_except_return body C handler k).
Proof.
  intros Hb Hh Hk ctx. unfold try_except_return. specialize (Hb ctx).
  destruct (body ctx) as [[a|e] ctx1]; simpl in *.
  - eapply R_trans; [exact Hb | apply Hk].
  - destruct (C e); simpl; [|exact Hb].
    eapply R_trans; [exact Hb | apply Hh].
Qed.

End Frame.

(** The relations are preorders. *)

Lemma same_props_refl c : same_props c c.
Proof. reflexivity. Qed.
Lemma same_props_trans a b c : same_props a b -> same_props b c -> same_props a c.
Proof. unfold same_props. congruence. Qed.

Lemma same_config_refl c : same_config c c.
Proof. reflexivity. Qed.
Lemma same_config_trans a b c : same_config a b -> same_config b c -> same_config a c.
Proof. unfold same_config. congruence. Qed.

Lemma same_filepath_refl c : same_filepath c c.
Proof. reflexivity. Qed.
Lemma same_filepath_trans a b c :
  same_filepath a b -> same_filepath b c -> same_filepath a c.
Proof. unfold same_filepath. congruence. Qed.

Lemma dirs_kept_refl c : dirs_kept c c.
Proof. intros n H. exact H. Qed.
Lemma dirs_kept_trans a b c : dirs_kept a b -> dirs_kept b c -> dirs_kept a c.
Proof. unfold dirs_kept. auto. Qed.

Lemma same_fs_refl c : same_fs c c.
Proof. split; reflexivity. Qed.
Lemma same_fs_trans a b c : same_fs a b -> same_fs b c -> same_fs a c.
Proof. unfold same_fs. intros [] []. split; congruence. Qed.

Lemma same_reports_refl c : same_reports c c.
Proof. reflexivity. Qed.
Lemma same_reports_trans a b c : same_reports a b -> same_reports b c -> same_reports a c.
Proof. unfold same_reports. congruence. Qed.

Lemma only_makedirs_refl c : only_makedirs c c.
Proof. exists []. now rewrite app_nil_r. Qed.
Lemma only_makedirs_trans a b c :
  only_makedirs a b -> only_makedirs b c -> only_makedirs a c.
Proof.
  intros [n1 [E1 F1]] [n2 [E2 F2]]. exists (n1 ++ n2)%list.
  rewrite E2, E1, app_assoc, forallb_app, F1, F2. auto.
Qed.

Create HintDb frame.

#[local] Hint Resolve
  same_props_refl same_props_trans same_config_refl same_config_trans
  same_filepath_refl same_filepath_trans dirs_kept_refl dirs_kept_trans
  same_fs_refl same_fs_trans same_reports_refl same_reports_trans
  only_makedirs_refl only_makedirs_trans : frame.

(** Decomposing a computation along its syntax. *)
Ltac frame_step :=
  cbv beta zeta;
  match goal with
  | |- preserves _ (bind _ _) => apply preserves_bind
  | |- preserves _ (try_except_return _ _ _ _) => apply preserves_try_except_return
  | |- preserves _ (try_except _ _ _) => apply preserves_try_except
  | |- preserves _ (when _ _) => apply preserves_when
  | |- preserves _ (if _ then _ else _) => apply preserves_if
  | |- preserves _ (ret _) => apply preserves_ret
  | |- preserves _ (reads _) => apply preserves_reads
  | |- _ => solve [eauto with frame]
  | |- forall _, _ => intro
  end.

Ltac frame := repeat frame_step.

(* ====================================================================== *)
(** ** The file-system model *)
(* ====================================================================== *)

Lemma mem_app (n : node) (l1 l2 : list node) : mem n (l1 ++ l2) = mem n l1 || mem n l2.
Proof. apply existsb_app. Qed.

Lemma mem_In (n : node) (l : list node) : mem n l = true <-> In n l.
Proof.
  unfold mem. rewrite existsb_exists. split.
  - intros [x [Hx E]]. apply node_eqb_eq in E. now subst.
  - intros H. exists n. split; [exact H | apply node_eqb_refl].
Qed.

Lemma add_missing_keeps (ns l : list node) (n : node) :
  mem n l = true -> mem n (add_missing ns l) = true.
Proof.
  unfold add_missing. revert l. induction ns as [|m ns IH]; intros l H; simpl; [exact H|].
  apply IH. destruct (mem m l); [exact H|]. rewrite mem_app, H. reflexivity.
Qed.

Lemma add_missing_adds (ns l : list node) (n : node) :
  In n ns -> mem n (add_missing ns l) = true.
Proof.
  unfold add_missing. revert l. induction ns as [|m ns IH]; intros l H; simpl; [contradiction|].
  destruct H as [->|H]; [|now apply IH].
  apply (add_missing_keeps ns). destruct (mem n l) eqn:E; [exact E|].
  rewrite mem_app. simpl. now rewrite node_eqb_refl, orb_true_r.
Qed.

Lemma add_missing_present (ns l : list node) :
  (forall n, In n ns -> mem n l = true) -> add_missing ns l = l.
Proof.
  unfold add_missing. revert l. induction ns as [|m ns IH]; intros l H; simpl; [reflexivity|].
  rewrite (H m (or_introl eq_refl)). apply IH. intros n Hn. apply H. now right.
Qed.

Lemma prefixes_from_last (abs : bool) (done todo : list string) :
  todo <> [] -> In (abs, (done ++ todo)%list) (prefixes_from abs done todo).
Proof.
  revert done. induction todo as [|c todo IH]; intros done H; [contradiction|].
  simpl. destruct todo as [|d todo].
  - now left.
  - right. replace (done ++ c :: d :: todo)%list with ((done ++ [c]) ++ d :: todo)%list
      by now rewrite <- app_assoc.
    apply IH. discriminate.
Qed.

Lemma mem_add_missing_inv (ns l : list node) (n : node) :
  mem n (add_missing ns l) = true -> mem n l = true \/ In n ns.
Proof.
  unfold add_missing. revert l. induction ns as [|m ns IH]; intros l H; cbn in *; [auto|].
  apply IH in H as [H|H]; [|auto].
  destruct (mem m l); [auto|].
  rewrite mem_app in H. apply orb_true_iff in H as [H|H]; [auto|].
  right. left. cbn in H. rewrite orb_false_r in H. apply node_eqb_eq in H. now subst.
Qed.

Lemma mem_filter (f : node -> bool) (l : list node) (n : node) :
  mem n (filter f l) = (mem n l && f n)%bool.
Proof.
  induction l as [|a l IH]; [reflexivity|]. cbn [filter].
  destruct (f a) eqn:Fa; cbn [mem existsb]; fold (mem n (filter f l)); fold (mem n l);
    rewrite IH; destruct (node_eqb n a) eqn:E; cbn [orb]; try reflexivity.
  - apply node_eqb_eq in E. subst a. rewrite Fa. now destruct (mem n l).
  - apply node_eqb_eq in E. subst a. rewrite Fa. now rewrite andb_false_r.
Qed.

Lemma until_file_In (files l : list node) (a : node) :
  In a (until_file files l) -> In a l.
Proof.
  induction l as [|b l IH]; cbn [until_file]; [auto|].
  destruct (mem b files); [contradiction|]. intros [->|H]; [now left | right; auto].
Qed.

Lemma In_firstn {A} (k : nat) (l : list A) (a : A) : In a (firstn k l) -> In a l.
Proof.
  revert l. induction k as [|k IH]; intros [|b l]; cbn [firstn]; try contradiction.
  intros [->|H]; [now left | right; auto].
Qed.

Lemma In_removelast {A} (l : list A) (a : A) : In a (removelast l) -> In a l.
Proof.
  induction l as [|b l IH]; [auto|]. cbn [removelast].
  destruct l as [|c l]; [contradiction|]. intros [->|H]; [now left | right; auto].
Qed.

Lemma prefixes_self (n : node) : snd n <> [] -> In n (prefixes n).
Proof.
  intros H. destruct n as [abs comps]. unfold prefixes. simpl in *.
  exact (prefixes_from_last abs [] comps H).
Qed.

(** Directories that are there stay there when the log or the reports grow. *)
Lemma isdir_log_call (c : Call) (w : World) (p : string) :
  isdir (log_call c w) p = isdir w p.
Proof. reflexivity. Qed.

Lemma isdir_add_report (l : ReportLevel) (msg : string) (w : World) (p : string) :
  isdir (add_report l msg w) p = isdir w p.
Proof. reflexivity. Qed.

Lemma isfile_add_report (l : ReportLevel) (msg : string) (w : World) (p : string) :
  isfile (add_report l msg w) p = isfile w p.
Proof. reflexivity. Qed.

Lemma isdir_kept (c c' : Context) (p : string) :
  dirs_kept c c' -> isdir (world c) p = true -> isdir (world c') p = true.
Proof.
  unfold isdir, dirs_kept. intros H. destruct (snd (node_of p)); [auto | apply H].
Qed.

(* ====================================================================== *)
(** ** External operations: what each call does and leaves alone *)
(* ====================================================================== *)

(** Reading a frame condition off the description of a call. *)
Ltac from_spec S :=
  let H := fresh "S" in
  intros ctx; pose proof (S ctx) as H; cbv zeta in H;
  unfold same_props, same_filepath, dirs_kept, same_reports, same_fs, same_config;
  intuition congruence.

Section Primitives.

Variable env : Env.

(** [os.makedirs(p, exist_ok=True)] *)

Lemma os_makedirs_spec (p : string) (ok : bool) (ctx : Context) :
  let r := os_makedirs env p ok ctx in
  let w := world ctx in
  let w' := world (snd r) in
  studio_props (snd r) = studio_props ctx /\
  calls w' = (calls w ++ [os_makedirs_call p ok])%list /\
  reports w' = reports w /\
  data_filepath w' = data_filepath w /\
  fs_files w' = fs_files w /\
  (forall n, mem n (fs_dirs w) = true -> mem n (fs_dirs w') = true) /\
  match fst r with
  | Returns _ => isdir w' p = true
  | Raises e => is_OSError e = true
  end.
Proof.
  unfold os_makedirs. cbv zeta.
  destruct (isdir (world ctx) p) eqn:Hd.
  { destruct ok; simpl; repeat split; auto. }
  destruct (snd (node_of p)) as [|c comps] eqn:Hc; [simpl; repeat split; auto|].
  destruct (makedirs_fault env (world ctx) p) as [[msg k]|].
  { simpl; repeat split; auto. intros n Hn. now apply add_missing_keeps. }
  destruct (existsb _ (prefixes (node_of p))); simpl; repeat split; auto.
  - intros n Hn. now apply add_missing_keeps.
  - intros n Hn. now apply add_missing_keeps.
  - unfold isdir. cbv zeta. rewrite Hc. cbn [world snd fs_dirs set_fs].
    apply add_missing_adds, prefixes_self. rewrite Hc. discriminate.
Qed.

(** The only directories [os.makedirs(p)] can add are [p] and those above
    it, whether it returns or raises. *)
Lemma os_makedirs_new_dirs (p : string) (ok : bool) (ctx : Context) (n : node) :
  mem n (fs_dirs (world (snd (os_makedirs env p ok ctx)))) = true ->
  mem n (fs_dirs (world ctx)) = true \/ In n (prefixes (node_of p)).
Proof.
  unfold os_makedirs. cbv zeta.
  assert (Hmade : forall ds,
             (forall a, In a ds -> In a (prefixes (node_of p))) ->
             mem n (add_missing ds (fs_dirs (world ctx))) = true ->
             mem n (fs_dirs (world ctx)) = true \/ In n (prefixes (node_of p))).
  { intros ds Hds Hn. apply mem_add_missing_inv in Hn as [Hn|Hn]; [now left|].
    right. now apply Hds. }
  destruct (isdir (world ctx) p) eqn:Hd.
  { destruct ok; simpl; auto. }
  destruct (snd (node_of p)) as [|c comps] eqn:Hc; [simpl; auto|].
  destruct (makedirs_fault env (world ctx) p) as [[msg k]|].
  { cbn [snd world fs_dirs set_fs log_call]. apply Hmade. intros a Ha.
    apply In_firstn, until_file_In, In_removelast in Ha. exact Ha. }
  destruct (existsb _ (prefixes (node_of p))); cbn [snd world fs_dirs set_fs log_call];
    apply Hmade; auto.
  intros a Ha. now apply until_file_In in Ha.
Qed.

(** Re-creating a directory that exists does nothing but log the call. *)
Lemma os_makedirs_existing (p : string) (ctx : Context) :
  isdir (world ctx) p = true ->
  os_makedirs env p true ctx =
  (Returns tt, mkContext (studio_props ctx)
                         (log_call (os_makedirs_call p true) (world ctx))).
Proof. intros H. unfold os_makedirs. cbv zeta. now rewrite H. Qed.

Lemma os_makedirs_same_props p ok : preserves same_props (os_makedirs env p ok).
Proof. from_spec (os_makedirs_spec p ok). Qed.

Lemma os_makedirs_same_filepath p ok : preserves same_filepath (os_makedirs env p ok).
Proof. from_spec (os_makedirs_spec p ok). Qed.

Lemma os_makedirs_dirs_kept p ok : preserves dirs_kept (os_makedirs env p ok).
Proof. from_spec (os_makedirs_spec p ok). Qed.

Lemma os_makedirs_same_reports p ok : preserves same_reports (os_makedirs env p ok).
Proof. from_spec (os_makedirs_spec p ok). Qed.

Lemma os_makedirs_only_makedirs p ok : preserves only_makedirs (os_makedirs env p ok).
Proof.
  intros ctx. exists [os_makedirs_call p ok]. split; [apply os_makedirs_spec | reflexivity].
Qed.

Lemma os_makedirs_raises_OSError p ok ctx e ctx' :
  os_makedirs env p ok ctx = (Raises e, ctx') -> is_OSError e = true.
Proof.
  intros H. pose proof (os_makedirs_spec p ok ctx) as S. cbv zeta in S.
  rewrite H in S. simpl in S. tauto.
Qed.

Lemma os_makedirs_same_config p ok : preserves same_config (os_makedirs env p ok).
Proof. from_spec (os_makedirs_spec p ok). Qed.

(** [bpy.ops.wm.save_as_mainfile(filepath=..., copy=...)] *)

Lemma save_as_mainfile_spec (filepath : string) (copy : bool) (ctx : Context) :
  let r := bpy_ops_wm_save_as_mainfile env filepath copy ctx in
  let w := world ctx in
  let w' := world (snd r) in
  studio_props (snd r) = studio_props ctx /\
  calls w' = (calls w ++ [wm_save_as_mainfile_call filepath copy])%list /\
  reports w' = reports w /\
  fs_dirs w' = fs_dirs w /\
  (copy = true -> data_filepath w' = data_filepath w) /\
  match fst r with
  | Returns status =>
      status = FINISHED /\ isfile w' filepath = true /\
      node_isdir w (parent (node_of filepath)) = true /\
      (copy = false -> data_filepath w' = host_abspath (cwd env) filepath)
  | Raises e =>
      fs_files w' = fs_files w /\ data_filepath w' = data_filepath w
  end.
Proof.
  unfold bpy_ops_wm_save_as_mainfile. cbv zeta.
  destruct (save_fault env (world ctx) filepath copy); [simpl; repeat split; auto|].
  destruct (snd (node_of filepath)) as [|c comps] eqn:Hc; [simpl; repeat split; auto|].
  destruct (node_isdir (world ctx) (parent (node_of filepath))) eqn:Hp;
    [|simpl; repeat split; auto].
  destruct (mem (node_of filepath) (fs_dirs (world ctx))); simpl; repeat split; auto.
  - now intros ->.
  - unfold isfile. cbn [fs_files set_data_filepath set_fs].
    apply add_missing_adds. destruct (keep_backup env && _)%bool; cbn; auto.
  - now intros ->.
Qed.

(** What a save does to the files: none is removed, and the only files it
    can add are the one written and the backup of the one overwritten. *)
Lemma save_files_spec (filepath : string) (copy : bool) (ctx : Context) :
  let w := world ctx in
  let w' := world (snd (bpy_ops_wm_save_as_mainfile env filepath copy ctx)) in
  (forall n, mem n (fs_files w) = true -> mem n (fs_files w') = true) /\
  (forall n, mem n (fs_files w') = true ->
             mem n (fs_files w) = true \/ n = node_of filepath \/
             (n = node_of (backup_of filepath) /\ keep_backup env = true /\
              isfile w filepath = true)).
Proof.
  unfold bpy_ops_wm_save_as_mainfile, isfile. cbv zeta.
  destruct (save_fault env (world ctx) filepath copy); [simpl; split; auto|].
  destruct (snd (node_of filepath)) as [|c comps] eqn:Hc; [simpl; split; auto|].
  destruct (node_isdir (world ctx) (parent (node_of filepath)) &&
            negb (mem (node_of filepath) (fs_dirs (world ctx))))%bool;
    [|simpl; split; auto].
  cbn [snd world fs_files set_data_filepath set_fs log_call]. split.
  - intros n Hn. now apply add_missing_keeps.
  - intros n Hn. apply mem_add_missing_inv in Hn as [Hn|Hn]; [now left|]. right.
    destruct (keep_backup env) eqn:Hk; cbn [andb] in Hn.
    + destruct (mem (node_of filepath) (fs_files (world ctx))) eqn:Hf.
      * destruct Hn as [<-|[<-|[]]]; [right; auto | now left].
      * destruct Hn as [<-|[]]. now left.
    + destruct Hn as [<-|[]]. now left.
Qed.

Lemma save_same_props f c : preserves same_props (bpy_ops_wm_save_as_mainfile env f c).
Proof. from_spec (save_as_mainfile_spec f c). Qed.

Lemma save_same_config f c : preserves same_config (bpy_ops_wm_save_as_mainfile env f c).
Proof. from_spec (save_as_mainfile_spec f c). Qed.

Lemma save_dirs_kept f c : preserves dirs_kept (bpy_ops_wm_save_as_mainfile env f c).
Proof. from_spec (save_as_mainfile_spec f c). Qed.

Lemma save_same_reports f c : preserves same_reports (bpy_ops_wm_save_as_mainfile env f c).
Proof. from_spec (save_as_mainfile_spec f c). Qed.

Lemma save_copy_same_filepath f :
  preserves same_filepath (bpy_ops_wm_save_as_mainfile env f true).
Proof. from_spec (save_as_mainfile_spec f true). Qed.

(** [shutil.move(src, dst)] *)

Lemma shutil_move_spec (src dst : string) (ctx : Context) :
  let r := shutil_move env src dst ctx in
  let w := world ctx in
  let w' := world (snd r) in
  studio_props (snd r) = studio_props ctx /\
  calls w' = (calls w ++ [shutil_move_call src dst])%list /\
  reports w' = reports w /\
  data_filepath w' = data_filepath w /\
  match fst r with
  | Returns _ => os_path_exists w src = true
  | Raises e =>
      forall n, below (node_of src) n = false ->
                (mem n (fs_dirs w) = true -> mem n (fs_dirs w') = true) /\
                (mem n (fs_files w) = true -> mem n (fs_files w') = true)
  end.
Proof.
  unfold shutil_move. cbv zeta.
  destruct (move_fault env (world ctx) src dst) as [f|].
  { cbn [fst snd world studio_props]. repeat split; auto.
    - unfold partial_move. cbn [fs_dirs set_fs log_call]. intros Hn.
      apply add_missing_keeps. now rewrite mem_filter, Hn, H.
    - unfold partial_move. cbn [fs_files set_fs log_call]. intros Hn.
      apply add_missing_keeps. now rewrite mem_filter, Hn, H. }
  destruct (os_path_exists (world ctx) src); [|simpl; repeat split; auto].
  cbn [negb].
  destruct (mem _ (fs_dirs (world ctx)) || mem _ (fs_files (world ctx)));
    [simpl; repeat split; auto|].
  destruct (node_eqb _ _); simpl; repeat split; auto.
Qed.

Lemma shutil_move_same_props s d : preserves same_props (shutil_move env s d).
Proof. from_spec (shutil_move_spec s d). Qed.

Lemma shutil_move_same_config s d : preserves same_config (shutil_move env s d).
Proof. from_spec (shutil_move_spec s d). Qed.

(** Host operators called for their effect on the scene *)

Lemma host_op_spec (c : Call) (outcome : World -> HostOutcome) (ctx : Context) :
  let r := host_op c outcome ctx in
  snd r = mkContext (studio_props ctx) (log_call c (world ctx)) /\
  match outcome (world ctx) with
  | Finishes => fst r = Returns FINISHED
  | Cancels => fst r = Returns CANCELLED
  | Errors msg => fst r = Raises (mkExn RuntimeError msg)
  end.
Proof. unfold host_op. cbv zeta. now destruct (outcome (world ctx)). Qed.

Lemma host_op_same_props c o : preserves same_props (host_op c o).
Proof. intros ctx. now rewrite (proj1 (host_op_spec c o ctx)). Qed.

Lemma host_op_same_config c o : preserves same_config (host_op c o).
Proof. intros ctx. now rewrite (proj1 (host_op_spec c o ctx)). Qed.

Lemma host_op_dirs_kept c o : preserves dirs_kept (host_op c o).
Proof. intros ctx. rewrite (proj1 (host_op_spec c o ctx)). intros n H. exact H. Qed.

End Primitives.

(** [self.report] and property assignments *)

Lemma report_same_props l msg : preserves same_props (report l msg).
Proof. intros ctx. reflexivity. Qed.

Lemma report_same_config l msg : preserves same_config (report l msg).
Proof. intros ctx. reflexivity. Qed.

Lemma report_same_filepath l msg : preserves same_filepath (report l msg).
Proof. intros ctx. reflexivity. Qed.

Lemma report_dirs_kept l msg : preserves dirs_kept (report l msg).
Proof. intros ctx n H. exact H. Qed.

Lemma report_only_makedirs l msg : preserves only_makedirs (report l msg).
Proof. intros ctx. exists []. split; [simpl; now rewrite app_nil_r | reflexivity]. Qed.

Lemma set_is_generated_same_config b :
  preserves same_config (modify_props (set_is_generated b)).
Proof. intros ctx. reflexivity. Qed.

Lemma modify_props_dirs_kept f : preserves dirs_kept (modify_props f).
Proof. intros ctx n H. exact H. Qed.

(** Assigning the version leaves the world alone, whether the host takes
    the value or refuses it. *)
Lemma assign_version_world (v : Z) (ctx : Context) :
  world (snd (assign_version v ctx)) = world ctx.
Proof. unfold assign_version. now destruct ((v <? INT_MIN) || (INT_MAX <? v))%bool. Qed.

Lemma assign_version_dirs_kept v : preserves dirs_kept (assign_version v).
Proof. intros ctx n H. now rewrite assign_version_world. Qed.

#[local] Hint Resolve
  os_makedirs_same_props os_makedirs_same_filepath os_makedirs_dirs_kept
  os_makedirs_same_reports os_makedirs_only_makedirs os_makedirs_same_config
  save_same_props save_same_config save_dirs_kept save_same_reports
  save_copy_same_filepath shutil_move_same_props shutil_move_same_config
  host_op_same_props host_op_same_config host_op_dirs_kept
  report_same_props report_same_config report_same_filepath report_dirs_kept
  report_only_makedirs set_is_generated_same_config modify_props_dirs_kept
  assign_version_dirs_kept : frame.

(* ====================================================================== *)
(** ** Structure Initializer *)
(* ====================================================================== *)

Lemma isdir_ext (w w' : World) (p : string) :
  fs_dirs w' = fs_dirs w -> isdir w' p = isdir w p.
Proof. unfold isdir. now intros ->. Qed.

Lemma path_builder_props_only (c c' : Context) (v : Z) (state : string) :
  set_is_generated false (studio_props c') = set_is_generated false (studio_props c) ->
  get_blend_filename c' v state = get_blend_filename c v state.
Proof.
  intros H. unfold get_blend_filename, safe_name.
  injection H as _ Ht Hn _. now rewrite Ht, Hn.
Qed.

Section Initializer.

Variable env : Env.

(** The whole operator, step by step. *)
Lemma create_structure_execute_eq (ctx : Context) :
  STUDIO_OT_create_structure_execute env ctx =
  let v := version (studio_props ctx) in
  match create_structure_makedirs env (wip_dir_of ctx v) (fin_dir_of ctx v)
                                  (get_arch_folder ctx) ctx with
  | (Returns _, ctx1) =>
      let fname := get_blend_filename ctx1 (version (studio_props ctx1)) "wip" in
      match create_structure_save env (posixpath.join (wip_dir_of ctx v) [fname]) fname ctx1 with
      | (Returns _, ctx2) => (Returns FINISHED, ctx2)
      | (Raises e, ctx2) =>
          (Returns CANCELLED, reported ERROR ("Could not save file: " ++ exn_msg e) ctx2)
      end
  | (Raises e, ctx1) =>
      if is_OSError e
      then (Returns CANCELLED, reported ERROR ("Could not create folders: " ++ exn_msg e) ctx1)
      else (Raises e, ctx1)
  end.
Proof.
  unfold STUDIO_OT_create_structure_execute, bind, reads, try_except_return. cbv zeta.
  destruct (create_structure_makedirs env _ _ _ ctx) as [[[]|e] ctx1]; [|reflexivity].
  destruct (create_structure_save env _ _ ctx1) as [[[]|e] ctx2]; reflexivity.
Qed.

(** The folder step: three creation requests, in order. *)
Lemma create_structure_makedirs_spec (wip fin arch : string) (ctx : Context) :
  let r := create_structure_makedirs env wip fin arch ctx in
  studio_props (snd r) = studio_props ctx /\
  reports (world (snd r)) = reports (world ctx) /\
  data_filepath (world (snd r)) = data_filepath (world ctx) /\
  only_makedirs ctx (snd r) /\
  match fst r with
  | Returns _ =>
      calls (world (snd r)) =
      (calls (world ctx) ++ [os_makedirs_call wip true; os_makedirs_call fin true;
                             os_makedirs_call arch true])%list /\
      isdir (world (snd r)) wip = true /\
      isdir (world (snd r)) fin = true /\
      isdir (world (snd r)) arch = true
  | Raises e => is_OSError e = true
  end.
Proof.
  unfold create_structure_makedirs, bind. cbv zeta.
  pose proof (os_makedirs_spec env wip true ctx) as S1. cbv zeta in S1.
  destruct (os_makedirs env wip true ctx) as [[[]|e1] c1]; cbn [fst snd] in *.
  2:{ destruct S1 as (P & C & Rp & F & _ & _ & O). repeat split; auto.
      exists [os_makedirs_call wip true]. now split. }
  pose proof (os_makedirs_spec env fin true c1) as S2. cbv zeta in S2.
  destruct (os_makedirs env fin true c1) as [[[]|e2] c2]; cbn [fst snd] in *.
  2:{ destruct S1 as (P1 & C1 & R1 & F1 & _ & _).
      destruct S2 as (P2 & C2 & R2 & F2 & _ & _ & O). repeat split; try congruence.
      exists [os_makedirs_call wip true; os_makedirs_call fin true].
      split; [|reflexivity]. rewrite C2, C1, <- app_assoc. reflexivity. }
  pose proof (os_makedirs_spec env arch true c2) as S3. cbv zeta in S3.
  destruct S1 as (P1 & C1 & R1 & F1 & _ & K1 & D1).
  destruct S2 as (P2 & C2 & R2 & F2 & _ & K2 & D2).
  assert (C3 : calls (world (snd (os_makedirs env arch true c2))) =
               (calls (world ctx) ++ [os_makedirs_call wip true; os_makedirs_call fin true;
                                      os_makedirs_call arch true])%list).
  { destruct S3 as (_ & C3 & _). rewrite C3, C2, C1, <- !app_assoc. reflexivity. }
  destruct S3 as (P3 & _ & R3 & F3 & _ & K3 & D3).
  repeat split; try congruence.
  { eexists. split; [exact C3 | reflexivity]. }
  destruct (os_makedirs env arch true c2) as [[[]|e3] c3]; cbn [fst snd] in *;
    [|tauto].
  repeat split; auto.
  - apply (isdir_kept c2 c3); [exact K3|]. apply (isdir_kept c1 c2); [exact K2 | exact D1].
  - apply (isdir_kept c2 c3); [exact K3 | exact D2].
Qed.

(** Folders that exist are accepted as they are: the folder step returns
    and leaves the file system untouched, whatever else fails in the run. *)
Lemma create_structure_makedirs_existing (wip fin arch : string) (ctx : Context) :
  isdir (world ctx) wip = true -> isdir (world ctx) fin = true ->
  isdir (world ctx) arch = true ->
  fst (create_structure_makedirs env wip fin arch ctx) = Returns tt /\
  same_fs ctx (snd (create_structure_makedirs env wip fin arch ctx)).
Proof.
  intros H1 H2 H3. unfold create_structure_makedirs, bind.
  rewrite (os_makedirs_existing env wip ctx H1).
  rewrite (os_makedirs_existing env fin); [|exact H2].
  rewrite (os_makedirs_existing env arch); [|exact H3].
  split; [reflexivity | split; reflexivity].
Qed.

(** The save step: the save, then the flag, then the message. *)
Lemma create_structure_save_eq (full_path fname : string) (ctx : Context) :
  create_structure_save env full_path fname ctx =
  match bpy_ops_wm_save_as_mainfile env full_path false ctx with
  | (Returns _, ctx1) =>
      (Returns tt,
       reported INFO ("Workbench Initialized: " ++ fname)
                (mkContext (set_is_generated true (studio_props ctx1)) (world ctx1)))
  | (Raises e, ctx1) => (Raises e, ctx1)
  end.
Proof.
  unfold create_structure_save, bind.
  now destruct (bpy_ops_wm_save_as_mainfile env full_path false ctx) as [[?|?] ?].
Qed.

End Initializer.

Lemma get_blend_filename_same_props (c c' : Context) (v : Z) (state : string) :
  studio_props c' = studio_props c ->
  get_blend_filename c' v state = get_blend_filename c v state.
Proof. unfold get_blend_filename. now intros ->. Qed.

Lemma wip_path_layout (scene : Context) (v : Z) :
  wip_path_of scene v =
  posixpath.join (bpy_path_abspath (world scene) (base_path (studio_props scene)))
    [folder_name (studio_props scene); "v" ++ Py.format_02d v; "wip"; "projects";
     folder_name (studio_props scene) ++ "_v" ++ Py.format_02d v ++ "_wip.blend"].
Proof.
  unfold wip_path_of, wip_dir_of, get_version_folder, get_project_root.
  rewrite get_blend_filename_eq. reflexivity.
Qed.

Lemma messages_distinct (m1 m2 : string) :
  "Could not create folders: " ++ m1 <> "Could not save file: " ++ m2.
Proof. simpl. intros H. discriminate H. Qed.

(** C4: when directory creation fails, the Structure Initializer reports an
    error and returns CANCELLED; no save is attempted (the only calls it
    issued are directory creations) and the property group, [is_generated]
    included, is as before.  When the save fails, it reports a different
    error and returns CANCELLED; the property group is as before and the
    three directories created by the folder step are still on disk. *)
Theorem create_structure_failures (env : Env) (ctx : Context) :
  let v := version (studio_props ctx) in
  let wip := wip_dir_of ctx v in
  let fin := fin_dir_of ctx v in
  let arch := get_arch_folder ctx in
  let r := STUDIO_OT_create_structure_execute env ctx in
  (forall e ctx1,
      create_structure_makedirs env wip fin arch ctx = (Raises e, ctx1) ->
      fst r = Returns CANCELLED /\
      reports (world (snd r)) =
        List.app (reports (world ctx)) [(ERROR, "Could not create folders: " ++ exn_msg e)] /\
      only_makedirs ctx (snd r) /\
      studio_props (snd r) = studio_props ctx /\
      is_generated (studio_props (snd r)) = is_generated (studio_props ctx)) /\
  (forall ctx1 e ctx2,
      create_structure_makedirs env wip fin arch ctx = (Returns tt, ctx1) ->
      bpy_ops_wm_save_as_mainfile env (wip_path_of ctx v) false ctx1 = (Raises e, ctx2) ->
      fst r = Returns CANCELLED /\
      reports (world (snd r)) =
        List.app (reports (world ctx)) [(ERROR, "Could not save file: " ++ exn_msg e)] /\
      studio_props (snd r) = studio_props ctx /\
      is_generated (studio_props (snd r)) = is_generated (studio_props ctx) /\
      isdir (world (snd r)) wip = true /\
      isdir (world (snd r)) fin = true /\
      isdir (world (snd r)) arch = true) /\
  (forall e1 e2,
      "Could not create folders: " ++ exn_msg e1 <> "Could not save file: " ++ exn_msg e2).
Proof.
  intros v wip fin arch r. subst r. rewrite create_structure_execute_eq. cbv zeta.
  fold v wip fin arch.
  pose proof (create_structure_makedirs_spec env wip fin arch ctx) as S. cbv zeta in S.
  split; [|split; [|intros; apply messages_distinct]].
  - intros e ctx1 Hm. rewrite Hm in *. cbn [fst snd] in S.
    destruct S as (P & Rp & _ & O & Hos). rewrite Hos. cbn [fst snd reported world].
    repeat split; try (cbn; congruence).
    destruct O as [new [Hc Hn]]. exists new. split; [exact Hc | exact Hn].
  - intros ctx1 e ctx2 Hm Hs. rewrite Hm in *. cbn [fst snd] in S.
    destruct S as (P & Rp & _ & _ & _ & D1 & D2 & D3).
    rewrite P, (get_blend_filename_same_props ctx ctx1 _ _ P).
    rewrite create_structure_save_eq.
    change (posixpath.join wip [get_blend_filename ctx (version (studio_props ctx)) "wip"])
      with (wip_path_of ctx v).
    rewrite Hs.
    pose proof (save_as_mainfile_spec env (wip_path_of ctx v) false ctx1) as S2.
    cbv zeta in S2. rewrite Hs in S2. cbn [fst snd] in S2.
    destruct S2 as (P2 & _ & R2 & F2 & _ & _).
    cbn [fst snd reported world studio_props].
    assert (Hd : forall p, isdir (add_report ERROR ("Could not save file: " ++ exn_msg e)
                                             (world ctx2)) p = isdir (world ctx1) p).
    { intros p. rewrite isdir_add_report. now apply isdir_ext. }
    rewrite !Hd. repeat split; try congruence.
    cbn. congruence.
Qed.

Lemma create_structure_failures_witness :
  (* directory creation refused *)
  (fst (STUDIO_OT_create_structure_execute env_makedirs_denied fresh_project)
     = Returns CANCELLED /\
   reports (world (snd (STUDIO_OT_create_structure_execute env_makedirs_denied fresh_project)))
     = [(ERROR, "Could not create folders: Permission denied")] /\
   is_generated (studio_props
     (snd (STUDIO_OT_create_structure_execute env_makedirs_denied fresh_project))) = false) /\
  (* save refused *)
  (fst (STUDIO_OT_create_structure_execute env_save_denied fresh_project)
     = Returns CANCELLED /\
   reports (world (snd (STUDIO_OT_create_structure_execute env_save_denied fresh_project)))
     = [(ERROR, "Could not save file: Cannot save")] /\
   is_generated (studio_props
     (snd (STUDIO_OT_create_structure_execute env_save_denied fresh_project))) = false /\
   isdir (world (snd (STUDIO_OT_create_structure_execute env_save_denied fresh_project)))
         "/proj/prp_My_Asset/v01/wip/projects" = true).
Proof.
  split.
  - destruct (create_structure_failures env_makedirs_denied fresh_project) as [A _].
    cbv zeta in A.
    destruct (A (mkExn OSError "Permission denied")
                (snd (create_structure_makedirs env_makedirs_denied
                        (wip_dir_of fresh_project 1) (fin_dir_of fresh_project 1)
                        (get_arch_folder fresh_project) fresh_project)))
      as (H1 & H2 & _ & _ & H5); [vm_compute; reflexivity|].
    split; [exact H1|]. split; [exact H2 | exact H5].
  - destruct (create_structure_failures env_save_denied fresh_project) as [_ [B _]].
    cbv zeta in B.
    destruct (B (snd (create_structure_makedirs env_save_denied
                        (wip_dir_of fresh_project 1) (fin_dir_of fresh_project 1)
                        (get_arch_folder fresh_project) fresh_project))
                (mkExn RuntimeError "Cannot save")
                (snd (bpy_ops_wm_save_as_mainfile env_save_denied
                        (wip_path_of fresh_project 1) false
                        (snd (create_structure_makedirs env_save_denied
                                (wip_dir_of fresh_project 1) (fin_dir_of fresh_project 1)
                                (get_arch_folder fresh_project) fresh_project)))))
      as (H1 & H2 & _ & H4 & H5 & _); [vm_compute; reflexivity | vm_compute; reflexivity |].
    split; [exact H1|]. split; [exact H2|]. split; [exact H4 | exact H5].
Defined.

(* ====================================================================== *)
(** ** Version Iterator *)
(* ====================================================================== *)

Section Iterator.

Variable env : Env.

Lemma archive_iterate_setup_same_props a b :
  preserves same_props (archive_iterate_setup env a b).
Proof. unfold archive_iterate_setup. frame. Qed.

Lemma archive_iterate_wipe_same_props wipe :
  preserves same_props (archive_iterate_wipe env wipe).
Proof.
  unfold archive_iterate_wipe, bpy_ops_object_select_all, bpy_ops_object_delete,
    bpy_ops_outliner_orphans_purge. frame.
Qed.

Lemma archive_iterate_move_same_props old arch cur :
  preserves same_props (archive_iterate_move env old arch cur).
Proof. unfold archive_iterate_move. frame. Qed.

(** Step 4, case by case. *)
Lemma archive_iterate_move_eq (old arch : string) (cur : Z) (ctx : Context) :
  archive_iterate_move env old arch cur ctx =
  let dest := posixpath.join arch ["v" ++ Py.format_02d cur] in
  if os_path_exists (world ctx) old then
    if os_path_exists (world ctx) dest then
      (Returns tt,
       reported WARNING ("Archive for v" ++ Py.format_02d cur ++ " already exists.") ctx)
    else
      match shutil_move env old dest ctx with
      | (Returns _, c1) =>
          (Returns tt, reported INFO ("v" ++ Py.format_02d cur ++ " Archived.") c1)
      | (Raises e, c1) =>
          (Returns tt, reported WARNING ("Failed to move to archive: " ++ exn_msg e) c1)
      end
  else (Returns tt, ctx).
Proof.
  unfold archive_iterate_move, bind, reads, when, try_except. cbv zeta.
  destruct (os_path_exists (world ctx) old); [|reflexivity].
  destruct (os_path_exists (world ctx) _); cbn [negb]; [reflexivity|].
  destruct (shutil_move env old _ ctx) as [[[]|e] c1]; reflexivity.
Qed.

Lemma archive_iterate_move_returns (old arch : string) (cur : Z) (ctx : Context) :
  fst (archive_iterate_move env old arch cur ctx) = Returns tt.
Proof.
  rewrite archive_iterate_move_eq. cbv zeta.
  destruct (os_path_exists (world ctx) old); [|reflexivity].
  destruct (os_path_exists (world ctx) _); [reflexivity|].
  now destruct (shutil_move env old _ ctx) as [[[]|e] c1].
Qed.

(** The whole operator, step by step. *)
Lemma archive_iterate_execute_eq (wipe_scene : bool) (ctx : Context) :
  STUDIO_OT_archive_and_iterate_execute env wipe_scene ctx =
  let cur := version (studio_props ctx) in
  let next := cur + 1 in
  match archive_iterate_setup env (wip_dir_of ctx next) (fin_dir_of ctx next) ctx with
  | (Raises e, c1) => (Raises e, c1)
  | (Returns _, c1) =>
      match archive_iterate_wipe env wipe_scene c1 with
      | (Raises e, c2) => (Raises e, c2)
      | (Returns _, c2) =>
          match bpy_ops_wm_save_as_mainfile env
                  (posixpath.join (wip_dir_of ctx next) [get_blend_filename c2 next "wip"])
                  false c2 with
          | (Raises e, c3) => (Raises e, c3)
          | (Returns _, c3) =>
              let c4 := snd (archive_iterate_move env (get_version_folder ctx cur)
                                                  (get_arch_folder ctx) cur c3) in
              if ((next <? INT_MIN) || (INT_MAX <? next))%bool
              then (Raises (mkExn Exceptions.ValueError "value not in 'int' range"), c4)
              else (Returns FINISHED,
                    mkContext (set_version next (studio_props c4)) (world c4))
          end
      end
  end.
Proof.
  unfold STUDIO_OT_archive_and_iterate_execute, bind, reads. cbv zeta.
  destruct (archive_iterate_setup env _ _ ctx) as [[[]|e] c1]; [|reflexivity].
  destruct (archive_iterate_wipe env wipe_scene c1) as [[[]|e] c2]; [|reflexivity].
  destruct (bpy_ops_wm_save_as_mainfile env _ false c2) as [[st|e] c3]; [|reflexivity].
  pose proof (archive_iterate_move_returns (get_version_folder ctx (version (studio_props ctx)))
                (get_arch_folder ctx) (version (studio_props ctx)) c3) as Hm.
  destruct (archive_iterate_move env _ _ _ c3) as [[[]|e] c4]; [|discriminate Hm].
  unfold assign_version. cbn [snd].
  now destruct ((version (studio_props ctx) + 1 <? INT_MIN) ||
                (INT_MAX <? version (studio_props ctx) + 1))%bool.
Qed.

(** Steps 1 and 2 as one computation. *)
Lemma steps_1_2_inv (a b : string) (wipe_scene : bool) (ctx c2 : Context) :
  (archive_iterate_setup env a b ;; archive_iterate_wipe env wipe_scene) ctx
    = (Returns tt, c2) ->
  exists c1, archive_iterate_setup env a b ctx = (Returns tt, c1) /\
             archive_iterate_wipe env wipe_scene c1 = (Returns tt, c2) /\
             studio_props c2 = studio_props ctx.
Proof.
  unfold bind at 1. intros H.
  pose proof (archive_iterate_setup_same_props a b ctx) as P1.
  destruct (archive_iterate_setup env a b ctx) as [[[]|e] c1]; [|discriminate H].
  exists c1. split; [reflexivity|]. split; [exact H|].
  pose proof (archive_iterate_wipe_same_props wipe_scene c1) as P2.
  rewrite H in P2. unfold same_props in *. simpl in *. congruence.
Qed.

End Iterator.

Lemma archive_iterate_move_calls (env : Env) (old arch : string) (cur : Z) (ctx : Context) :
  exists new, calls (world (snd (archive_iterate_move env old arch cur ctx))) =
              (calls (world ctx) ++ new)%list.
Proof.
  rewrite archive_iterate_move_eq. cbv zeta.
  destruct (os_path_exists (world ctx) old); [|exists []; simpl; now rewrite app_nil_r].
  destruct (os_path_exists (world ctx) _); [exists []; simpl; now rewrite app_nil_r|].
  pose proof (shutil_move_spec env old
                (posixpath.join arch ["v" ++ Py.format_02d cur]) ctx) as S.
  cbv zeta in S. destruct S as (_ & C & _).
  destruct (shutil_move env old _ ctx) as [[[]|e] c1]; eexists; simpl in *; exact C.
Qed.

(** C1 (as amended): the save of step 3 is not conditional on any result of
    steps 1 and 2.  Whenever the folder creation and the wipe return --
    whatever status the host's operators hand back, and whether or not the
    wipe was requested -- the next call the operator issues is the save of
    the new version's wip file. *)
Theorem archive_iterate_save_not_gated (env : Env) (wipe_scene : bool) (ctx c2 : Context) :
  let next := version (studio_props ctx) + 1 in
  (archive_iterate_setup env (wip_dir_of ctx next) (fin_dir_of ctx next) ;;
   archive_iterate_wipe env wipe_scene) ctx = (Returns tt, c2) ->
  exists rest,
    calls (world (snd (STUDIO_OT_archive_and_iterate_execute env wipe_scene ctx))) =
    (calls (world c2) ++ wm_save_as_mainfile_call (wip_path_of ctx next) false :: rest)%list.
Proof.
  intros next H. apply steps_1_2_inv in H as (c1 & H1 & H2 & P).
  rewrite archive_iterate_execute_eq. cbv zeta. fold next. rewrite H1, H2.
  rewrite (get_blend_filename_same_props ctx c2 _ _ P).
  change (posixpath.join (wip_dir_of ctx next) [get_blend_filename ctx next "wip"])
    with (wip_path_of ctx next).
  pose proof (save_as_mainfile_spec env (wip_path_of ctx next) false c2) as S.
  cbv zeta in S. destruct S as (_ & C & _).
  destruct (bpy_ops_wm_save_as_mainfile env (wip_path_of ctx next) false c2)
    as [[st|e] c3]; cbn [fst snd] in *.
  - destruct (archive_iterate_move_calls env
                (get_version_folder ctx (version (studio_props ctx)))
                (get_arch_folder ctx) (version (studio_props ctx)) c3) as [new Hn].
    exists new. destruct ((next <? INT_MIN) || (INT_MAX <? next))%bool;
      cbn [snd world]; rewrite Hn, C, <- app_assoc; reflexivity.
  - exists []. exact C.
Qed.

Lemma archive_iterate_save_not_gated_witness :
  (archive_iterate_setup env_wipe_cancelled
     (wip_dir_of initialized_project 2) (fin_dir_of initialized_project 2) ;;
   archive_iterate_wipe env_wipe_cancelled true) initialized_project
  = (Returns tt,
     snd ((archive_iterate_setup env_wipe_cancelled
             (wip_dir_of initialized_project 2) (fin_dir_of initialized_project 2) ;;
           archive_iterate_wipe env_wipe_cancelled true) initialized_project)) /\
  exists rest,
    calls_after 4 (snd (STUDIO_OT_archive_and_iterate_execute env_wipe_cancelled true
                          initialized_project)) =
    ([os_makedirs_call "/proj/prp_My_Asset/v02/wip/projects" true;
      os_makedirs_call "/proj/prp_My_Asset/v02/fin/projects" true;
      object_select_all_call "SELECT"; object_delete_call; outliner_orphans_purge_call;
      wm_save_as_mainfile_call
        "/proj/prp_My_Asset/v02/wip/projects/prp_My_Asset_v02_wip.blend" false]
     ++ rest)%list.
Proof.
  assert (H : (archive_iterate_setup env_wipe_cancelled
                 (wip_dir_of initialized_project 2) (fin_dir_of initialized_project 2) ;;
               archive_iterate_wipe env_wipe_cancelled true) initialized_project
              = (Returns tt,
                 snd ((archive_iterate_setup env_wipe_cancelled
                         (wip_dir_of initialized_project 2)
                         (fin_dir_of initialized_project 2) ;;
                       archive_iterate_wipe env_wipe_cancelled true) initialized_project)))
    by (vm_compute; reflexivity).
  split; [exact H|].
  destruct (archive_iterate_save_not_gated env_wipe_cancelled true initialized_project _ H)
    as [rest Hr].
  exists rest. unfold calls_after. rewrite Hr. reflexivity.
Defined.

(** C1, the claim as stated fails: with directory creation refused, Version
    Up raises the [OSError] to its caller, having issued the one refused
    call and no save, and reports nothing; with the host's delete failing,
    it raises the [RuntimeError], again without a save or a report.  The
    version stays at 1 in both runs. *)
Lemma archive_iterate_exception_escapes :
  (fst run_iterate_makedirs_denied = Raises (mkExn OSError "Permission denied") /\
   calls_after 4 (snd run_iterate_makedirs_denied) =
     [os_makedirs_call "/proj/prp_My_Asset/v02/wip/projects" true] /\
   reports (world (snd run_iterate_makedirs_denied)) = reports (world initialized_project) /\
   version (studio_props (snd run_iterate_makedirs_denied)) = 1) /\
  (fst run_iterate_wipe_error = Raises (mkExn RuntimeError "context is incorrect") /\
   calls_after 4 (snd run_iterate_wipe_error) =
     [os_makedirs_call "/proj/prp_My_Asset/v02/wip/projects" true;
      os_makedirs_call "/proj/prp_My_Asset/v02/fin/projects" true;
      object_select_all_call "SELECT"; object_delete_call] /\
   existsb is_save_call (calls_after 4 (snd run_iterate_wipe_error)) = false /\
   reports (world (snd run_iterate_wipe_error)) = reports (world initialized_project) /\
   version (studio_props (snd run_iterate_wipe_error)) = 1).
Proof. vm_compute. repeat split. Qed.

Lemma os_path_exists_ext (w w' : World) (p : string) :
  fs_dirs w' = fs_dirs w -> fs_files w' = fs_files w ->
  os_path_exists w' p = os_path_exists w p.
Proof. unfold os_path_exists, isdir, isfile. now intros -> ->. Qed.

(** Steps 1 to 3 as one computation. *)
Lemma steps_1_3_inv (env : Env) (a b path : string) (wipe_scene : bool)
    (ctx c3 : Context) (st : OpResult) :
  (archive_iterate_setup env a b ;; archive_iterate_wipe env wipe_scene ;;
   bpy_ops_wm_save_as_mainfile env path false) ctx = (Returns st, c3) ->
  exists c1 c2,
    archive_iterate_setup env a b ctx = (Returns tt, c1) /\
    archive_iterate_wipe env wipe_scene c1 = (Returns tt, c2) /\
    bpy_ops_wm_save_as_mainfile env path false c2 = (Returns st, c3) /\
    studio_props c2 = studio_props ctx.
Proof.
  unfold bind at 1. intros H.
  pose proof (archive_iterate_setup_same_props env a b ctx) as P1.
  destruct (archive_iterate_setup env a b ctx) as [[[]|e] c1]; [|discriminate H].
  unfold bind in H.
  pose proof (archive_iterate_wipe_same_props env wipe_scene c1) as P2.
  destruct (archive_iterate_wipe env wipe_scene c1) as [[[]|e] c2] eqn:E2; [|discriminate H].
  exists c1, c2. split; [reflexivity|]. split; [exact E2|]. split; [exact H|].
  unfold same_props in P1, P2. cbn [snd] in P1, P2. congruence.
Qed.


(* ====================================================================== *)
(** ** The version counter *)
(* ====================================================================== *)

Lemma same_config_version (c c' : Context) :
  same_config c c' -> version (studio_props c') = version (studio_props c).
Proof. unfold same_config. intros H. now injection H. Qed.

Lemma create_structure_same_config (env : Env) :
  preserves same_config (STUDIO_OT_create_structure_execute env).
Proof.
  unfold STUDIO_OT_create_structure_execute, create_structure_makedirs,
    create_structure_save. frame.
Qed.

Lemma startup_dialog_same_config (env : Env) :
  preserves same_config (STUDIO_OT_startup_dialog_execute env).
Proof.
  intros ctx. pose proof (create_structure_same_config env ctx) as H.
  unfold STUDIO_OT_startup_dialog_execute, bpy_ops_studio_create_structure.
  destruct (STUDIO_OT_create_structure_execute env ctx) as [[r|e] ctx']; [|exact H].
  now destruct (first_error _ _).
Qed.

Lemma finalize_same_props (env : Env) :
  preserves same_props (STUDIO_OT_finalize_execute env).
Proof. unfold STUDIO_OT_finalize_execute. frame. Qed.

Lemma finalize_same_filepath (env : Env) :
  preserves same_filepath (STUDIO_OT_finalize_execute env).
Proof. unfold STUDIO_OT_finalize_execute. frame. Qed.

(** Version Up writes the counter once, at the very end. *)
Lemma archive_iterate_props (env : Env) (wipe_scene : bool) (ctx : Context) :
  let r := STUDIO_OT_archive_and_iterate_execute env wipe_scene ctx in
  match fst r with
  | Returns st =>
      st = FINISHED /\
      studio_props (snd r) = set_version (version (studio_props ctx) + 1) (studio_props ctx)
  | Raises _ => studio_props (snd r) = studio_props ctx
  end.
Proof.
  cbv zeta. rewrite archive_iterate_execute_eq. cbv zeta.
  pose proof (archive_iterate_setup_same_props env
                (wip_dir_of ctx (version (studio_props ctx) + 1))
                (fin_dir_of ctx (version (studio_props ctx) + 1)) ctx) as P1.
  destruct (archive_iterate_setup env _ _ ctx) as [[[]|e] c1]; [|exact P1].
  pose proof (archive_iterate_wipe_same_props env wipe_scene c1) as P2.
  destruct (archive_iterate_wipe env wipe_scene c1) as [[[]|e] c2];
    [|unfold same_props in *; cbn [fst snd] in *; congruence].
  match goal with
  | |- context [bpy_ops_wm_save_as_mainfile env ?p false c2] =>
      pose proof (save_same_props env p false c2) as P3;
      destruct (bpy_ops_wm_save_as_mainfile env p false c2) as [[st|e] c3]
  end; [|unfold same_props in *; cbn [fst snd] in *; congruence].
  match goal with
  | |- context [archive_iterate_move env ?o ?a ?v c3] =>
      pose proof (archive_iterate_move_same_props env o a v c3) as P4
  end.
  unfold same_props in *. cbn [fst snd studio_props] in *.
  destruct ((_ <? INT_MIN) || _)%bool; cbn [fst snd studio_props].
  - congruence.
  - split; [reflexivity | congruence].
Qed.

(** Once steps 1 to 3 have returned, the run is the archive step followed
    by the assignment of the next version. *)
Lemma archive_iterate_after_save (env : Env) (wipe_scene : bool) (ctx c3 : Context)
      (st : OpResult) :
  (archive_iterate_setup env (wip_dir_of ctx (version (studio_props ctx) + 1))
                             (fin_dir_of ctx (version (studio_props ctx) + 1)) ;;
   archive_iterate_wipe env wipe_scene ;;
   bpy_ops_wm_save_as_mainfile env
     (wip_path_of ctx (version (studio_props ctx) + 1)) false) ctx = (Returns st, c3) ->
  STUDIO_OT_archive_and_iterate_execute env wipe_scene ctx =
  let v := version (studio_props ctx) in
  let c4 := snd (archive_iterate_move env (get_version_folder ctx v)
                                      (get_arch_folder ctx) v c3) in
  if ((v + 1 <? INT_MIN) || (INT_MAX <? v + 1))%bool
  then (Raises (mkExn Exceptions.ValueError "value not in 'int' range"), c4)
  else (Returns FINISHED, mkContext (set_version (v + 1) (studio_props ctx)) (world c4)).
Proof.
  intros H. apply steps_1_3_inv in H as (c1 & c2 & H1 & H2 & H3 & P).
  rewrite archive_iterate_execute_eq. cbv zeta. rewrite H1, H2.
  rewrite (get_blend_filename_same_props ctx c2 _ _ P).
  change (posixpath.join (wip_dir_of ctx (version (studio_props ctx) + 1))
            [get_blend_filename ctx (version (studio_props ctx) + 1) "wip"])
    with (wip_path_of ctx (version (studio_props ctx) + 1)).
  rewrite H3.
  destruct ((_ <? INT_MIN) || _)%bool; [reflexivity|].
  f_equal. f_equal. f_equal.
  pose proof (archive_iterate_move_same_props env
                (get_version_folder ctx (version (studio_props ctx)))
                (get_arch_folder ctx) (version (studio_props ctx)) c3) as P4.
  pose proof (save_same_props env (wip_path_of ctx (version (studio_props ctx) + 1))
                false c2) as P3.
  rewrite H3 in P3. unfold same_props in *. cbn [snd] in *. congruence.
Qed.

(** C3: no operator lowers the version, and none but Version Up changes
    it: the Initializer, the Finalizer and the setup dialog leave it where
    it was, and Version Up leaves it at exactly one more when it returns
    and where it was when it raises.  Once steps 1 to 3 of Version Up --
    folders, wipe, save -- have returned, and the version is in the
    property's range below its maximum, the run returns FINISHED with the
    version advanced by one, whatever the archive step does: the context
    it leaves is the one the archive step left, with the next version
    assigned.  So over any sequence of operators the version never
    decreases. *)
Theorem version_only_advances (env : Env) (ctx : Context) :
  (forall op,
      let r := execute env op ctx in
      version (studio_props ctx) <= version (studio_props (snd r)) /\
      match op, fst r with
      | archive_iterate _, Returns _ =>
          version (studio_props (snd r)) = version (studio_props ctx) + 1
      | _, _ => version (studio_props (snd r)) = version (studio_props ctx)
      end) /\
  (forall wipe_scene st c3,
      let v := version (studio_props ctx) in
      let r := execute env (archive_iterate wipe_scene) ctx in
      (archive_iterate_setup env (wip_dir_of ctx (v + 1)) (fin_dir_of ctx (v + 1)) ;;
       archive_iterate_wipe env wipe_scene ;;
       bpy_ops_wm_save_as_mainfile env (wip_path_of ctx (v + 1)) false) ctx
        = (Returns st, c3) ->
      1 <= v < INT_MAX ->
      fst r = Returns FINISHED /\
      version (studio_props (snd r)) = v + 1 /\
      snd r =
        mkContext (set_version (v + 1) (studio_props ctx))
                  (world (snd (archive_iterate_move env (get_version_folder ctx v)
                                                    (get_arch_folder ctx) v c3)))) /\
  (forall ops,
      version (studio_props ctx) <= version (studio_props (run_all env ops ctx))).
Proof.
  assert (Step : forall c op,
             let r := execute env op c in
             version (studio_props c) <= version (studio_props (snd r)) /\
             match op, fst r with
             | archive_iterate _, Returns _ =>
                 version (studio_props (snd r)) = version (studio_props c) + 1
             | _, _ => version (studio_props (snd r)) = version (studio_props c)
             end).
  { intros c op. cbv zeta. destruct op as [|wipe_scene| |]; cbn [execute].
    - pose proof (same_config_version _ _ (create_structure_same_config env c)) as H.
      rewrite H. split; [lia | reflexivity].
    - pose proof (archive_iterate_props env wipe_scene c) as H. cbv zeta in H.
      destruct (fst (STUDIO_OT_archive_and_iterate_execute env wipe_scene c)).
      + destruct H as [_ ->]. cbn. lia.
      + rewrite H. lia.
    - pose proof (finalize_same_props env c) as H. unfold same_props in H.
      rewrite H. split; [lia | reflexivity].
    - pose proof (same_config_version _ _ (startup_dialog_same_config env c)) as H.
      rewrite H. split; [lia | reflexivity]. }
  split; [intros op; apply Step|]. split.
  - intros wipe_scene st c3 v r H Hv. subst r. cbn [execute].
    rewrite (archive_iterate_after_save env wipe_scene ctx c3 st H). cbv zeta. fold v.
    replace ((v + 1 <? INT_MIN) || (INT_MAX <? v + 1))%bool with false.
    + cbn [fst snd studio_props version set_version]. repeat split.
    + symmetry. apply orb_false_iff. unfold INT_MIN, INT_MAX in *. split; lia.
  - intros ops. revert ctx Step. induction ops as [|op ops IH]; intros ctx Step;
      cbn [run_all]; [lia|].
    specialize (IH (snd (execute env op ctx)) Step).
    destruct (Step ctx op) as [Hle _]. cbv zeta in Hle. lia.
Qed.

(** Each of the four ways the archive step can go, on a run that reaches
    it: the old folder is moved; the destination exists; the move fails;
    the old folder is absent.  The version goes from 1 to 2 every time. *)
Lemma version_only_advances_witness :
  (fst (execute no_faults (archive_iterate true) initialized_project) = Returns FINISHED /\
   version (studio_props
     (snd (execute no_faults (archive_iterate true) initialized_project))) = 2) /\
  (fst (execute no_faults (archive_iterate true) project_with_archived_v01)
     = Returns FINISHED /\
   version (studio_props
     (snd (execute no_faults (archive_iterate true) project_with_archived_v01))) = 2) /\
  (fst (execute env_move_denied (archive_iterate true) initialized_project)
     = Returns FINISHED /\
   version (studio_props
     (snd (execute env_move_denied (archive_iterate true) initialized_project))) = 2) /\
  (fst (execute env_move_half_done (archive_iterate false) initialized_project)
     = Returns FINISHED /\
   version (studio_props
     (snd (execute env_move_half_done (archive_iterate false) initialized_project))) = 2) /\
  (fst (execute no_faults (archive_iterate true) fresh_project) = Returns FINISHED /\
   version (studio_props
     (snd (execute no_faults (archive_iterate true) fresh_project))) = 2).
Proof.
  assert (R : forall env wipe_scene ctx,
             version (studio_props ctx) = 1 ->
             (archive_iterate_setup env (wip_dir_of ctx 2) (fin_dir_of ctx 2) ;;
              archive_iterate_wipe env wipe_scene ;;
              bpy_ops_wm_save_as_mainfile env (wip_path_of ctx 2) false) ctx
             = (Returns FINISHED,
                snd ((archive_iterate_setup env (wip_dir_of ctx 2) (fin_dir_of ctx 2) ;;
                      archive_iterate_wipe env wipe_scene ;;
                      bpy_ops_wm_save_as_mainfile env (wip_path_of ctx 2) false) ctx)) ->
             fst (execute env (archive_iterate wipe_scene) ctx) = Returns FINISHED /\
             version (studio_props (snd (execute env (archive_iterate wipe_scene) ctx))) = 2).
  { intros env wipe_scene ctx Hv H.
    destruct (version_only_advances env ctx) as (_ & P & _).
    cbv zeta in P. rewrite Hv in P.
    destruct (P wipe_scene _ _ H) as (A & B & _); [unfold INT_MAX; lia|].
    now split. }
  repeat split; apply R; vm_compute; reflexivity.
Defined.

Example version_up_at_the_largest_version :
  let ctx := mkContext (set_version INT_MAX (studio_props initialized_project))
                       (world initialized_project) in
  fst (execute no_faults (archive_iterate false) ctx)
    = Raises (mkExn Exceptions.ValueError "value not in 'int' range") /\
  version (studio_props (snd (execute no_faults (archive_iterate false) ctx))) = INT_MAX.
Proof. vm_compute. split; reflexivity. Qed.

(* ====================================================================== *)
(** ** Finalizer *)
(* ====================================================================== *)

(** The whole operator, step by step. *)
Lemma finalize_execute_eq (env : Env) (ctx : Context) :
  STUDIO_OT_finalize_execute env ctx =
  let v := version (studio_props ctx) in
  let fin := fin_dir_of ctx v in
  match (if os_path_exists (world ctx) fin then (Returns tt, ctx)
         else os_makedirs env fin true ctx) with
  | (Raises e, c1) => (Raises e, c1)
  | (Returns _, c1) =>
      let fname := get_blend_filename c1 (version (studio_props c1)) "fin" in
      match bpy_ops_wm_save_as_mainfile env (posixpath.join fin [fname]) true c1 with
      | (Raises e, c2) => (Raises e, c2)
      | (Returns _, c2) =>
          (Returns FINISHED, reported INFO ("Published Final: " ++ fname) c2)
      end
  end.
Proof.
  unfold STUDIO_OT_finalize_execute, bind, reads, when, report, modify_world, ret, reported.
  cbv zeta.
  destruct (os_path_exists (world ctx) _); cbn [negb].
  - destruct (bpy_ops_wm_save_as_mainfile env _ true ctx) as [[st|e] c2]; reflexivity.
  - destruct (os_makedirs env _ true ctx) as [[[]|e] c1]; [|reflexivity].
    destruct (bpy_ops_wm_save_as_mainfile env _ true c1) as [[st|e] c2]; reflexivity.
Qed.

(** What the Finalizer asks of the outside world, and when. *)
Lemma finalize_calls (env : Env) (ctx : Context) :
  let r := STUDIO_OT_finalize_execute env ctx in
  let v := version (studio_props ctx) in
  let fin := fin_dir_of ctx v in
  let path := fin_path_of ctx v in
  let folder_calls :=
    if os_path_exists (world ctx) fin then [] else [os_makedirs_call fin true] in
  match fst r with
  | Returns st =>
      st = FINISHED /\
      calls (world (snd r)) =
        (calls (world ctx) ++ folder_calls ++ [wm_save_as_mainfile_call path true])%list /\
      isfile (world (snd r)) path = true /\
      (os_path_exists (world ctx) fin = false -> isdir (world (snd r)) fin = true) /\
      reports (world (snd r)) =
        List.app (reports (world ctx))
                 [(INFO, "Published Final: " ++ get_blend_filename ctx v "fin")]
  | Raises _ =>
      reports (world (snd r)) = reports (world ctx) /\
      (calls (world (snd r)) = (calls (world ctx) ++ folder_calls)%list \/
       calls (world (snd r)) =
         (calls (world ctx) ++ folder_calls ++ [wm_save_as_mainfile_call path true])%list)
  end.
Proof.
  cbv zeta. rewrite finalize_execute_eq. cbv zeta.
  set (v := version (studio_props ctx)). set (fin := fin_dir_of ctx v).
  assert (Step1 :
    let s := if os_path_exists (world ctx) fin then (Returns tt, ctx)
             else os_makedirs env fin true ctx in
    studio_props (snd s) = studio_props ctx /\
    reports (world (snd s)) = reports (world ctx) /\
    calls (world (snd s)) =
      (calls (world ctx) ++
       (if os_path_exists (world ctx) fin then [] else [os_makedirs_call fin true]))%list /\
    match fst s with
    | Returns _ => os_path_exists (world ctx) fin = false -> isdir (world (snd s)) fin = true
    | Raises _ => os_path_exists (world ctx) fin = false
    end).
  { cbv zeta. destruct (os_path_exists (world ctx) fin) eqn:E.
    - cbn [fst snd]. rewrite app_nil_r. repeat split. discriminate.
    - pose proof (os_makedirs_spec env fin true ctx) as S. cbv zeta in S.
      destruct S as (P & C & Rp & _ & _ & _ & D).
      repeat split; auto. destruct (fst (os_makedirs env fin true ctx)); auto. }
  cbv zeta in Step1.
  destruct (if os_path_exists (world ctx) fin then (Returns tt, ctx)
            else os_makedirs env fin true ctx) as [[[]|e] c1]; cbn [fst snd] in Step1.
  2:{ destruct Step1 as (_ & Rp & C & E). cbn [fst snd]. split; [exact Rp|]. now left. }
  destruct Step1 as (P & Rp & C & D).
  rewrite P, (get_blend_filename_same_props ctx c1 _ _ P). fold v.
  change (posixpath.join fin [get_blend_filename ctx v "fin"]) with (fin_path_of ctx v).
  pose proof (save_as_mainfile_spec env (fin_path_of ctx v) true c1) as S. cbv zeta in S.
  destruct S as (P2 & C2 & R2 & F2 & _ & S).
  destruct (bpy_ops_wm_save_as_mainfile env (fin_path_of ctx v) true c1) as [[st|e] c2];
    cbn [fst snd reported world] in *.
  - destruct S as (_ & Hf & _).
    split; [reflexivity|].
    split; [unfold add_report; cbn [calls]; now rewrite C2, C, <- app_assoc|].
    split; [exact Hf|]. split.
    + intros E. rewrite isdir_add_report, (isdir_ext _ _ fin F2). now apply D.
    + unfold add_report. cbn [reports]. now rewrite R2, Rp.
  - split; [congruence|]. right. now rewrite C2, C, <- app_assoc.
Qed.


(* ====================================================================== *)
(** ** Operators that do not look at [is_generated] *)
(* ====================================================================== *)

Lemma flag_blind_ret {A} (a : A) : flag_blind (ret a).
Proof. intros b ctx. reflexivity. Qed.

Lemma flag_blind_reads {A} (f : Context -> A) :
  (forall b ctx, f (with_is_generated b ctx) = f ctx) -> flag_blind (reads f).
Proof. intros H b ctx. unfold reads. now rewrite H. Qed.

Lemma flag_blind_bind {A B} (m : M A) (k : A -> M B) :
  flag_blind m -> (forall a, flag_blind (k a)) -> flag_blind (bind m k).
Proof.
  intros Hm Hk b ctx. unfold bind. rewrite Hm.
  destruct (m ctx) as [[a|e] c1]; cbn [fst snd]; [apply Hk | reflexivity].
Qed.

Lemma flag_blind_when (c : bool) (body : M unit) :
  flag_blind body -> flag_blind (when c body).
Proof. destruct c; simpl; [auto | intros _; apply flag_blind_ret]. Qed.

Lemma flag_blind_if {A} (c : bool) (m1 m2 : M A) :
  flag_blind m1 -> flag_blind m2 -> flag_blind (if c then m1 else m2).
Proof. now destruct c. Qed.

Lemma flag_blind_try_except {A} (body : M A) (C : Exn -> bool) (handler : Exn -> M A) :
  flag_blind body -> (forall e, flag_blind (handler e)) ->
  flag_blind (try_except body C handler).
Proof.
  intros Hb Hh b ctx. unfold try_except. rewrite Hb.
  destruct (body ctx) as [[a|e] c1]; cbn [fst snd]; [reflexivity|].
  destruct (C e); [apply Hh | reflexivity].
Qed.

Lemma flag_blind_os_makedirs env p ok : flag_blind (os_makedirs env p ok).
Proof.
  intros b ctx. unfold os_makedirs. cbv zeta. cbn [world with_is_generated studio_props].
  destruct (isdir (world ctx) p); [now destruct ok|].
  destruct (snd (node_of p)); [reflexivity|].
  destruct (makedirs_fault env (world ctx) p) as [[msg k]|]; [reflexivity|].
  now destruct (existsb _ _).
Qed.

Lemma flag_blind_save env f c : flag_blind (bpy_ops_wm_save_as_mainfile env f c).
Proof.
  intros b ctx. unfold bpy_ops_wm_save_as_mainfile. cbv zeta.
  cbn [world with_is_generated studio_props].
  destruct (save_fault env (world ctx) f c); [reflexivity|].
  destruct (snd (node_of f)); [reflexivity|].
  now destruct (node_isdir (world ctx) _ && _).
Qed.

Lemma flag_blind_shutil_move env s d : flag_blind (shutil_move env s d).
Proof.
  intros b ctx. unfold shutil_move. cbv zeta. cbn [world with_is_generated studio_props].
  destruct (move_fault env (world ctx) s d); [reflexivity|].
  destruct (negb _); [reflexivity|].
  destruct (_ || _); [reflexivity|].
  now destruct (node_eqb _ _).
Qed.

Lemma flag_blind_host_op c o : flag_blind (host_op c o).
Proof.
  intros b ctx. unfold host_op. cbv zeta. cbn [world with_is_generated studio_props].
  now destruct (o (world ctx)).
Qed.

Lemma flag_blind_report l msg : flag_blind (report l msg).
Proof. intros b ctx. reflexivity. Qed.

Lemma flag_blind_set_version v : flag_blind (assign_version v).
Proof.
  intros b ctx. unfold assign_version. now destruct ((v <? INT_MIN) || (INT_MAX <? v))%bool.
Qed.

Create HintDb blind.

#[local] Hint Resolve
  flag_blind_os_makedirs flag_blind_save flag_blind_shutil_move flag_blind_host_op
  flag_blind_report flag_blind_set_version : blind.

Ltac blind_step :=
  cbv beta zeta;
  match goal with
  | |- flag_blind (bind _ _) => apply flag_blind_bind
  | |- flag_blind (try_except _ _ _) => apply flag_blind_try_except
  | |- flag_blind (when _ _) => apply flag_blind_when
  | |- flag_blind (if _ then _ else _) => apply flag_blind_if
  | |- flag_blind (ret _) => apply flag_blind_ret
  | |- flag_blind (reads _) => apply flag_blind_reads; intros; reflexivity
  | |- _ => solve [eauto with blind]
  | |- forall _, _ => intro
  end.

Ltac blind := repeat blind_step.

Lemma finalize_flag_blind (env : Env) : flag_blind (STUDIO_OT_finalize_execute env).
Proof. unfold STUDIO_OT_finalize_execute. blind. Qed.

Lemma archive_iterate_flag_blind (env : Env) (wipe_scene : bool) :
  flag_blind (STUDIO_OT_archive_and_iterate_execute env wipe_scene).
Proof.
  unfold STUDIO_OT_archive_and_iterate_execute, archive_iterate_setup,
    archive_iterate_wipe, archive_iterate_move, bpy_ops_object_select_all,
    bpy_ops_object_delete, bpy_ops_outliner_orphans_purge.
  blind.
Qed.

(* ====================================================================== *)
(** ** Where the folders of a version sit *)
(* ====================================================================== *)

Lemma join2_nonempty (path name : string) :
  name <> "" -> has_sep name = false -> posixpath.join2 path name <> "".
Proof.
  intros Hn Hs. rewrite (join2_relative _ _ (no_sep_relative _ Hs)).
  now apply append_nonempty_r, append_nonempty_r.
Qed.

(** Joining separator-free names onto a path goes down one entry per name. *)
Lemma node_of_join (path : string) (names : list string) :
  path <> "" ->
  Forall (fun n => n <> "" /\ has_sep n = false) names ->
  node_of (posixpath.join path names) =
  (fst (node_of path), (snd (node_of path) ++ names)%list).
Proof.
  intros Hp Hn. revert path Hp. induction Hn as [|n names [Hne Hs] _ IH]; intros path Hp.
  - unfold posixpath.join. cbn [fold_left]. rewrite app_nil_r.
    apply surjective_pairing.
  - unfold posixpath.join. cbn [fold_left]. fold (posixpath.join (posixpath.join2 path n) names).
    rewrite IH by now apply join2_nonempty.
    rewrite (node_of_join2 _ _ Hp Hne Hs). cbn [fst snd].
    now rewrite <- app_assoc.
Qed.

Lemma node_of_version_subfolder (scene : Context) (v : Z) (sub : string) :
  sub <> "" -> has_sep sub = false ->
  node_of (posixpath.join (get_version_folder scene v) [sub; "projects"]) =
  (fst (node_of (get_project_root scene)),
   List.app (snd (node_of (get_project_root scene)))
            ["v" ++ Py.format_02d v; sub; "projects"]).
Proof.
  intros Hne Hs. unfold get_version_folder. rewrite <- join_app.
  apply node_of_join; [apply get_project_root_nonempty|].
  destruct (version_name_ok v). repeat constructor; auto; discriminate.
Qed.

Lemma node_of_version_folder (scene : Context) (v : Z) :
  node_of (get_version_folder scene v) =
  (fst (node_of (get_project_root scene)),
   List.app (snd (node_of (get_project_root scene))) ["v" ++ Py.format_02d v]).
Proof.
  unfold get_version_folder. apply node_of_join; [apply get_project_root_nonempty|].
  destruct (version_name_ok v). repeat constructor; auto.
Qed.

Lemma strip_prefix_diverge (r : list string) (x y : string) (t : list string) :
  x <> y -> strip_prefix (r ++ [x]) (r ++ y :: t) = None.
Proof.
  intros Hne. induction r as [|c r IH]; cbn.
  - destruct (String.eqb x y) eqn:E; [|reflexivity].
    apply String.eqb_eq in E. contradiction.
  - now rewrite String.eqb_refl.
Qed.

(** A move of version [v]'s folder does not touch the entries under a
    different version's folder. *)
Lemma rebase_other_version (scene : Context) (v v' : Z) (sub : string) (dst : node) :
  0 <= v -> 0 <= v' -> v <> v' -> sub <> "" -> has_sep sub = false ->
  rebase (node_of (get_version_folder scene v)) dst
         (node_of (posixpath.join (get_version_folder scene v') [sub; "projects"])) =
  node_of (posixpath.join (get_version_folder scene v') [sub; "projects"]).
Proof.
  intros Hv Hv' Hne Hs1 Hs2.
  rewrite node_of_version_folder, (node_of_version_subfolder _ _ _ Hs1 Hs2).
  unfold rebase. cbn [fst snd]. rewrite Bool.eqb_reflx.
  rewrite strip_prefix_diverge; [reflexivity|].
  intros E. injection E as E. apply Hne. now apply format_02d_inj.
Qed.

Lemma isdir_mem (w : World) (p : string) :
  snd (node_of p) <> [] -> isdir w p = mem (node_of p) (fs_dirs w).
Proof. unfold isdir. now destruct (snd (node_of p)). Qed.

Lemma mem_map (f : node -> node) (n : node) (l : list node) :
  mem n l = true -> mem (f n) (map f l) = true.
Proof. rewrite !mem_In. apply in_map. Qed.

Lemma rebase_fixed_not_under (src n : node) :
  (forall dst, rebase src dst n = n) -> under src n = false.
Proof.
  intros H. specialize (H (negb (fst n), [])). unfold rebase, under in *.
  destruct (Bool.eqb (fst src) (fst n)); [|reflexivity].
  destruct (strip_prefix (snd src) (snd n)); [|reflexivity].
  destruct n as [a comps]. cbn [fst snd] in H. injection H as H _. now destruct a.
Qed.

(** What a failed move leaves of the entries that are not below the source. *)
Lemma partial_move_keeps (f : MoveFailure) (ns nd n : node) (w : World) :
  below ns n = false ->
  (mem n (fs_dirs w) = true -> mem n (fs_dirs (partial_move f ns nd w)) = true) /\
  (mem n (fs_files w) = true -> mem n (fs_files (partial_move f ns nd w)) = true).
Proof.
  intros Hb. unfold partial_move. cbn [fs_dirs fs_files set_fs].
  split; intros Hn; apply add_missing_keeps; now rewrite mem_filter, Hn, Hb.
Qed.

(** Step 4 keeps every directory that the move, if there is one, would
    leave where it is. *)
Lemma archive_iterate_move_keeps (env : Env) (old arch : string) (cur : Z)
    (ctx : Context) (n : node) :
  (forall dst, rebase (node_of old) dst n = n) ->
  mem n (fs_dirs (world ctx)) = true ->
  mem n (fs_dirs (world (snd (archive_iterate_move env old arch cur ctx)))) = true.
Proof.
  intros Hn Hm. rewrite archive_iterate_move_eq. cbv zeta.
  destruct (os_path_exists (world ctx) old); [|exact Hm].
  destruct (os_path_exists (world ctx) _); [exact Hm|].
  set (dest := posixpath.join arch ["v" ++ Py.format_02d cur]).
  assert (H : mem n (fs_dirs (world (snd (shutil_move env old dest ctx)))) = true).
  { unfold shutil_move. cbv zeta.
    destruct (move_fault env (world ctx) old dest) as [f|].
    { cbn [snd world]. apply partial_move_keeps; [|exact Hm].
      unfold below. now rewrite (rebase_fixed_not_under _ _ Hn). }
    destruct (negb _); [exact Hm|].
    destruct (_ || _); [exact Hm|].
    destruct (node_eqb _ _); [|exact Hm].
    cbn [snd world fs_dirs set_fs log_call].
    apply add_missing_keeps. rewrite <- (Hn (real_dst (world ctx) old dest)).
    now apply mem_map. }
  now destruct (shutil_move env old dest ctx) as [[[]|e] c1].
Qed.

Lemma archive_iterate_wipe_dirs_kept (env : Env) (wipe_scene : bool) :
  preserves dirs_kept (archive_iterate_wipe env wipe_scene).
Proof.
  unfold archive_iterate_wipe, bpy_ops_object_select_all, bpy_ops_object_delete,
    bpy_ops_outliner_orphans_purge. frame.
Qed.

(** Step 1: two creation requests, in order. *)
Lemma archive_iterate_setup_spec (env : Env) (a b : string) (ctx : Context) :
  let r := archive_iterate_setup env a b ctx in
  (exists rest, calls (world (snd r)) =
                (calls (world ctx) ++ os_makedirs_call a true :: rest)%list) /\
  match fst r with
  | Returns _ =>
      calls (world (snd r)) =
        (calls (world ctx) ++ [os_makedirs_call a true; os_makedirs_call b true])%list /\
      isdir (world (snd r)) a = true /\ isdir (world (snd r)) b = true
  | Raises _ => True
  end.
Proof.
  unfold archive_iterate_setup, bind. cbv zeta.
  pose proof (os_makedirs_spec env a true ctx) as S1. cbv zeta in S1.
  destruct (os_makedirs env a true ctx) as [[[]|e1] c1]; cbn [fst snd] in *.
  2:{ destruct S1 as (_ & C & _). split; [exists []; exact C | exact I]. }
  pose proof (os_makedirs_spec env b true c1) as S2. cbv zeta in S2.
  destruct S1 as (_ & C1 & _ & _ & _ & _ & D1).
  destruct S2 as (_ & C2 & _ & _ & _ & K2 & D2).
  assert (C : calls (world (snd (os_makedirs env b true c1))) =
              (calls (world ctx) ++ [os_makedirs_call a true; os_makedirs_call b true])%list)
    by (rewrite C2, C1, <- app_assoc; reflexivity).
  split; [eexists; exact C|].
  destruct (os_makedirs env b true c1) as [[[]|e2] c2]; cbn [fst snd] in *; [|exact I].
  split; [exact C|]. split; [|exact D2].
  now apply (isdir_kept c1 c2).
Qed.

(** ** The log of calls only grows *)

Lemma calls_kept_refl c : calls_kept c c.
Proof. exists []. now rewrite app_nil_r. Qed.

Lemma calls_kept_trans a b c : calls_kept a b -> calls_kept b c -> calls_kept a c.
Proof.
  intros [n1 E1] [n2 E2]. exists (n1 ++ n2)%list. now rewrite E2, E1, app_assoc.
Qed.

Lemma os_makedirs_calls_kept env p ok : preserves calls_kept (os_makedirs env p ok).
Proof. intros ctx. eexists. apply os_makedirs_spec. Qed.

Lemma save_calls_kept env f c : preserves calls_kept (bpy_ops_wm_save_as_mainfile env f c).
Proof. intros ctx. eexists. apply save_as_mainfile_spec. Qed.

Lemma shutil_move_calls_kept env s d : preserves calls_kept (shutil_move env s d).
Proof. intros ctx. eexists. apply shutil_move_spec. Qed.

Lemma host_op_calls_kept c o : preserves calls_kept (host_op c o).
Proof. intros ctx. rewrite (proj1 (host_op_spec c o ctx)). now eexists. Qed.

Lemma report_calls_kept l msg : preserves calls_kept (report l msg).
Proof. intros ctx. exists []. cbn. now rewrite app_nil_r. Qed.

Lemma modify_props_calls_kept f : preserves calls_kept (modify_props f).
Proof. intros ctx. exists []. cbn. now rewrite app_nil_r. Qed.

Lemma assign_version_calls_kept v : preserves calls_kept (assign_version v).
Proof. intros ctx. exists []. rewrite assign_version_world. now rewrite app_nil_r. Qed.

#[local] Hint Resolve calls_kept_refl calls_kept_trans os_makedirs_calls_kept
  save_calls_kept shutil_move_calls_kept host_op_calls_kept report_calls_kept
  modify_props_calls_kept assign_version_calls_kept : frame.

Lemma archive_iterate_wipe_calls_kept env wipe_scene :
  preserves calls_kept (archive_iterate_wipe env wipe_scene).
Proof.
  unfold archive_iterate_wipe, bpy_ops_object_select_all, bpy_ops_object_delete,
    bpy_ops_outliner_orphans_purge. frame.
Qed.

Lemma archive_iterate_move_calls_kept env old arch cur :
  preserves calls_kept (archive_iterate_move env old arch cur).
Proof. unfold archive_iterate_move. frame. Qed.

(** What Version Up asks of the outside world: its first call is the
    creation of the next version's working-projects folder; when it
    returns, both folders of the next version exist, the new wip file has
    been saved, and the counter has advanced. *)
Lemma archive_iterate_run (env : Env) (wipe_scene : bool) (ctx : Context) :
  0 <= version (studio_props ctx) ->
  let v := version (studio_props ctx) in
  let r := STUDIO_OT_archive_and_iterate_execute env wipe_scene ctx in
  (exists rest, calls (world (snd r)) =
                (calls (world ctx) ++ os_makedirs_call (wip_dir_of ctx (v + 1)) true :: rest)%list) /\
  (fst r = Returns FINISHED ->
   isdir (world (snd r)) (wip_dir_of ctx (v + 1)) = true /\
   isdir (world (snd r)) (fin_dir_of ctx (v + 1)) = true /\
   In (wm_save_as_mainfile_call (wip_path_of ctx (v + 1)) false) (calls (world (snd r)))).
Proof.
  intros Hv v r. subst r. rewrite archive_iterate_execute_eq. cbv zeta. fold v.
  pose proof (archive_iterate_setup_spec env (wip_dir_of ctx (v + 1))
                (fin_dir_of ctx (v + 1)) ctx) as S1. cbv zeta in S1.
  pose proof (archive_iterate_setup_same_props env (wip_dir_of ctx (v + 1))
                (fin_dir_of ctx (v + 1)) ctx) as P1.
  destruct (archive_iterate_setup env _ _ ctx) as [[[]|e] c1]; cbn [fst snd] in *.
  2:{ split; [apply S1 | discriminate]. }
  destruct S1 as ([rest1 C1] & _ & D1 & D2).
  assert (First : forall c, calls_kept c1 c ->
            exists rest, calls (world c) =
              (calls (world ctx) ++ os_makedirs_call (wip_dir_of ctx (v + 1)) true :: rest)%list).
  { intros c [new E]. exists (rest1 ++ new)%list.
    rewrite E, C1, <- app_assoc. reflexivity. }
  pose proof (archive_iterate_wipe_calls_kept env wipe_scene c1) as K2.
  pose proof (archive_iterate_wipe_dirs_kept env wipe_scene c1) as Dk2.
  pose proof (archive_iterate_wipe_same_props env wipe_scene c1) as P2.
  destruct (archive_iterate_wipe env wipe_scene c1) as [[[]|e] c2]; cbn [fst snd] in *.
  2:{ split; [now apply First | discriminate]. }
  assert (P : studio_props c2 = studio_props ctx)
    by (unfold same_props in *; congruence).
  rewrite (get_blend_filename_same_props ctx c2 _ _ P).
  change (posixpath.join (wip_dir_of ctx (v + 1)) [get_blend_filename ctx (v + 1) "wip"])
    with (wip_path_of ctx (v + 1)).
  pose proof (save_as_mainfile_spec env (wip_path_of ctx (v + 1)) false c2) as S3.
  cbv zeta in S3. destruct S3 as (_ & C3 & _ & F3 & _).
  pose proof (save_calls_kept env (wip_path_of ctx (v + 1)) false c2) as K3.
  destruct (bpy_ops_wm_save_as_mainfile env (wip_path_of ctx (v + 1)) false c2)
    as [[st|e] c3]; cbn [fst snd] in *.
  2:{ split; [apply First; eauto using calls_kept_trans | discriminate]. }
  pose proof (archive_iterate_move_calls_kept env (get_version_folder ctx v)
                (get_arch_folder ctx) v c3) as K4.
  set (c4 := snd (archive_iterate_move env (get_version_folder ctx v)
                    (get_arch_folder ctx) v c3)) in *.
  destruct ((v + 1 <? INT_MIN) || (INT_MAX <? v + 1))%bool; cbn [fst snd world];
    [split; [apply First; eauto using calls_kept_trans | discriminate]|].
  split; [apply First; eauto using calls_kept_trans|].
  intros _.
  assert (Keep : forall sub, sub <> "" -> has_sep sub = false ->
            isdir (world c1) (posixpath.join (get_version_folder ctx (v + 1)) [sub; "projects"])
              = true ->
            isdir (world c4) (posixpath.join (get_version_folder ctx (v + 1)) [sub; "projects"])
              = true).
  { intros sub Hs1 Hs2 Hd.
    assert (Hne : snd (node_of (posixpath.join (get_version_folder ctx (v + 1))
                                  [sub; "projects"])) <> []).
    { rewrite (node_of_version_subfolder _ _ _ Hs1 Hs2). cbn [snd].
      intros E. apply app_eq_nil in E as [_ E]. discriminate E. }
    rewrite (isdir_mem (world c1) _ Hne) in Hd. rewrite (isdir_mem (world c4) _ Hne).
    apply archive_iterate_move_keeps.
    - intros dst. apply rebase_other_version; auto; lia.
    - rewrite F3. now apply Dk2. }
  split; [apply (Keep "wip"); [discriminate | reflexivity | exact D1]|].
  split; [apply (Keep "fin"); [discriminate | reflexivity | exact D2]|].
  destruct K4 as [new E]. rewrite E, C3. apply in_or_app. left.
  apply in_or_app. right. now left.
Qed.



(* ====================================================================== *)
(** * Further properties of the operators *)
(* ====================================================================== *)

(** ** The property group over any sequence of operators *)

Lemma flag_raised_only_refl c : flag_raised_only c c.
Proof. now left. Qed.

Lemma flag_raised_only_trans a b c :
  flag_raised_only a b -> flag_raised_only b c -> flag_raised_only a c.
Proof.
  unfold flag_raised_only. intros [H1|H1] [H2|H2]; rewrite H2, H1; auto.
Qed.

Lemma same_props_flag_raised_only {A} (m : M A) :
  preserves same_props m -> preserves flag_raised_only m.
Proof. intros H ctx. left. apply H. Qed.

Lemma set_is_generated_flag_raised_only :
  preserves flag_raised_only (modify_props (set_is_generated true)).
Proof. intros ctx. now right. Qed.

#[local] Hint Resolve flag_raised_only_refl flag_raised_only_trans
  set_is_generated_flag_raised_only : frame.
#[local] Hint Extern 1 (preserves flag_raised_only _) =>
  apply same_props_flag_raised_only; solve [eauto with frame] : frame.

Lemma create_structure_flag_raised_only (env : Env) :
  preserves flag_raised_only (STUDIO_OT_create_structure_execute env).
Proof.
  unfold STUDIO_OT_create_structure_execute, create_structure_makedirs,
    create_structure_save. frame.
Qed.

Lemma startup_dialog_snd (env : Env) (ctx : Context) :
  snd (STUDIO_OT_startup_dialog_execute env ctx) =
  snd (STUDIO_OT_create_structure_execute env ctx).
Proof.
  unfold STUDIO_OT_startup_dialog_execute, bpy_ops_studio_create_structure.
  destruct (STUDIO_OT_create_structure_execute env ctx) as [[r|e] ctx']; [|reflexivity].
  now destruct (first_error _ _).
Qed.

(** What one operator may do to the property group. *)
Lemma execute_props (env : Env) (op : Operator) (ctx : Context) :
  let p := studio_props ctx in
  let p' := studio_props (snd (execute env op ctx)) in
  p' = p \/ p' = set_is_generated true p \/ p' = set_version (version p + 1) p.
Proof.
  cbv zeta. destruct op as [|wipe_scene| |]; cbn [execute].
  - destruct (create_structure_flag_raised_only env ctx); auto.
  - pose proof (archive_iterate_props env wipe_scene ctx) as H. cbv zeta in H.
    destruct (fst (STUDIO_OT_archive_and_iterate_execute env wipe_scene ctx));
      [destruct H as [_ H]|]; auto.
  - left. apply (finalize_same_props env ctx).
  - rewrite startup_dialog_snd.
    destruct (create_structure_flag_raised_only env ctx); auto.
Qed.

(** X1: no operator, and no sequence of operators, changes the root path,
    the asset type or the asset name; so the project root, and with it
    every folder and file name the add-on derives, stays where it was for
    as long as the document does. *)
Theorem identity_fields_never_written (env : Env) (ops : list Operator) (ctx : Context) :
  let p := studio_props ctx in
  let p' := studio_props (run_all env ops ctx) in
  base_path p' = base_path p /\
  asset_type p' = asset_type p /\
  asset_name p' = asset_name p /\
  folder_name p' = folder_name p /\
  (forall v state,
      get_blend_filename (run_all env ops ctx) v state = get_blend_filename ctx v state).
Proof.
  cbv zeta.
  assert (H : base_path (studio_props (run_all env ops ctx)) = base_path (studio_props ctx) /\
              asset_type (studio_props (run_all env ops ctx)) = asset_type (studio_props ctx) /\
              asset_name (studio_props (run_all env ops ctx)) = asset_name (studio_props ctx)).
  { revert ctx. induction ops as [|op ops IH]; intros ctx; cbn [run_all]; [auto|].
    destruct (IH (snd (execute env op ctx))) as (H1 & H2 & H3).
    rewrite H1, H2, H3.
    destruct (execute_props env op ctx) as [E|[E|E]]; cbv zeta in E; rewrite E; auto. }
  destruct H as (H1 & H2 & H3). repeat split; auto.
  - unfold folder_name, safe_name. now rewrite H2, H3.
  - intros v state. unfold get_blend_filename, safe_name. now rewrite H2, H3.
Qed.

(** One operator and the flag. *)
Lemma create_structure_flag (env : Env) (ctx : Context) :
  is_generated (studio_props ctx) = false ->
  (is_generated (studio_props (snd (STUDIO_OT_create_structure_execute env ctx))) = true <->
   fst (STUDIO_OT_create_structure_execute env ctx) = Returns FINISHED).
Proof.
  intros Hg. rewrite create_structure_execute_eq. cbv zeta.
  match goal with
  | |- context [create_structure_makedirs env ?a ?b ?c ctx] =>
      pose proof (create_structure_makedirs_spec env a b c ctx) as S;
      destruct (create_structure_makedirs env a b c ctx) as [[[]|e1] c1]
  end; cbv zeta in S; cbn [fst snd] in S; destruct S as (P & _).
  2:{ destruct (is_OSError e1); cbn [fst snd reported studio_props]; rewrite P, Hg;
      split; discriminate. }
  rewrite create_structure_save_eq.
  match goal with
  | |- context [bpy_ops_wm_save_as_mainfile env ?f false c1] =>
      pose proof (save_as_mainfile_spec env f false c1) as S2;
      destruct (bpy_ops_wm_save_as_mainfile env f false c1) as [[st|e2] c2]
  end; cbv zeta in S2; cbn [fst snd] in S2; destruct S2 as (P2 & _).
  - cbn. split; reflexivity.
  - cbn [fst snd reported studio_props]. rewrite P2, P, Hg. split; discriminate.
Qed.

Lemma startup_dialog_finished (env : Env) (ctx : Context) :
  fst (STUDIO_OT_startup_dialog_execute env ctx) = Returns FINISHED <->
  fst (STUDIO_OT_create_structure_execute env ctx) = Returns FINISHED.
Proof.
  unfold STUDIO_OT_startup_dialog_execute, bpy_ops_studio_create_structure.
  pose proof (create_structure_execute_eq env ctx) as E. cbv zeta in E.
  destruct (STUDIO_OT_create_structure_execute env ctx) as [[r|e] ctx'] eqn:Run.
  2:{ cbn. split; discriminate. }
  destruct r.
  - (* FINISHED: the only message is the INFO *)
    match type of E with
    | context [create_structure_makedirs env ?a ?b ?c ctx] =>
        pose proof (create_structure_makedirs_spec env a b c ctx) as S;
        destruct (create_structure_makedirs env a b c ctx) as [[[]|e1] c1]
    end; cbv zeta in S; cbn [fst snd] in S; destruct S as (_ & Rp & _).
    2:{ destruct (is_OSError e1); discriminate E. }
    rewrite create_structure_save_eq in E.
    match type of E with
    | context [bpy_ops_wm_save_as_mainfile env ?f false c1] =>
        pose proof (save_as_mainfile_spec env f false c1) as S2;
        destruct (bpy_ops_wm_save_as_mainfile env f false c1) as [[st|e2] c2]
    end; cbv zeta in S2; cbn [fst snd] in S2; destruct S2 as (_ & _ & R2 & _);
      [|discriminate E].
    injection E as E. rewrite E. cbn [reported world add_report reports].
    unfold first_error. rewrite R2, Rp, skipn_app, Nat.sub_diag, skipn_all. cbn.
    split; reflexivity.
  - destruct (first_error _ _); cbn; split; discriminate.
Qed.

Lemma run_all_flag_stays (env : Env) (ops : list Operator) (ctx : Context) :
  is_generated (studio_props ctx) = true ->
  is_generated (studio_props (run_all env ops ctx)) = true.
Proof.
  revert ctx. induction ops as [|op ops IH]; intros ctx Hg; cbn [run_all]; [exact Hg|].
  apply IH. destruct (execute_props env op ctx) as [E|[E|E]]; cbv zeta in E;
    rewrite E; auto.
Qed.

Lemma execute_raises_flag (env : Env) (op : Operator) (ctx : Context) :
  is_generated (studio_props ctx) = false ->
  (is_generated (studio_props (snd (execute env op ctx))) = true <->
   ((op = create_structure \/ op = startup_dialog) /\
    fst (execute env op ctx) = Returns FINISHED)).
Proof.
  intros Hg. destruct op as [|wipe_scene| |]; cbn [execute].
  - rewrite (create_structure_flag env ctx Hg). split; [auto | tauto].
  - pose proof (archive_iterate_props env wipe_scene ctx) as H. cbv zeta in H.
    assert (Hf : is_generated (studio_props
                   (snd (STUDIO_OT_archive_and_iterate_execute env wipe_scene ctx))) = false).
    { destruct (fst (STUDIO_OT_archive_and_iterate_execute env wipe_scene ctx));
        [destruct H as [_ H]|]; rewrite H; exact Hg. }
    rewrite Hf. split; [discriminate|]. intros [[E|E] _]; discriminate E.
  - rewrite (finalize_same_props env ctx), Hg.
    split; [discriminate|]. intros [[E|E] _]; discriminate E.
  - rewrite startup_dialog_snd, (create_structure_flag env ctx Hg), startup_dialog_finished.
    split; [auto | tauto].
Qed.

(** X2: the flag [is_generated] is raised by the Structure Initializer, run
    directly or through the setup dialog, exactly when it returns FINISHED,
    and by nothing else; once true it stays true over every sequence of
    operators. *)
Theorem flag_lifecycle (env : Env) (ctx : Context) :
  (forall ops,
      is_generated (studio_props ctx) = true ->
      is_generated (studio_props (run_all env ops ctx)) = true) /\
  (is_generated (studio_props ctx) = false ->
   forall op,
     is_generated (studio_props (snd (execute env op ctx))) = true <->
     ((op = create_structure \/ op = startup_dialog) /\
      fst (execute env op ctx) = Returns FINISHED)).
Proof.
  split.
  - intros ops. apply run_all_flag_stays.
  - intros Hg op. now apply execute_raises_flag.
Qed.

Example flag_lifecycle_runs :
  is_generated (studio_props (run_all no_faults
    [finalize; archive_iterate true; finalize] fresh_project)) = false /\
  is_generated (studio_props (run_all env_save_denied
    [create_structure; startup_dialog] fresh_project)) = false /\
  is_generated (studio_props (run_all no_faults
    [startup_dialog; archive_iterate false; create_structure] fresh_project)) = true.
Proof. vm_compute. repeat split. Qed.

(** ** Which calls a run may issue *)

Section NewCalls.

Variable P : Call -> bool.

Lemma new_calls_refl c : new_calls_satisfy P c c.
Proof. exists []. split; [now rewrite app_nil_r | reflexivity]. Qed.

Lemma new_calls_trans a b c :
  new_calls_satisfy P a b -> new_calls_satisfy P b c -> new_calls_satisfy P a c.
Proof.
  intros [n1 [E1 F1]] [n2 [E2 F2]]. exists (n1 ++ n2)%list.
  rewrite E2, E1, app_assoc, forallb_app, F1, F2. auto.
Qed.

Lemma new_calls_one (call : Call) (c c' : Context) :
  P call = true -> calls (world c') = (calls (world c) ++ [call])%list ->
  new_calls_satisfy P c c'.
Proof. intros HP E. exists [call]. split; [exact E | cbn; now rewrite HP]. Qed.

Lemma os_makedirs_new_calls env p ok :
  P (os_makedirs_call p ok) = true -> preserves (new_calls_satisfy P) (os_makedirs env p ok).
Proof. intros HP ctx. apply (new_calls_one _ _ _ HP). apply os_makedirs_spec. Qed.

Lemma save_new_calls env f c :
  P (wm_save_as_mainfile_call f c) = true ->
  preserves (new_calls_satisfy P) (bpy_ops_wm_save_as_mainfile env f c).
Proof. intros HP ctx. apply (new_calls_one _ _ _ HP). apply save_as_mainfile_spec. Qed.

Lemma shutil_move_new_calls env s d :
  P (shutil_move_call s d) = true -> preserves (new_calls_satisfy P) (shutil_move env s d).
Proof. intros HP ctx. apply (new_calls_one _ _ _ HP). apply shutil_move_spec. Qed.

Lemma host_op_new_calls c o :
  P c = true -> preserves (new_calls_satisfy P) (host_op c o).
Proof.
  intros HP ctx. apply (new_calls_one _ _ _ HP).
  now rewrite (proj1 (host_op_spec c o ctx)).
Qed.

Lemma report_new_calls l msg : preserves (new_calls_satisfy P) (report l msg).
Proof. intros ctx. exists []. split; [cbn; now rewrite app_nil_r | reflexivity]. Qed.

Lemma modify_props_new_calls f : preserves (new_calls_satisfy P) (modify_props f).
Proof. intros ctx. exists []. split; [cbn; now rewrite app_nil_r | reflexivity]. Qed.

Lemma assign_version_new_calls v : preserves (new_calls_satisfy P) (assign_version v).
Proof.
  intros ctx. exists []. rewrite assign_version_world.
  split; [now rewrite app_nil_r | reflexivity].
Qed.

End NewCalls.

#[local] Hint Resolve new_calls_refl new_calls_trans report_new_calls
  modify_props_new_calls assign_version_new_calls : frame.
#[local] Hint Extern 1 (preserves (new_calls_satisfy _) (os_makedirs _ _ _)) =>
  apply os_makedirs_new_calls; reflexivity : frame.
#[local] Hint Extern 1 (preserves (new_calls_satisfy _) (bpy_ops_wm_save_as_mainfile _ _ _)) =>
  apply save_new_calls; reflexivity : frame.
#[local] Hint Extern 1 (preserves (new_calls_satisfy _) (shutil_move _ _ _)) =>
  apply shutil_move_new_calls; reflexivity : frame.
#[local] Hint Extern 1 (preserves (new_calls_satisfy _) (host_op _ _)) =>
  apply host_op_new_calls; reflexivity : frame.

(** Step 2 when the wipe is requested: the three host operators, in order. *)
Lemma archive_iterate_wipe_calls (env : Env) (ctx : Context) :
  let r := archive_iterate_wipe env true ctx in
  match fst r with
  | Returns _ =>
      calls (world (snd r)) =
      (calls (world ctx) ++ [object_select_all_call "SELECT"; object_delete_call;
                             outliner_orphans_purge_call])%list
  | Raises _ => True
  end.
Proof.
  unfold archive_iterate_wipe, when, bind, ret, bpy_ops_object_select_all,
    bpy_ops_object_delete, bpy_ops_outliner_orphans_purge. cbv zeta.
  pose proof (host_op_spec (object_select_all_call "SELECT") (select_all_outcome env) ctx)
    as [S1 _]. cbv zeta in S1.
  destruct (host_op (object_select_all_call "SELECT") _ ctx) as [[r1|e1] c1];
    cbn [fst snd] in *; [|exact I].
  pose proof (host_op_spec object_delete_call (delete_outcome env) c1) as [S2 _].
  cbv zeta in S2.
  destruct (host_op object_delete_call _ c1) as [[r2|e2] c2]; cbn [fst snd] in *; [|exact I].
  pose proof (host_op_spec outliner_orphans_purge_call (orphans_purge_outcome env) c2)
    as [S3 _]. cbv zeta in S3.
  destruct (host_op outliner_orphans_purge_call _ c2) as [[r3|e3] c3];
    cbn [fst snd] in *; [|exact I].
  rewrite S3, S2, S1. cbn. now rewrite <- !app_assoc.
Qed.

Lemma archive_iterate_quiet (env : Env) :
  preserves (new_calls_satisfy (fun c => negb (is_scene_call c)))
            (STUDIO_OT_archive_and_iterate_execute env false).
Proof.
  unfold STUDIO_OT_archive_and_iterate_execute.
  change (archive_iterate_wipe env false) with (@ret unit tt).
  unfold archive_iterate_setup, archive_iterate_move. frame.
Qed.

Lemma create_structure_quiet (env : Env) :
  preserves (new_calls_satisfy (fun c => negb (is_scene_call c)))
            (STUDIO_OT_create_structure_execute env).
Proof.
  unfold STUDIO_OT_create_structure_execute, create_structure_makedirs,
    create_structure_save. frame.
Qed.

Lemma finalize_quiet (env : Env) :
  preserves (new_calls_satisfy (fun c => negb (is_scene_call c)))
            (STUDIO_OT_finalize_execute env).
Proof. unfold STUDIO_OT_finalize_execute. frame. Qed.

Lemma archive_iterate_move_only_moves (env : Env) old arch cur :
  preserves (new_calls_satisfy is_move_call) (archive_iterate_move env old arch cur).
Proof. unfold archive_iterate_move. frame. Qed.

(** X3: the host operators that change the scene are called by Version Up
    with Clear Scene set and by nothing else -- not by the Initializer, the
    Finalizer, the setup dialog or Version Up without Clear Scene, however
    the run ends.  A run of Version Up with Clear Scene that returns has
    made the two folders, then called select-all, delete and purge, in that
    order and once each, then saved; whatever it called after the save was
    a move. *)
Theorem scene_changed_only_on_request (env : Env) (ctx : Context) :
  (forall op,
      op <> archive_iterate true ->
      new_calls_satisfy (fun c => negb (is_scene_call c)) ctx (snd (execute env op ctx))) /\
  (fst (STUDIO_OT_archive_and_iterate_execute env true ctx) = Returns FINISHED ->
   let next := version (studio_props ctx) + 1 in
   exists rest,
     calls (world (snd (STUDIO_OT_archive_and_iterate_execute env true ctx))) =
     (calls (world ctx) ++
      [os_makedirs_call (wip_dir_of ctx next) true;
       os_makedirs_call (fin_dir_of ctx next) true;
       object_select_all_call "SELECT"; object_delete_call; outliner_orphans_purge_call;
       wm_save_as_mainfile_call (wip_path_of ctx next) false] ++ rest)%list /\
     forallb is_move_call rest = true).
Proof.
  split.
  - intros op Hop. destruct op as [|[|]| |]; cbn [execute].
    + apply create_structure_quiet.
    + now elim Hop.
    + apply archive_iterate_quiet.
    + apply finalize_quiet.
    + rewrite startup_dialog_snd. apply create_structure_quiet.
  - intros H next. rewrite archive_iterate_execute_eq in *. cbv zeta in *. fold next in H |- *.
    pose proof (archive_iterate_setup_spec env (wip_dir_of ctx next) (fin_dir_of ctx next) ctx)
      as S1. cbv zeta in S1.
    pose proof (archive_iterate_setup_same_props env (wip_dir_of ctx next)
                  (fin_dir_of ctx next) ctx) as P1.
    destruct (archive_iterate_setup env _ _ ctx) as [[[]|e] c1]; cbn [fst snd] in *;
      [|discriminate H].
    destruct S1 as (_ & C1 & _).
    pose proof (archive_iterate_wipe_calls env c1) as S2. cbv zeta in S2.
    pose proof (archive_iterate_wipe_same_props env true c1) as P2.
    destruct (archive_iterate_wipe env true c1) as [[[]|e] c2]; cbn [fst snd] in *;
      [|discriminate H].
    assert (P : studio_props c2 = studio_props ctx) by (unfold same_props in *; congruence).
    rewrite (get_blend_filename_same_props ctx c2 _ _ P) in *.
    change (posixpath.join (wip_dir_of ctx next) [get_blend_filename ctx next "wip"])
      with (wip_path_of ctx next) in *.
    pose proof (save_as_mainfile_spec env (wip_path_of ctx next) false c2) as S3.
    cbv zeta in S3. destruct S3 as (_ & C3 & _).
    destruct (bpy_ops_wm_save_as_mainfile env (wip_path_of ctx next) false c2)
      as [[st|e] c3]; cbn [fst snd] in *; [|discriminate H].
    destruct (archive_iterate_move_only_moves env
                (get_version_folder ctx (version (studio_props ctx)))
                (get_arch_folder ctx) (version (studio_props ctx)) c3) as [rest [E F]].
    exists rest. split; [|exact F].
    destruct ((next <? INT_MIN) || (INT_MAX <? next))%bool; [discriminate H|].
    cbn [snd world]. rewrite E, C3, S2, C1, <- !app_assoc. reflexivity.
Qed.

(** ** What stays on disk *)

Lemma fs_kept_refl c : fs_kept c c.
Proof. split; auto. Qed.

Lemma fs_kept_trans a b c : fs_kept a b -> fs_kept b c -> fs_kept a c.
Proof. intros [D1 F1] [D2 F2]. split; auto. Qed.

Lemma os_makedirs_fs_kept env p ok : preserves fs_kept (os_makedirs env p ok).
Proof.
  intros ctx. pose proof (os_makedirs_spec env p ok ctx) as S. cbv zeta in S.
  destruct S as (_ & _ & _ & _ & F & D & _). split; [exact D|].
  intros n. now rewrite F.
Qed.

Lemma save_fs_kept env f c : preserves fs_kept (bpy_ops_wm_save_as_mainfile env f c).
Proof.
  intros ctx. split.
  - intros n. pose proof (save_as_mainfile_spec env f c ctx) as S. cbv zeta in S.
    destruct S as (_ & _ & _ & D & _). now rewrite D.
  - intros n Hn. unfold bpy_ops_wm_save_as_mainfile. cbv zeta.
    destruct (save_fault env (world ctx) f c); [exact Hn|].
    destruct (snd (node_of f)); [exact Hn|].
    destruct (node_isdir (world ctx) _ && _); [|exact Hn].
    cbn [snd world fs_files set_data_filepath set_fs log_call].
    now apply add_missing_keeps.
Qed.

Lemma host_op_fs_kept c o : preserves fs_kept (host_op c o).
Proof. intros ctx. rewrite (proj1 (host_op_spec c o ctx)). split; auto. Qed.

Lemma report_fs_kept l msg : preserves fs_kept (report l msg).
Proof. intros ctx. split; auto. Qed.

Lemma modify_props_fs_kept f : preserves fs_kept (modify_props f).
Proof. intros ctx. split; auto. Qed.

Lemma assign_version_fs_kept v : preserves fs_kept (assign_version v).
Proof. intros ctx. unfold fs_kept. rewrite assign_version_world. now split. Qed.

#[local] Hint Resolve fs_kept_refl fs_kept_trans os_makedirs_fs_kept save_fs_kept
  host_op_fs_kept report_fs_kept modify_props_fs_kept assign_version_fs_kept : frame.

Lemma os_path_exists_kept (c c' : Context) (p : string) :
  fs_kept c c' -> os_path_exists (world c) p = true -> os_path_exists (world c') p = true.
Proof.
  intros [D F]. unfold os_path_exists, isdir, isfile. intros H.
  apply orb_true_iff in H as [H|H]; apply orb_true_iff.
  - left. destruct (snd (node_of p)); [exact H | now apply D].
  - right. now apply F.
Qed.

Lemma create_structure_fs_kept (env : Env) :
  preserves fs_kept (STUDIO_OT_create_structure_execute env).
Proof.
  unfold STUDIO_OT_create_structure_execute, create_structure_makedirs,
    create_structure_save. frame.
Qed.

Lemma finalize_fs_kept (env : Env) : preserves fs_kept (STUDIO_OT_finalize_execute env).
Proof. unfold STUDIO_OT_finalize_execute. frame. Qed.

Lemma archive_iterate_setup_fs_kept env a b :
  preserves fs_kept (archive_iterate_setup env a b).
Proof. unfold archive_iterate_setup. frame. Qed.

Lemma archive_iterate_wipe_fs_kept env wipe_scene :
  preserves fs_kept (archive_iterate_wipe env wipe_scene).
Proof.
  unfold archive_iterate_wipe, bpy_ops_object_select_all, bpy_ops_object_delete,
    bpy_ops_outliner_orphans_purge. frame.
Qed.

Lemma rebase_not_under (src dst n : node) : under src n = false -> rebase src dst n = n.
Proof.
  unfold under, rebase. destruct (Bool.eqb (fst src) (fst n)); [|reflexivity].
  cbn [andb]. now destruct (strip_prefix (snd src) (snd n)).
Qed.

(** A move keeps every entry that is not under its source. *)
Lemma shutil_move_keeps (env : Env) (src dst : string) (ctx : Context) (n : node) :
  under (node_of src) n = false ->
  (mem n (fs_dirs (world ctx)) = true ->
   mem n (fs_dirs (world (snd (shutil_move env src dst ctx)))) = true) /\
  (mem n (fs_files (world ctx)) = true ->
   mem n (fs_files (world (snd (shutil_move env src dst ctx)))) = true).
Proof.
  intros Hn. unfold shutil_move. cbv zeta.
  destruct (move_fault env (world ctx) src dst) as [f|].
  { assert (Hb : below (node_of src) n = false) by (unfold below; now rewrite Hn).
    exact (partial_move_keeps f _ _ n (log_call (shutil_move_call src dst) (world ctx)) Hb). }
  destruct (negb _); [split; auto|].
  destruct (_ || _); [split; auto|].
  destruct (node_eqb _ _); [|split; auto].
  cbn [snd world fs_dirs fs_files set_fs log_call]. split; intros Hm.
  - apply add_missing_keeps.
    rewrite <- (rebase_not_under _ (real_dst (world ctx) src dst) _ Hn).
    now apply mem_map.
  - rewrite <- (rebase_not_under _ (real_dst (world ctx) src dst) _ Hn).
    now apply mem_map.
Qed.

Lemma archive_iterate_move_keeps_fs (env : Env) (old arch : string) (cur : Z)
    (ctx : Context) (n : node) :
  under (node_of old) n = false ->
  (mem n (fs_dirs (world ctx)) = true ->
   mem n (fs_dirs (world (snd (archive_iterate_move env old arch cur ctx)))) = true) /\
  (mem n (fs_files (world ctx)) = true ->
   mem n (fs_files (world (snd (archive_iterate_move env old arch cur ctx)))) = true).
Proof.
  intros Hn. rewrite archive_iterate_move_eq. cbv zeta.
  destruct (os_path_exists (world ctx) old); [|split; auto].
  destruct (os_path_exists (world ctx) _); [split; auto|].
  set (dest := posixpath.join arch ["v" ++ Py.format_02d cur]).
  pose proof (shutil_move_keeps env old dest ctx n Hn) as K.
  now destruct (shutil_move env old dest ctx) as [[[]|e] c1].
Qed.

(** The whole of Version Up keeps what is not under the old version's folder. *)
Lemma archive_iterate_keeps (env : Env) (wipe_scene : bool) (ctx : Context) (n : node) :
  under (node_of (get_version_folder ctx (version (studio_props ctx)))) n = false ->
  let c' := snd (STUDIO_OT_archive_and_iterate_execute env wipe_scene ctx) in
  (mem n (fs_dirs (world ctx)) = true -> mem n (fs_dirs (world c')) = true) /\
  (mem n (fs_files (world ctx)) = true -> mem n (fs_files (world c')) = true).
Proof.
  intros Hn. cbv zeta. rewrite archive_iterate_execute_eq. cbv zeta.
  match goal with
  | |- context [archive_iterate_setup env ?a ?b ctx] =>
      pose proof (archive_iterate_setup_fs_kept env a b ctx) as [D1 F1];
      destruct (archive_iterate_setup env a b ctx) as [[[]|e] c1]
  end; cbn [fst snd] in *; [|split; auto].
  pose proof (archive_iterate_wipe_fs_kept env wipe_scene c1) as [D2 F2].
  destruct (archive_iterate_wipe env wipe_scene c1) as [[[]|e] c2]; cbn [fst snd] in *;
    [|split; auto].
  match goal with
  | |- context [bpy_ops_wm_save_as_mainfile env ?f false c2] =>
      pose proof (save_fs_kept env f false c2) as [D3 F3];
      destruct (bpy_ops_wm_save_as_mainfile env f false c2) as [[st|e] c3]
  end; cbn [fst snd] in *; [|split; auto].
  destruct (archive_iterate_move_keeps_fs env
              (get_version_folder ctx (version (studio_props ctx)))
              (get_arch_folder ctx) (version (studio_props ctx)) c3 n Hn) as [D4 F4].
  destruct ((_ <? INT_MIN) || _)%bool; cbn [snd world]; split; auto.
Qed.


(** ** Running an operator again *)

Lemma save_returns (env : Env) (f : string) (c : bool) (ctx : Context) :
  fst (bpy_ops_wm_save_as_mainfile env f c ctx) = Returns FINISHED <->
  save_fault env (world ctx) f c = None /\ save_possible (world ctx) f = true.
Proof.
  unfold bpy_ops_wm_save_as_mainfile, save_possible. cbv zeta.
  destruct (save_fault env (world ctx) f c); [cbn; split; [discriminate | intros [? _]; discriminate]|].
  destruct (snd (node_of f)); [cbn; split; [discriminate | intros [_ ?]; discriminate]|].
  destruct (node_isdir (world ctx) _ && _); cbn; split; auto; try discriminate.
  intros [_ ?]; discriminate.
Qed.

Lemma save_possible_ext (w w' : World) (f : string) :
  fs_dirs w' = fs_dirs w -> save_possible w' f = save_possible w f.
Proof. unfold save_possible, node_isdir. now intros ->. Qed.

(** Saving over a file that is there: no file is removed, and the only
    file that can be new is the backup of the one overwritten. *)
Lemma save_existing_file (env : Env) (f : string) (c : bool) (ctx : Context) :
  isfile (world ctx) f = true ->
  let w' := world (snd (bpy_ops_wm_save_as_mainfile env f c ctx)) in
  (forall n, mem n (fs_files (world ctx)) = true -> mem n (fs_files w') = true) /\
  (forall n, mem n (fs_files w') = true ->
             mem n (fs_files (world ctx)) = true \/
             (n = node_of (backup_of f) /\ keep_backup env = true)).
Proof.
  intros Hf. cbv zeta. destruct (save_files_spec env f c ctx) as [K N]. cbv zeta in K, N.
  split; [exact K|]. intros n Hn. destruct (N n Hn) as [H|[->|(H & Hk & _)]]; auto.
Qed.

(** A save that returns has kept the file it overwrote as a backup, when
    the host keeps backups. *)
Lemma save_backup_made (env : Env) (f : string) (c : bool) (ctx : Context) :
  fst (bpy_ops_wm_save_as_mainfile env f c ctx) = Returns FINISHED ->
  keep_backup env = true -> isfile (world ctx) f = true ->
  isfile (world (snd (bpy_ops_wm_save_as_mainfile env f c ctx))) (backup_of f) = true.
Proof.
  unfold bpy_ops_wm_save_as_mainfile, isfile. cbv zeta. intros H Hk Hf.
  destruct (save_fault env (world ctx) f c); [discriminate H|].
  destruct (snd (node_of f)); [discriminate H|].
  destruct (node_isdir (world ctx) _ && _); [|discriminate H].
  cbn [snd world fs_files set_data_filepath set_fs log_call].
  rewrite Hk, Hf. cbn [andb]. apply add_missing_adds. now left.
Qed.

(** The paths an operator computes depend on the context through the
    property group and the document's location only. *)
Lemma paths_stable (c c' : Context) (v : Z) :
  studio_props c' = studio_props c ->
  data_filepath (world c') = data_filepath (world c) ->
  get_project_root c' = get_project_root c /\
  get_version_folder c' v = get_version_folder c v /\
  get_arch_folder c' = get_arch_folder c /\
  wip_dir_of c' v = wip_dir_of c v /\
  fin_dir_of c' v = fin_dir_of c v /\
  wip_path_of c' v = wip_path_of c v /\
  fin_path_of c' v = fin_path_of c v.
Proof.
  intros P F.
  assert (R : get_project_root c' = get_project_root c).
  { unfold get_project_root, bpy_path_abspath. now rewrite P, F. }
  assert (N : forall s, get_blend_filename c' v s = get_blend_filename c v s)
    by (intros s; now apply get_blend_filename_same_props).
  unfold wip_path_of, fin_path_of, wip_dir_of, fin_dir_of, get_version_folder,
    get_arch_folder.
  now rewrite R, !N.
Qed.

(** X5: publishing again writes over the same file.  After a run of the
    Finalizer that returned, a second run -- in any environment -- creates
    no directory and issues the one copy-save at the same fin path; it
    removes no file, and the only file it can add is the backup of the file
    it overwrites, which the host keeps beside it when it keeps backups;
    the property group is as it was.  Unless the host refuses the save the
    second run returns FINISHED, and the backup is then there. *)
Theorem finalize_again (env env2 : Env) (ctx : Context) :
  fst (STUDIO_OT_finalize_execute env ctx) = Returns FINISHED ->
  let c1 := snd (STUDIO_OT_finalize_execute env ctx) in
  let r2 := STUDIO_OT_finalize_execute env2 c1 in
  let path := fin_path_of ctx (version (studio_props ctx)) in
  calls (world (snd r2)) = (calls (world c1) ++ [wm_save_as_mainfile_call path true])%list /\
  fs_dirs (world (snd r2)) = fs_dirs (world c1) /\
  (forall n, mem n (fs_files (world c1)) = true ->
             mem n (fs_files (world (snd r2))) = true) /\
  (forall n, mem n (fs_files (world (snd r2))) = true ->
             mem n (fs_files (world c1)) = true \/
             (n = node_of (backup_of path) /\ keep_backup env2 = true)) /\
  studio_props (snd r2) = studio_props ctx /\
  (save_fault env2 (world c1) path true = None ->
   fst r2 = Returns FINISHED /\
   (keep_backup env2 = true -> isfile (world (snd r2)) (backup_of path) = true)).
Proof.
  intros H c1 r2 path.
  pose proof (finalize_same_props env ctx) as P1. unfold same_props in P1. fold c1 in P1.
  pose proof (finalize_same_filepath env ctx) as F1. unfold same_filepath in F1.
  fold c1 in F1.
  set (v := version (studio_props ctx)) in *.
  destruct (paths_stable ctx c1 v P1 F1) as (_ & _ & _ & _ & Efin & _ & Epath).
  (* the first run: the folder is there, the file is there, a save was possible *)
  assert (First : os_path_exists (world c1) (fin_dir_of ctx v) = true /\
                  isfile (world c1) path = true /\
                  save_possible (world c1) path = true).
  { subst c1 v path. rewrite finalize_execute_eq in *. cbv zeta in *.
    set (v := version (studio_props ctx)) in *. set (fin := fin_dir_of ctx v) in *.
    assert (Pre : let s := if os_path_exists (world ctx) fin then (Returns tt, ctx)
                           else os_makedirs env fin true ctx in
                  studio_props (snd s) = studio_props ctx /\
                  (fst s = Returns tt -> os_path_exists (world (snd s)) fin = true)).
    { cbv zeta. destruct (os_path_exists (world ctx) fin) eqn:E; [now split|].
      pose proof (os_makedirs_spec env fin true ctx) as S. cbv zeta in S.
      destruct S as (P & _ & _ & _ & _ & _ & D). split; [exact P|].
      intros R. rewrite R in D. unfold os_path_exists. now rewrite D. }
    cbv zeta in Pre.
    destruct (if os_path_exists (world ctx) fin then (Returns tt, ctx)
              else os_makedirs env fin true ctx) as [[[]|e] c0]; cbn [fst snd] in *;
      [|discriminate H].
    destruct Pre as (P0 & E0). specialize (E0 eq_refl).
    rewrite P0, (get_blend_filename_same_props ctx c0 _ _ P0) in *. fold v in H |- *.
    change (posixpath.join fin [get_blend_filename ctx v "fin"]) with (fin_path_of ctx v) in *.
    pose proof (save_as_mainfile_spec env (fin_path_of ctx v) true c0) as S. cbv zeta in S.
    pose proof (save_fs_kept env (fin_path_of ctx v) true c0) as K.
    pose proof (proj1 (save_returns env (fin_path_of ctx v) true c0)) as SR.
    destruct (bpy_ops_wm_save_as_mainfile env (fin_path_of ctx v) true c0)
      as [[st|e] c2]; cbn [fst snd] in *; [|discriminate H].
    destruct S as (_ & _ & _ & D & _ & St & Hf & _). subst st.
    cbn [reported world]. split; [|split].
    - rewrite (os_path_exists_ext (world c2)) by reflexivity.
      now apply (os_path_exists_kept c0 c2).
    - exact Hf.
    - rewrite (save_possible_ext (world c0)) by (cbn; exact D). now apply SR. }
  destruct First as (Ex & Hf & Sp).
  (* the second run *)
  subst r2. clearbody c1. rewrite finalize_execute_eq. cbv zeta. rewrite P1. fold v.
  rewrite Efin, Ex. cbv iota beta zeta. rewrite P1. fold v.
  rewrite (get_blend_filename_same_props ctx c1 _ _ P1).
  change (posixpath.join (fin_dir_of ctx v) [get_blend_filename ctx v "fin"]) with path.
  pose proof (save_as_mainfile_spec env2 path true c1) as S. cbv zeta in S.
  destruct (save_existing_file env2 path true c1 Hf) as [Kf Nf]. cbv zeta in Kf, Nf.
  pose proof (proj2 (save_returns env2 path true c1)) as SR.
  pose proof (save_backup_made env2 path true c1) as Bk.
  destruct (bpy_ops_wm_save_as_mainfile env2 path true c1) as [[st|e] c2];
    cbn [fst snd] in *; destruct S as (P & C & _ & D & _ & S).
  - destruct S as [-> _]. cbn [reported world studio_props fs_dirs fs_files add_report calls].
    do 4 (split; [assumption|]). split; [congruence|].
    intros _. split; [reflexivity|]. intros Hk. rewrite isfile_add_report. now apply Bk.
  - do 4 (split; [assumption|]). split; [congruence|].
    intros Hs. specialize (SR (conj Hs Sp)). discriminate SR.
Qed.

Lemma finalize_again_witness :
  fst (STUDIO_OT_finalize_execute no_faults fresh_project) = Returns FINISHED /\
  calls (world (snd (STUDIO_OT_finalize_execute env_makedirs_denied
                       (snd (STUDIO_OT_finalize_execute no_faults fresh_project))))) =
    [os_makedirs_call "/proj/prp_My_Asset/v01/fin/projects" true;
     wm_save_as_mainfile_call
       "/proj/prp_My_Asset/v01/fin/projects/prp_My_Asset_v01_fin.blend" true;
     wm_save_as_mainfile_call
       "/proj/prp_My_Asset/v01/fin/projects/prp_My_Asset_v01_fin.blend" true] /\
  fst (STUDIO_OT_finalize_execute env_makedirs_denied
         (snd (STUDIO_OT_finalize_execute no_faults fresh_project))) = Returns FINISHED /\
  isfile (world (snd (STUDIO_OT_finalize_execute env_makedirs_denied
                        (snd (STUDIO_OT_finalize_execute no_faults fresh_project)))))
         "/proj/prp_My_Asset/v01/fin/projects/prp_My_Asset_v01_fin.blend1" = true.
Proof.
  assert (H : fst (STUDIO_OT_finalize_execute no_faults fresh_project) = Returns FINISHED)
    by (vm_compute; reflexivity).
  split; [exact H|].
  destruct (finalize_again no_faults env_makedirs_denied fresh_project H)
    as (C & _ & _ & _ & _ & R).
  split; [exact C|]. destruct R as [R B]; [reflexivity|].
  split; [exact R | apply B; reflexivity].
Defined.

(** What a returning run of the Structure Initializer leaves behind. *)
Lemma create_structure_finished (env : Env) (ctx : Context) :
  fst (STUDIO_OT_create_structure_execute env ctx) = Returns FINISHED ->
  let c1 := snd (STUDIO_OT_create_structure_execute env ctx) in
  let v := version (studio_props ctx) in
  studio_props c1 = set_is_generated true (studio_props ctx) /\
  data_filepath (world c1) = host_abspath (cwd env) (wip_path_of ctx v) /\
  isdir (world c1) (wip_dir_of ctx v) = true /\
  isdir (world c1) (fin_dir_of ctx v) = true /\
  isdir (world c1) (get_arch_folder ctx) = true /\
  isfile (world c1) (wip_path_of ctx v) = true /\
  save_possible (world c1) (wip_path_of ctx v) = true.
Proof.
  cbv zeta. rewrite create_structure_execute_eq. cbv zeta.
  set (v := version (studio_props ctx)).
  pose proof (create_structure_makedirs_spec env (wip_dir_of ctx v) (fin_dir_of ctx v)
                (get_arch_folder ctx) ctx) as S. cbv zeta in S.
  destruct (create_structure_makedirs env _ _ _ ctx) as [[[]|e1] c0]; cbn [fst snd] in S.
  2:{ destruct (is_OSError e1); discriminate. }
  destruct S as (P & _ & _ & _ & _ & D1 & D2 & D3).
  rewrite P, (get_blend_filename_same_props ctx c0 _ _ P). fold v.
  change (posixpath.join (wip_dir_of ctx v) [get_blend_filename ctx v "wip"])
    with (wip_path_of ctx v).
  rewrite create_structure_save_eq.
  pose proof (save_as_mainfile_spec env (wip_path_of ctx v) false c0) as S2. cbv zeta in S2.
  pose proof (proj1 (save_returns env (wip_path_of ctx v) false c0)) as SR.
  destruct (bpy_ops_wm_save_as_mainfile env (wip_path_of ctx v) false c0) as [[st|e2] c2];
    cbn [fst snd] in *; [|discriminate].
  intros _. destruct S2 as (P2 & _ & _ & D & _ & St & Hf & _ & Hp). subst st.
  cbn [reported world studio_props].
  assert (Hd : forall p, isdir (world c0) p = true ->
                         isdir (add_report INFO ("Workbench Initialized: "
                                  ++ get_blend_filename ctx v "wip") (world c2)) p = true).
  { intros p Hp1. rewrite isdir_add_report. now rewrite (isdir_ext _ _ p D). }
  split; [congruence|]. split; [now apply Hp|].
  do 3 (split; [now apply Hd|]). split; [exact Hf|].
  rewrite (save_possible_ext (world c0)) by (cbn; exact D). now apply SR.
Qed.

(** With an absolute root path the paths do not follow the document. *)
Lemma same_config_identity (c c' : Context) : same_config c c' -> same_identity c c'.
Proof. unfold same_config. intros P. injection P as Pb Pt Pn Pv. now repeat split. Qed.

Lemma paths_stable_absolute (c c' : Context) (v : Z) :
  same_identity c c' ->
  Py.startswith "//" (base_path (studio_props c)) = false ->
  get_arch_folder c' = get_arch_folder c /\
  wip_dir_of c' v = wip_dir_of c v /\
  fin_dir_of c' v = fin_dir_of c v /\
  wip_path_of c' v = wip_path_of c v /\
  fin_path_of c' v = fin_path_of c v /\
  get_version_folder c' v = get_version_folder c v.
Proof.
  intros (Pb & Pt & Pn) Hb.
  assert (R : get_project_root c' = get_project_root c).
  { unfold get_project_root, bpy_path_abspath, folder_name, safe_name.
    now rewrite Pb, Pt, Pn, Hb. }
  assert (N : forall s, get_blend_filename c' v s = get_blend_filename c v s).
  { intros s. unfold get_blend_filename, safe_name. now rewrite Pt, Pn. }
  unfold wip_path_of, fin_path_of, wip_dir_of, fin_dir_of, get_version_folder,
    get_arch_folder.
  now rewrite R, !N.
Qed.

(** A second run of the Structure Initializer after one that returned. *)
Lemma create_structure_again (env env2 : Env) (ctx : Context) :
  fst (STUDIO_OT_create_structure_execute env ctx) = Returns FINISHED ->
  Py.startswith "//" (base_path (studio_props ctx)) = false ->
  let c1 := snd (STUDIO_OT_create_structure_execute env ctx) in
  let r2 := STUDIO_OT_create_structure_execute env2 c1 in
  let v := version (studio_props ctx) in
  calls (world (snd r2)) =
    (calls (world c1) ++
     [os_makedirs_call (wip_dir_of ctx v) true; os_makedirs_call (fin_dir_of ctx v) true;
      os_makedirs_call (get_arch_folder ctx) true;
      wm_save_as_mainfile_call (wip_path_of ctx v) false])%list /\
  fs_dirs (world (snd r2)) = fs_dirs (world c1) /\
  (forall n, mem n (fs_files (world c1)) = true ->
             mem n (fs_files (world (snd r2))) = true) /\
  (forall n, mem n (fs_files (world (snd r2))) = true ->
             mem n (fs_files (world c1)) = true \/
             (n = node_of (backup_of (wip_path_of ctx v)) /\ keep_backup env2 = true)) /\
  is_generated (studio_props (snd r2)) = true /\
  (exists st, fst r2 = Returns st) /\
  ((forall w, save_fault env2 w (wip_path_of ctx v) false = None) ->
   fst r2 = Returns FINISHED /\
   (keep_backup env2 = true ->
    isfile (world (snd r2)) (backup_of (wip_path_of ctx v)) = true)).
Proof.
  intros H Hb c1 r2 v.
  destruct (create_structure_finished env ctx H) as (P1 & _ & D1 & D2 & D3 & Hf & Sp).
  fold c1 v in P1, D1, D2, D3, Hf, Sp.
  assert (Cfg : same_config ctx c1) by (unfold same_config; now rewrite P1).
  destruct (paths_stable_absolute ctx c1 v (same_config_identity _ _ Cfg) Hb)
    as (Ea & Ew & Efi & Ep & _ & _).
  assert (Ev : version (studio_props c1) = v) by now rewrite P1.
  subst r2. clearbody c1. rewrite create_structure_execute_eq. cbv zeta.
  rewrite Ev, Ew, Efi, Ea.
  destruct (create_structure_makedirs_existing env2 _ _ _ c1 D1 D2 D3) as [R0 [Fd Ff]].
  pose proof (create_structure_makedirs_spec env2 (wip_dir_of ctx v) (fin_dir_of ctx v)
                (get_arch_folder ctx) c1) as S. cbv zeta in S.
  destruct (create_structure_makedirs env2 _ _ _ c1) as [[[]|e1] c0]; cbn [fst snd] in *;
    [|discriminate R0].
  destruct S as (P & _ & _ & _ & C0 & _).
  rewrite P, Ev, (get_blend_filename_same_props c1 c0 _ _ P).
  assert (En : get_blend_filename c1 v "wip" = get_blend_filename ctx v "wip").
  { apply path_builder_props_only. exact Cfg. }
  rewrite En.
  change (posixpath.join (wip_dir_of ctx v) [get_blend_filename ctx v "wip"])
    with (wip_path_of ctx v).
  rewrite create_structure_save_eq.
  assert (Hf0 : isfile (world c0) (wip_path_of ctx v) = true)
    by (unfold isfile; rewrite Ff; exact Hf).
  assert (Sp0 : save_possible (world c0) (wip_path_of ctx v) = true)
    by (rewrite (save_possible_ext (world c1)); [exact Sp | exact Fd]).
  pose proof (save_as_mainfile_spec env2 (wip_path_of ctx v) false c0) as S2. cbv zeta in S2.
  destruct (save_existing_file env2 (wip_path_of ctx v) false c0 Hf0) as [Kf Nf].
  cbv zeta in Kf, Nf. rewrite Ff in Kf, Nf.
  pose proof (proj2 (save_returns env2 (wip_path_of ctx v) false c0)) as SR.
  pose proof (save_backup_made env2 (wip_path_of ctx v) false c0) as Bk.
  destruct (bpy_ops_wm_save_as_mainfile env2 (wip_path_of ctx v) false c0) as [[st|e2] c2];
    cbn [fst snd] in *; destruct S2 as (P2 & C2 & _ & D & _ & S2);
    cbn [reported world studio_props add_report calls fs_dirs fs_files].
  - destruct S2 as [-> _].
    split; [rewrite C2, C0, <- app_assoc; reflexivity|].
    split; [congruence|]. split; [exact Kf|]. split; [exact Nf|].
    split; [reflexivity|]. split; [eexists; reflexivity|].
    intros _. split; [reflexivity|]. intros Hk. rewrite isfile_add_report.
    now apply Bk.
  - split; [rewrite C2, C0, <- app_assoc; reflexivity|].
    split; [congruence|]. split; [exact Kf|]. split; [exact Nf|].
    split; [rewrite P2, P, P1; reflexivity|].
    split; [eexists; reflexivity|].
    intros Hs. specialize (SR (conj (Hs _) Sp0)). discriminate SR.
Qed.



(** ** Where the document lives *)

Lemma host_op_same_filepath c o : preserves same_filepath (host_op c o).
Proof. intros ctx. now rewrite (proj1 (host_op_spec c o ctx)). Qed.

Lemma shutil_move_same_filepath env s d : preserves same_filepath (shutil_move env s d).
Proof. from_spec (shutil_move_spec env s d). Qed.

Lemma modify_props_same_filepath f : preserves same_filepath (modify_props f).
Proof. intros ctx. reflexivity. Qed.

Lemma assign_version_same_filepath v : preserves same_filepath (assign_version v).
Proof. intros ctx. unfold same_filepath. now rewrite assign_version_world. Qed.

#[local] Hint Resolve host_op_same_filepath shutil_move_same_filepath
  modify_props_same_filepath assign_version_same_filepath : frame.

Lemma archive_iterate_setup_same_filepath env a b :
  preserves same_filepath (archive_iterate_setup env a b).
Proof. unfold archive_iterate_setup. frame. Qed.

Lemma archive_iterate_wipe_same_filepath env wipe_scene :
  preserves same_filepath (archive_iterate_wipe env wipe_scene).
Proof.
  unfold archive_iterate_wipe, bpy_ops_object_select_all, bpy_ops_object_delete,
    bpy_ops_outliner_orphans_purge. frame.
Qed.

Lemma archive_iterate_move_same_filepath env old arch cur :
  preserves same_filepath (archive_iterate_move env old arch cur).
Proof. unfold archive_iterate_move. frame. Qed.

Lemma create_structure_makedirs_same_filepath env a b c :
  preserves same_filepath (create_structure_makedirs env a b c).
Proof. unfold create_structure_makedirs. frame. Qed.

(** Version Up and the document: moved to the new wip path by a run that
    returns, left alone by a run that raises -- unless what raises is the
    assignment of a version the property cannot hold, after the save. *)
Lemma archive_iterate_filepath (env : Env) (wipe_scene : bool) (ctx : Context) :
  let r := STUDIO_OT_archive_and_iterate_execute env wipe_scene ctx in
  match fst r with
  | Returns _ =>
      data_filepath (world (snd r)) =
      host_abspath (cwd env) (wip_path_of ctx (version (studio_props ctx) + 1))
  | Raises _ =>
      INT_MIN <= version (studio_props ctx) + 1 <= INT_MAX ->
      data_filepath (world (snd r)) = data_filepath (world ctx)
  end.
Proof.
  cbv zeta. rewrite archive_iterate_execute_eq. cbv zeta.
  set (next := version (studio_props ctx) + 1).
  pose proof (archive_iterate_setup_same_filepath env (wip_dir_of ctx next)
                (fin_dir_of ctx next) ctx) as F1.
  pose proof (archive_iterate_setup_same_props env (wip_dir_of ctx next)
                (fin_dir_of ctx next) ctx) as P1.
  destruct (archive_iterate_setup env _ _ ctx) as [[[]|e] c1]; cbn [fst snd] in *;
    [|intros _; exact F1].
  pose proof (archive_iterate_wipe_same_filepath env wipe_scene c1) as F2.
  pose proof (archive_iterate_wipe_same_props env wipe_scene c1) as P2.
  destruct (archive_iterate_wipe env wipe_scene c1) as [[[]|e] c2]; cbn [fst snd] in *;
    [|intros _; unfold same_filepath in *; congruence].
  assert (P : studio_props c2 = studio_props ctx) by (unfold same_props in *; congruence).
  rewrite (get_blend_filename_same_props ctx c2 _ _ P).
  change (posixpath.join (wip_dir_of ctx next) [get_blend_filename ctx next "wip"])
    with (wip_path_of ctx next).
  pose proof (save_as_mainfile_spec env (wip_path_of ctx next) false c2) as S.
  cbv zeta in S. destruct S as (_ & _ & _ & _ & _ & S).
  destruct (bpy_ops_wm_save_as_mainfile env (wip_path_of ctx next) false c2)
    as [[st|e] c3]; cbn [fst snd] in *.
  - destruct S as (_ & _ & _ & Hp).
    pose proof (archive_iterate_move_same_filepath env
                  (get_version_folder ctx (version (studio_props ctx)))
                  (get_arch_folder ctx) (version (studio_props ctx)) c3) as F4.
    unfold same_filepath in F4.
    destruct ((next <? INT_MIN) || (INT_MAX <? next))%bool eqn:Er; cbn [fst snd world].
    + intros Hv. apply orb_true_iff in Er. unfold INT_MIN, INT_MAX in *.
      destruct Er as [Er|Er]; lia.
    + rewrite F4. now apply Hp.
  - intros _. destruct S as [_ S]. unfold same_filepath in *. congruence.
Qed.

(** The Initializer and the document: moved to the wip path by a run that
    returns FINISHED, left alone otherwise. *)
Lemma create_structure_filepath (env : Env) (ctx : Context) :
  let r := STUDIO_OT_create_structure_execute env ctx in
  data_filepath (world (snd r)) =
    host_abspath (cwd env) (wip_path_of ctx (version (studio_props ctx))) \/
  (data_filepath (world (snd r)) = data_filepath (world ctx) /\
   fst r <> Returns FINISHED).
Proof.
  cbv zeta. rewrite create_structure_execute_eq. cbv zeta.
  set (v := version (studio_props ctx)).
  pose proof (create_structure_makedirs_spec env (wip_dir_of ctx v) (fin_dir_of ctx v)
                (get_arch_folder ctx) ctx) as S. cbv zeta in S.
  destruct (create_structure_makedirs env _ _ _ ctx) as [[[]|e1] c0]; cbn [fst snd] in S;
    destruct S as (P & _ & F & _).
  2:{ right. destruct (is_OSError e1); cbn; split; auto; discriminate. }
  rewrite P, (get_blend_filename_same_props ctx c0 _ _ P). fold v.
  change (posixpath.join (wip_dir_of ctx v) [get_blend_filename ctx v "wip"])
    with (wip_path_of ctx v).
  rewrite create_structure_save_eq.
  pose proof (save_as_mainfile_spec env (wip_path_of ctx v) false c0) as S2. cbv zeta in S2.
  destruct S2 as (_ & _ & _ & _ & _ & S2).
  destruct (bpy_ops_wm_save_as_mainfile env (wip_path_of ctx v) false c0) as [[st|e2] c2];
    cbn [fst snd] in *.
  - left. destruct S2 as (_ & _ & _ & Hp). cbn. now apply Hp.
  - right. destruct S2 as [_ S2]. cbn. split; [congruence | discriminate].
Qed.


(* ====================================================================== *)
(** * Further properties of the path builder *)
(* ====================================================================== *)

Lemma length_append (a b : string) :
  String.length (a ++ b) = (String.length a + String.length b)%nat.
Proof. induction a as [|c a IH]; simpl; [reflexivity | now rewrite IH]. Qed.

Lemma append_inj_r (a b r : string) : a ++ r = b ++ r -> a = b.
Proof.
  revert b. induction a as [|c a IH]; intros [|d b] H; simpl in *.
  - reflexivity.
  - apply (f_equal String.length) in H. simpl in H. rewrite length_append in H. lia.
  - apply (f_equal String.length) in H. simpl in H. rewrite length_append in H. lia.
  - injection H as -> H. f_equal. now apply IH.
Qed.

Lemma has_sep_replace (s : string) : has_sep (Py.replace " " "_" s) = has_sep s.
Proof.
  induction s as [|c s IH]; simpl; [reflexivity|]. rewrite IH. f_equal.
  destruct (Ascii.eqb c " ") eqn:E; [|reflexivity].
  apply Ascii.eqb_eq in E. now subst c.
Qed.

Lemma has_sep_folder_name (props : StudioProjectProps) :
  has_sep (folder_name props) = has_sep (asset_name props).
Proof.
  unfold folder_name, safe_name. rewrite !has_sep_append, has_sep_replace.
  now destruct (asset_type props).
Qed.

Lemma get_blend_filename_relative (scene : Context) (v : Z) (state : string) :
  Py.startswith "/" (get_blend_filename scene v state) = false.
Proof. unfold get_blend_filename. now destruct (asset_type (studio_props scene)). Qed.

Lemma get_blend_filename_nonempty (scene : Context) (v : Z) (state : string) :
  get_blend_filename scene v state <> "".
Proof. unfold get_blend_filename. now destruct (asset_type (studio_props scene)). Qed.

Lemma has_sep_blend_filename (scene : Context) (v : Z) (state : string) :
  has_sep (get_blend_filename scene v state) =
  has_sep (asset_name (studio_props scene)) || has_sep state.
Proof.
  rewrite get_blend_filename_eq, !has_sep_append, has_sep_folder_name, has_sep_format_02d.
  cbn. now rewrite !orb_false_r.
Qed.

Lemma join_relative_nonempty (path : string) (names : list string) :
  path <> "" -> Forall (fun n => Py.startswith "/" n = false) names ->
  posixpath.join path names <> "".
Proof.
  intros Hp Hn. revert path Hp. induction Hn as [|n names Hr _ IH]; intros path Hp;
    [exact Hp|].
  unfold posixpath.join. cbn [fold_left]. apply IH.
  rewrite (join2_relative _ _ Hr). destruct path; [congruence | discriminate].
Qed.

Lemma version_subfolder_nonempty (scene : Context) (v : Z) (sub : string) :
  posixpath.join (get_version_folder scene v) [sub; "projects"] <> "".
Proof.
  unfold posixpath.join. cbn [fold_left].
  rewrite (join2_relative _ "projects" eq_refl).
  now apply append_nonempty_r, append_nonempty_r.
Qed.

(** X8: a project's file names.  The file name never starts with a
    separator, so joining it onto a folder never discards the folder; it
    contains a separator exactly when the asset name or the state does --
    sanitization leaves slashes alone; for one configuration, distinct
    non-negative versions have distinct file names, and so do distinct
    states.  When the asset name has no separator the wip and fin files
    sit directly inside the working-projects and final-projects folders. *)
Theorem blend_file_names (scene : Context) :
  (forall v state, Py.startswith "/" (get_blend_filename scene v state) = false) /\
  (forall v state,
      has_sep (get_blend_filename scene v state) =
      has_sep (asset_name (studio_props scene)) || has_sep state) /\
  (forall v1 v2 state,
      0 <= v1 -> 0 <= v2 -> v1 <> v2 ->
      get_blend_filename scene v1 state <> get_blend_filename scene v2 state) /\
  (forall v s1 s2,
      s1 <> s2 -> get_blend_filename scene v s1 <> get_blend_filename scene v s2) /\
  (has_sep (asset_name (studio_props scene)) = false ->
   forall v,
     is_direct_child (wip_dir_of scene v) (wip_path_of scene v) = true /\
     is_direct_child (fin_dir_of scene v) (fin_path_of scene v) = true).
Proof.
  split; [apply get_blend_filename_relative|].
  split; [apply has_sep_blend_filename|].
  split; [|split].
  - intros v1 v2 state H1 H2 Hne E. apply Hne.
    rewrite !get_blend_filename_eq in E. do 2 apply append_inj_l in E.
    apply append_inj_r in E. now apply format_02d_inj.
  - intros v s1 s2 Hne E. apply Hne.
    rewrite !get_blend_filename_eq in E. do 4 apply append_inj_l in E.
    now apply append_inj_r in E.
  - intros Hs v. split.
    + unfold wip_path_of. unfold posixpath.join at 1. cbn [fold_left].
      apply is_direct_child_join2;
        [exact (version_subfolder_nonempty scene v "wip")
        | apply get_blend_filename_nonempty
        | rewrite has_sep_blend_filename, Hs; reflexivity].
    + unfold fin_path_of. unfold posixpath.join at 1. cbn [fold_left].
      apply is_direct_child_join2;
        [exact (version_subfolder_nonempty scene v "fin")
        | apply get_blend_filename_nonempty
        | rewrite has_sep_blend_filename, Hs; reflexivity].
Qed.

Example blend_file_name_with_a_slash :
  let scene := mkContext (mkProps "/proj" res "sets/forest" 3 false) fresh_world in
  get_blend_filename scene 3 "wip" = "res_sets/forest_v03_wip.blend" /\
  wip_path_of scene 3 =
    "/proj/res_sets/forest/v03/wip/projects/res_sets/forest_v03_wip.blend" /\
  is_direct_child (wip_dir_of scene 3) (wip_path_of scene 3) = false /\
  fst (STUDIO_OT_create_structure_execute no_faults scene) = Returns CANCELLED.
Proof. vm_compute. repeat split. Qed.

Lemma strip_prefix_differ (r : list string) (x y : string) (s t : list string) :
  x <> y -> strip_prefix (r ++ x :: s) (r ++ y :: t) = None.
Proof.
  intros Hne. induction r as [|c r IH]; cbn.
  - destruct (String.eqb x y) eqn:E; [|reflexivity].
    apply String.eqb_eq in E. contradiction.
  - now rewrite String.eqb_refl.
Qed.

Lemma get_arch_folder_eq (scene : Context) :
  get_arch_folder scene =
  get_project_root scene ++ join_sep (get_project_root scene) ++ "arch".
Proof.
  unfold get_arch_folder, posixpath.join. cbn [fold_left]. now apply join2_relative.
Qed.

Lemma node_of_arch_folder (scene : Context) :
  node_of (get_arch_folder scene) =
  (fst (node_of (get_project_root scene)),
   List.app (snd (node_of (get_project_root scene))) ["arch"]).
Proof.
  unfold get_arch_folder. apply node_of_join; [apply get_project_root_nonempty|].
  repeat constructor. discriminate.
Qed.

Lemma node_of_dest_in_arch (scene : Context) (v : Z) :
  node_of (dest_in_arch_of scene v) =
  (fst (node_of (get_project_root scene)),
   List.app (snd (node_of (get_project_root scene))) ["arch"; "v" ++ Py.format_02d v]).
Proof.
  unfold dest_in_arch_of, get_arch_folder. rewrite <- join_app.
  apply node_of_join; [apply get_project_root_nonempty|].
  destruct (version_name_ok v). repeat constructor; auto; discriminate.
Qed.

Lemma get_arch_folder_nonempty (scene : Context) : get_arch_folder scene <> "".
Proof.
  rewrite get_arch_folder_eq. now apply append_nonempty_r, append_nonempty_r.
Qed.

Lemma dest_in_arch_eq (scene : Context) (v : Z) :
  dest_in_arch_of scene v =
  get_arch_folder scene ++ join_sep (get_arch_folder scene) ++ "v" ++ Py.format_02d v.
Proof.
  unfold dest_in_arch_of, posixpath.join. cbn [fold_left]. now apply join2_relative.
Qed.

(** X9: the archive and the live versions never mix.  The archive root is
    a direct child of the project root and is no version's folder; the
    place version [v] is archived to is a direct child of the archive root,
    is no version's folder and lies under none, and no version's folder
    lies under it or under the archive root; distinct non-negative versions
    are archived to distinct places. *)
Theorem archive_layout (scene : Context) :
  is_direct_child (get_project_root scene) (get_arch_folder scene) = true /\
  (forall m, get_arch_folder scene <> get_version_folder scene m) /\
  (forall v,
      is_direct_child (get_arch_folder scene) (dest_in_arch_of scene v) = true) /\
  (forall v m,
      dest_in_arch_of scene v <> get_version_folder scene m /\
      under (node_of (get_version_folder scene m)) (node_of (dest_in_arch_of scene v)) = false /\
      under (node_of (dest_in_arch_of scene v)) (node_of (get_version_folder scene m)) = false /\
      under (node_of (get_arch_folder scene)) (node_of (get_version_folder scene m)) = false) /\
  (forall v1 v2,
      0 <= v1 -> 0 <= v2 -> v1 <> v2 -> dest_in_arch_of scene v1 <> dest_in_arch_of scene v2).
Proof.
  split.
  { unfold get_arch_folder, posixpath.join. cbn [fold_left].
    apply is_direct_child_join2; [apply get_project_root_nonempty | discriminate | reflexivity]. }
  split.
  { intros m E. rewrite get_arch_folder_eq, get_version_folder_eq in E.
    do 2 apply append_inj_l in E. discriminate E. }
  split.
  { intros v. unfold dest_in_arch_of, posixpath.join. cbn [fold_left].
    destruct (version_name_ok v).
    apply is_direct_child_join2; auto using get_arch_folder_nonempty. }
  split.
  { intros v m. split; [|split; [|split]].
    - intros E. rewrite dest_in_arch_eq, get_arch_folder_eq, get_version_folder_eq in E.
      rewrite !append_assoc in E. do 2 apply append_inj_l in E. discriminate E.
    - unfold under. rewrite node_of_version_folder, node_of_dest_in_arch. cbn [fst snd].
      rewrite strip_prefix_differ; [apply andb_false_r | discriminate].
    - unfold under. rewrite node_of_version_folder, node_of_dest_in_arch. cbn [fst snd].
      rewrite strip_prefix_differ; [apply andb_false_r | discriminate].
    - unfold under. rewrite node_of_version_folder, node_of_arch_folder. cbn [fst snd].
      rewrite strip_prefix_differ; [apply andb_false_r | discriminate]. }
  intros v1 v2 H1 H2 Hne E. apply Hne.
  rewrite !dest_in_arch_eq in E. do 2 apply append_inj_l in E. injection E as E.
  now apply format_02d_inj.
Qed.

Example archive_layout_default :
  get_arch_folder scene_default = "/home/u/prp_New_Asset/arch" /\
  dest_in_arch_of scene_default 7 = "/home/u/prp_New_Asset/arch/v07" /\
  dest_in_arch_of scene_default 123 = "/home/u/prp_New_Asset/arch/v123".
Proof. repeat split. Qed.

(* ====================================================================== *)
(** * Archiving a version *)
(* ====================================================================== *)

Lemma strip_prefix_self (l rest : list string) : strip_prefix l (l ++ rest) = Some rest.
Proof. induction l as [|c l IH]; cbn; [reflexivity | now rewrite String.eqb_refl]. Qed.

Lemma strip_prefix_inv (p l rest : list string) :
  strip_prefix p l = Some rest -> l = (p ++ rest)%list.
Proof.
  revert l. induction p as [|x p IH]; intros l H; cbn in *; [now injection H as ->|].
  destruct l as [|y l]; [discriminate|].
  destruct (String.eqb x y) eqn:E; [|discriminate].
  apply String.eqb_eq in E. subst y. f_equal. now apply IH.
Qed.

Lemma prefixes_from_inv (abs : bool) (done todo : list string) (n : node) :
  In n (prefixes_from abs done todo) ->
  exists p q, todo = (p ++ q)%list /\ p <> [] /\ n = (abs, (done ++ p)%list).
Proof.
  revert done. induction todo as [|c todo IH]; intros done H; cbn in H; [contradiction|].
  destruct H as [<-|H].
  - exists [c], todo. repeat split. discriminate.
  - apply IH in H as (p & q & -> & _ & ->). exists (c :: p), q.
    repeat split; [discriminate|]. now rewrite <- app_assoc.
Qed.

Lemma prefixes_inv (n m : node) :
  In m (prefixes n) -> exists p q, snd n = (p ++ q)%list /\ p <> [] /\ m = (fst n, p).
Proof.
  unfold prefixes. intros H. apply prefixes_from_inv in H as (p & q & E & Hp & ->).
  now exists p, q.
Qed.

(** What a move that goes through does to the file system. *)
Lemma shutil_move_done (env : Env) (src dst : string) (ctx : Context) :
  move_fault env (world ctx) src dst = None ->
  os_path_exists (world ctx) src = true ->
  os_path_exists (world ctx) dst = false ->
  snd (node_of dst) <> [] ->
  under (node_of src) (node_of dst) = false ->
  let f := rebase (node_of src) (node_of dst) in
  shutil_move env src dst ctx =
  (Returns tt,
   mkContext (studio_props ctx)
     (set_fs (add_missing (prefixes (parent (node_of dst))) (map f (fs_dirs (world ctx))))
             (map f (fs_files (world ctx)))
             (log_call (shutil_move_call src dst) (world ctx)))).
Proof.
  intros Hf Hs Hd Hne Hu. cbv zeta.
  unfold os_path_exists in Hd. apply orb_false_iff in Hd as [Hd1 Hd2].
  assert (Hd1' : mem (node_of dst) (fs_dirs (world ctx)) = false)
    by (rewrite <- isdir_mem; assumption).
  unfold shutil_move. cbv zeta. rewrite Hf, Hs. cbn [negb].
  unfold real_dst. rewrite Hd1. unfold isfile in Hd2. rewrite Hd1', Hd2. cbn [orb].
  rewrite (rebase_not_under _ _ _ Hu), node_eqb_refl. reflexivity.
Qed.

Lemma strip_prefix_refl (l : list string) : strip_prefix l l = Some [].
Proof. induction l as [|c l IH]; cbn; [reflexivity | now rewrite String.eqb_refl]. Qed.

Lemma rebase_under (src dst : node) (a : bool) (rest : list string) :
  a = fst src -> rebase src dst (a, (snd src ++ rest)%list) = (fst dst, (snd dst ++ rest)%list).
Proof.
  intros ->. unfold rebase. cbn [fst snd]. now rewrite Bool.eqb_reflx, strip_prefix_self.
Qed.

Lemma app_inv_head_cons (r : list string) (x y : string) (s t : list string) :
  (r ++ x :: s = r ++ y :: t)%list -> x = y.
Proof. intros H. apply app_inv_head in H. now injection H. Qed.

(** After the move nothing is left at the old version's folder. *)
Lemma old_folder_gone (scene : Context) (v : Z) (l : list node) :
  let ns := node_of (get_version_folder scene v) in
  let nd := node_of (dest_in_arch_of scene v) in
  mem ns (add_missing (prefixes (parent nd)) (map (rebase ns nd) l)) = false /\
  mem ns (map (rebase ns nd) l) = false.
Proof.
  cbv zeta.
  set (a := fst (node_of (get_project_root scene))).
  set (R := snd (node_of (get_project_root scene))).
  assert (Ens : node_of (get_version_folder scene v) = (a, List.app R ["v" ++ Py.format_02d v]))
    by apply node_of_version_folder.
  assert (End : node_of (dest_in_arch_of scene v)
                = (a, List.app R ["arch"; "v" ++ Py.format_02d v]))
    by apply node_of_dest_in_arch.
  rewrite Ens, End.
  assert (M : mem (a, List.app R ["v" ++ Py.format_02d v])
                  (map (rebase (a, List.app R ["v" ++ Py.format_02d v])
                               (a, List.app R ["arch"; "v" ++ Py.format_02d v])) l) = false).
  { destruct (mem _ (map _ l)) eqn:E; [|reflexivity]. exfalso.
    apply mem_In, in_map_iff in E as [m [E _]].
    unfold rebase in E. cbn [fst snd] in E.
    destruct (Bool.eqb a (fst m)) eqn:Ea.
    - destruct (strip_prefix (List.app R ["v" ++ Py.format_02d v]) (snd m)) as [rest|] eqn:Es.
      + injection E as E. rewrite <- app_assoc in E. cbn in E.
        apply app_inv_head_cons in E. discriminate E.
      + subst m. cbn [snd] in Es. rewrite strip_prefix_refl in Es. discriminate Es.
    - subst m. cbn [fst] in Ea. rewrite Bool.eqb_reflx in Ea. discriminate Ea. }
  split; [|exact M].
  destruct (mem _ (add_missing _ _)) eqn:E; [|reflexivity]. exfalso.
  apply mem_add_missing_inv in E as [E|E]; [congruence|].
  apply prefixes_inv in E as (p & q & Hpq & _ & Hn). unfold parent in Hpq. cbn [fst snd] in *.
  injection Hn as Hn. subst p.
  replace (List.app R ["arch"; "v" ++ Py.format_02d v])
    with (List.app (List.app R ["arch"]) ["v" ++ Py.format_02d v]) in Hpq
    by now rewrite <- app_assoc.
  rewrite removelast_last, <- app_assoc in Hpq. cbn in Hpq.
  apply app_inv_head_cons in Hpq. discriminate Hpq.
Qed.



(* ====================================================================== *)
(** * The panel and the dialogs *)
(* ====================================================================== *)

Lemma panel_operators (ctx : Context) :
  flat_map operators_in (STUDIO_PT_asset_management_draw ctx) =
  if is_generated (studio_props ctx)
  then [bl_idname finalize; bl_idname (archive_iterate true)]
  else [bl_idname startup_dialog].
Proof.
  unfold STUDIO_PT_asset_management_draw. cbv zeta.
  now destruct (is_generated (studio_props ctx)).
Qed.

(** X11: the panel unlocks the workflow with the flag.  On a project that
    is not set up it offers the setup dialog and nothing else; running an
    operator makes it offer Publish Final and Version Up instead exactly
    when that operator is the Initializer, directly or through the dialog,
    and it returned FINISHED.  Once they are offered they stay offered over
    every sequence of operators, and the setup dialog is not offered
    again.  Neither the panel nor the two dialogs lets the user edit the
    version or the flag. *)
Theorem panel_unlocks_with_the_flag (env : Env) (ctx : Context) :
  (is_generated (studio_props ctx) = false ->
   flat_map operators_in (STUDIO_PT_asset_management_draw ctx) = ["studio.startup_dialog"] /\
   forall op,
     flat_map operators_in (STUDIO_PT_asset_management_draw (snd (execute env op ctx))) =
       ["studio.finalize"; "studio.archive_iterate"] <->
     ((op = create_structure \/ op = startup_dialog) /\
      fst (execute env op ctx) = Returns FINISHED)) /\
  (is_generated (studio_props ctx) = true ->
   forall ops,
     flat_map operators_in (STUDIO_PT_asset_management_draw (run_all env ops ctx)) =
       ["studio.finalize"; "studio.archive_iterate"]) /\
  (forall o p,
      In (o, p) (flat_map props_in (STUDIO_PT_asset_management_draw ctx ++
                                    STUDIO_OT_startup_dialog_draw ctx ++
                                    STUDIO_OT_archive_and_iterate_draw ctx)) ->
      p <> "version" /\ p <> "is_generated").
Proof.
  split; [|split].
  - intros Hg. split; [rewrite panel_operators, Hg; reflexivity|].
    intros op. rewrite panel_operators, <- (execute_raises_flag env op ctx Hg).
    destruct (is_generated (studio_props (snd (execute env op ctx)))); cbn;
      split; auto; discriminate.
  - intros Hg ops. now rewrite panel_operators, (run_all_flag_stays env ops ctx Hg).
  - intros o p. rewrite !flat_map_app.
    unfold STUDIO_PT_asset_management_draw. cbv zeta.
    destruct (is_generated (studio_props ctx)); cbn;
      intros H; repeat (destruct H as [H|H]; [injection H as <- <-; split; discriminate|]);
      contradiction.
Qed.

Lemma panel_unlocks_with_the_flag_witness :
  is_generated (studio_props fresh_project) = false /\
  flat_map operators_in (STUDIO_PT_asset_management_draw fresh_project)
    = ["studio.startup_dialog"] /\
  flat_map operators_in (STUDIO_PT_asset_management_draw initialized_project)
    = ["studio.finalize"; "studio.archive_iterate"] /\
  flat_map labels_in (STUDIO_PT_asset_management_draw initialized_project)
    = ["My Asset"; "v01"; "Current State: WIP"; "Folder: .../projects/"].
Proof.
  assert (Hg : is_generated (studio_props fresh_project) = false) by reflexivity.
  split; [exact Hg|].
  destruct (panel_unlocks_with_the_flag no_faults fresh_project) as [A _].
  destruct (A Hg) as [A1 A2].
  split; [exact A1|]. split.
  - apply (A2 create_structure). split; [now left | vm_compute; reflexivity].
  - vm_compute. reflexivity.
Defined.

(** ** [os.path.dirname] and [os.path.basename] on joined paths *)

Lemma list_ascii_of_append (a b : string) :
  list_ascii_of_string (a ++ b) = (list_ascii_of_string a ++ list_ascii_of_string b)%list.
Proof. induction a as [|c a IH]; simpl; [reflexivity | now rewrite IH]. Qed.

Lemma no_sep_chars (s : string) :
  has_sep s = false ->
  forall c, In c (rev (list_ascii_of_string s)) -> negb (Ascii.eqb c posixpath.sep) = true.
Proof.
  intros H c Hc. apply in_rev in Hc. induction s as [|x s IH]; simpl in *; [contradiction|].
  apply orb_false_iff in H as [Hx Hs]. destruct Hc as [<-|Hc]; [now rewrite Hx | auto].
Qed.

Lemma drop_while_all (f : ascii -> bool) (l1 l2 : list ascii) :
  (forall c, In c l1 -> f c = true) ->
  posixpath.drop_while f (l1 ++ l2) = posixpath.drop_while f l2.
Proof.
  induction l1 as [|x l1 IH]; intros H; simpl; [reflexivity|].
  rewrite (H x (or_introl eq_refl)). apply IH. intros c Hc. apply H. now right.
Qed.

Lemma take_while_all (f : ascii -> bool) (l1 l2 : list ascii) (x : ascii) :
  (forall c, In c l1 -> f c = true) -> f x = false ->
  take_while f (l1 ++ x :: l2) = l1.
Proof.
  induction l1 as [|y l1 IH]; intros H Hx; simpl; [now rewrite Hx|].
  rewrite (H y (or_introl eq_refl)). f_equal. apply IH; [|exact Hx].
  intros c Hc. apply H. now right.
Qed.

Lemma last_char_rev (d : string) (c : ascii) :
  Py.last_char d = Some c -> exists l, rev (list_ascii_of_string d) = c :: l.
Proof.
  induction d as [|x d IH]; simpl; [discriminate|].
  destruct d as [|y d].
  - intros [= ->]. now exists [].
  - intros H. destruct (IH H) as [l E]. exists (l ++ [x])%list.
    change (list_ascii_of_string (String y d)) with (y :: list_ascii_of_string d) in *.
    now rewrite E.
Qed.

Lemma last_char_append (a b : string) :
  b <> "" -> Py.last_char (a ++ b) = Py.last_char b.
Proof.
  intros Hb. induction a as [|x a IH]; simpl; [reflexivity|].
  rewrite IH. destruct (a ++ b) eqn:E; [|reflexivity].
  destruct a; simpl in E; [contradiction | discriminate].
Qed.

(** The directory of [d/f] is [d], when [f] is a single name and [d] does
    not end with a separator. *)
Lemma dirname_join (d f : string) (c : ascii) :
  has_sep f = false -> Py.last_char d = Some c -> Ascii.eqb c posixpath.sep = false ->
  posixpath.dirname (d ++ "/" ++ f) = d.
Proof.
  intros Hf Hd Hc. unfold posixpath.dirname. cbv zeta.
  rewrite !list_ascii_of_append, !rev_app_distr, <- app_assoc.
  rewrite (drop_while_all _ _ _ (no_sep_chars f Hf)).
  destruct (last_char_rev d c Hd) as [l E]. rewrite E.
  change (rev (list_ascii_of_string "/")) with ["/"%char].
  cbn [app posixpath.drop_while]. rewrite Ascii.eqb_refl. cbn [negb posixpath.drop_while].
  unfold posixpath.sep in *. rewrite Ascii.eqb_refl. cbn [posixpath.drop_while]. rewrite Hc.
  rewrite <- E, rev_involutive. apply string_of_list_ascii_of_string.
Qed.

(** The last component of [x/name] is [name]. *)
Lemma basename_join (x name : string) :
  has_sep name = false -> os_path_basename (x ++ "/" ++ name) = name.
Proof.
  intros Hn. unfold os_path_basename.
  rewrite !list_ascii_of_append, !rev_app_distr, <- app_assoc.
  change (rev (list_ascii_of_string "/")) with ["/"%char]. cbn [app].
  rewrite take_while_all.
  - rewrite rev_involutive. apply string_of_list_ascii_of_string.
  - apply (no_sep_chars name Hn).
  - unfold posixpath.sep. now rewrite Ascii.eqb_refl.
Qed.

(** A path without a separator has no directory part. *)
Lemma dirname_no_sep (p : string) : has_sep p = false -> posixpath.dirname p = "".
Proof.
  intros Hp. unfold posixpath.dirname. cbv zeta.
  rewrite <- (app_nil_r (rev (list_ascii_of_string p))).
  rewrite (drop_while_all _ _ _ (no_sep_chars p Hp)). reflexivity.
Qed.

Lemma join_sep_after (a b : string) (c : ascii) :
  Py.last_char b = Some c -> Ascii.eqb c posixpath.sep = false ->
  join_sep (a ++ b) = "/".
Proof.
  intros Hb Hc. unfold join_sep, Py.endswith.
  assert (Hne : b <> "") by (intros ->; discriminate Hb).
  rewrite (last_char_append _ _ Hne), Hb, Hc.
  destruct (a ++ b) eqn:E; [|reflexivity].
  destruct a; simpl in E; [contradiction | discriminate].
Qed.

(** The working-projects folder ends in [/projects], and the wip file is
    that folder, a separator and the file name. *)
Lemma wip_dir_shape (scene : Context) (v : Z) :
  exists x, wip_dir_of scene v = x ++ "/" ++ "projects" /\
            wip_path_of scene v = wip_dir_of scene v ++ "/" ++ get_blend_filename scene v "wip".
Proof.
  unfold wip_path_of, wip_dir_of, posixpath.join. cbn [fold_left].
  set (vf := get_version_folder scene v).
  rewrite (join2_relative vf "wip" eq_refl).
  set (X := vf ++ join_sep vf ++ "wip").
  assert (HX : join_sep X = "/").
  { subst X. rewrite <- append_assoc. now apply (join_sep_after _ "wip" "p"). }
  rewrite (join2_relative X "projects" eq_refl), HX.
  exists X. split; [reflexivity|].
  rewrite (join2_relative _ _ (get_blend_filename_relative scene v "wip")).
  now rewrite <- !append_assoc, (join_sep_after _ "projects" "s").
Qed.

Lemma footer_at_wip_path (c scene : Context) (v : Z) :
  has_sep (asset_name (studio_props scene)) = false ->
  data_filepath (world c) = wip_path_of scene v ->
  footer_folder_name c = "projects".
Proof.
  intros Hs Hp. unfold footer_folder_name. cbv zeta. rewrite Hp.
  destruct (wip_dir_shape scene v) as [x [Ed Ep]]. rewrite Ep.
  assert (Hf : has_sep (get_blend_filename scene v "wip") = false)
    by (rewrite has_sep_blend_filename, Hs; reflexivity).
  rewrite (dirname_join _ _ "s" Hf); [| |reflexivity].
  - rewrite Ed. rewrite (basename_join x "projects" eq_refl).
    destruct x; reflexivity.
  - rewrite Ed, <- append_assoc. now apply last_char_append.
Qed.

(** ** The absolute form under which the host records a path *)

Lemma string_app_nil_r (s : string) : s ++ "" = s.
Proof. induction s as [|c s IH]; cbn; [reflexivity | now rewrite IH]. Qed.

Lemma absolute_of_app (l m : list string) :
  absolute_of (l ++ m) = absolute_of l ++ absolute_of m.
Proof.
  induction l as [|c l IH]; cbn [app absolute_of]; [reflexivity|].
  rewrite IH. cbn. now rewrite append_assoc.
Qed.

Lemma normpath_step_simple (acc : list string) (c : string) :
  is_simple c = true -> normpath_step acc c = (acc ++ [c])%list.
Proof.
  unfold is_simple, normpath_step.
  destruct (String.eqb c ""), (String.eqb c "."), (String.eqb c ".."); cbn;
    intros H; try discriminate H; reflexivity.
Qed.

(** Normalisation keeps a last component that is a plain name. *)
Lemma normalized_snoc (A c : string) :
  has_sep c = false -> is_simple c = true ->
  fold_left normpath_step (split_sep (A ++ "/" ++ c)) [] =
  (fold_left normpath_step (split_sep A) [] ++ [c])%list.
Proof.
  intros Hs Hc. change (A ++ "/" ++ c) with (A ++ String "/" c).
  rewrite split_sep_append, fold_left_app, (split_sep_no_sep c Hs). cbn [fold_left].
  now apply normpath_step_simple.
Qed.

(** [os.path.join(cwd, p)] is [p] behind what it takes from [cwd]. *)
Lemma join2_prefix (cwd p : string) : exists pre, posixpath.join2 cwd p = pre ++ p.
Proof.
  unfold posixpath.join2. destruct (Py.startswith "/" p); [now exists ""|].
  destruct (String.eqb cwd "" || Py.endswith posixpath.sep cwd)%bool.
  - now exists cwd.
  - exists (cwd ++ "/"). now rewrite append_assoc.
Qed.

(** The absolute form of a path that ends in two plain names ends in the
    same two names. *)
Lemma host_abspath_two_last (cwd A b c : string) :
  has_sep b = false -> is_simple b = true -> has_sep c = false -> is_simple c = true ->
  exists Y, host_abspath cwd (A ++ "/" ++ b ++ "/" ++ c) = Y ++ "/" ++ b ++ "/" ++ c.
Proof.
  intros Hb Sb Hc Sc. unfold host_abspath.
  destruct (join2_prefix cwd (A ++ "/" ++ b ++ "/" ++ c)) as [pre ->].
  replace (pre ++ A ++ "/" ++ b ++ "/" ++ c) with (((pre ++ A) ++ "/" ++ b) ++ "/" ++ c)
    by (now rewrite !append_assoc).
  rewrite (normalized_snoc _ c Hc Sc), (normalized_snoc _ b Hb Sb).
  set (L := fold_left normpath_step (split_sep (pre ++ A)) []).
  exists (absolute_of L).
  destruct ((L ++ [b]) ++ [c])%list as [|s l0] eqn:E.
  { apply app_eq_nil in E as [_ E]. discriminate E. }
  rewrite <- E, !absolute_of_app. cbn [absolute_of].
  now rewrite !string_app_nil_r, !append_assoc.
Qed.

(** A path the host records as given: so are the plain names inside it. *)
Lemma host_abspath_fixed_child (cwd A c : string) :
  host_abspath cwd A = A -> A <> "/" ->
  has_sep c = false -> is_simple c = true ->
  host_abspath cwd (A ++ "/" ++ c) = A ++ "/" ++ c /\ A ++ "/" ++ c <> "/".
Proof.
  intros HA Hne Hc Sc.
  assert (Habs : Py.startswith "/" A = true).
  { unfold host_abspath in HA.
    destruct (fold_left normpath_step (split_sep (posixpath.join2 cwd A)) []);
      rewrite <- HA; reflexivity. }
  assert (HA0 : A <> "") by (intros ->; discriminate Habs).
  assert (J : posixpath.join2 cwd A = A) by (unfold posixpath.join2; now rewrite Habs).
  assert (J' : posixpath.join2 cwd (A ++ "/" ++ c) = A ++ "/" ++ c).
  { unfold posixpath.join2. now rewrite (startswith_sep_append A _ HA0), Habs. }
  split.
  - unfold host_abspath in *. rewrite J in HA. rewrite J', (normalized_snoc A c Hc Sc).
    destruct (fold_left normpath_step (split_sep A) []) as [|x l];
      [now elim Hne|].
    cbn [app]. change (x :: (l ++ [c])%list) with ((x :: l) ++ [c])%list.
    rewrite absolute_of_app, HA. cbn [absolute_of]. now rewrite string_app_nil_r.
  - destruct A as [|a A]; [now elim HA0|]. cbn. intros E. injection E as _ E.
    now apply (append_nonempty_r A ("/" ++ c)) in E.
Qed.

Lemma last_char_no_sep (s : string) :
  s <> "" -> has_sep s = false ->
  exists c, Py.last_char s = Some c /\ Ascii.eqb c posixpath.sep = false.
Proof.
  induction s as [|x s IH]; [congruence|]. intros _ H. cbn [has_sep] in H.
  apply orb_false_iff in H as [Hx Hs]. cbn [Py.last_char]. destruct s as [|y s].
  - exists x. now split.
  - apply IH; [discriminate | exact Hs].
Qed.

(** After a path that ends in a plain name [os.path.join] puts a separator. *)
Lemma join_sep_plain (a b : string) :
  b <> "" -> has_sep b = false -> join_sep (a ++ b) = "/".
Proof.
  intros Hne Hs. destruct (last_char_no_sep b Hne Hs) as (c & Hc & Hsep).
  now apply (join_sep_after a b c).
Qed.

Lemma is_simple_version_name (v : Z) : is_simple ("v" ++ Py.format_02d v) = true.
Proof. reflexivity. Qed.

Lemma is_simple_blend_filename (scene : Context) (v : Z) (state : string) :
  is_simple (get_blend_filename scene v state) = true.
Proof. unfold get_blend_filename. now destruct (asset_type (studio_props scene)). Qed.

(** The wip path, component by component, for an asset name that is a
    plain name. *)
Lemma wip_path_explicit (scene : Context) (v : Z) :
  has_sep (asset_name (studio_props scene)) = false ->
  wip_path_of scene v =
  (((get_project_root scene ++ "/" ++ ("v" ++ Py.format_02d v)) ++ "/" ++ "wip")
     ++ "/" ++ "projects") ++ "/" ++ get_blend_filename scene v "wip".
Proof.
  intros Hs. unfold wip_path_of, wip_dir_of, posixpath.join. cbn [fold_left].
  rewrite get_version_folder_eq.
  assert (Jr : join_sep (get_project_root scene) = "/").
  { unfold get_project_root, posixpath.join. cbn [fold_left].
    rewrite (join2_relative _ _ (folder_name_relative _)), <- append_assoc.
    apply join_sep_plain; [apply folder_name_nonempty|].
    now rewrite has_sep_folder_name. }
  rewrite Jr.
  set (vf := get_project_root scene ++ "/" ++ "v" ++ Py.format_02d v).
  assert (Jv : join_sep vf = "/").
  { subst vf. rewrite <- append_assoc. apply join_sep_plain; apply version_name_ok. }
  rewrite (join2_relative vf "wip" eq_refl), Jv.
  assert (Jw : join_sep (vf ++ "/" ++ "wip") = "/")
    by (rewrite <- append_assoc; now apply join_sep_plain).
  rewrite (join2_relative _ "projects" eq_refl), Jw.
  assert (Jp : join_sep ((vf ++ "/" ++ "wip") ++ "/" ++ "projects") = "/")
    by (rewrite <- append_assoc; now apply join_sep_plain).
  now rewrite (join2_relative _ _ (get_blend_filename_relative scene v "wip")), Jp.
Qed.

(** A project root that the host records as given, with an asset name
    that is a plain name: every wip path is recorded as given. *)
Lemma host_abspath_wip_path (cwd : string) (scene : Context) (v : Z) :
  host_abspath cwd (get_project_root scene) = get_project_root scene ->
  has_sep (asset_name (studio_props scene)) = false ->
  host_abspath cwd (wip_path_of scene v) = wip_path_of scene v.
Proof.
  intros Hr Hs. rewrite (wip_path_explicit scene v Hs).
  assert (Hne : get_project_root scene <> "/").
  { unfold get_project_root, posixpath.join. cbn [fold_left].
    rewrite (join2_relative _ _ (folder_name_relative _)), <- append_assoc.
    intros E. apply (f_equal String.length) in E. rewrite length_append in E.
    unfold folder_name in E. rewrite length_append in E.
    destruct (asset_type (studio_props scene)); cbn in E; lia. }
  destruct (host_abspath_fixed_child cwd _ ("v" ++ Py.format_02d v) Hr Hne
              (proj2 (version_name_ok v)) (is_simple_version_name v)) as [H1 N1].
  destruct (host_abspath_fixed_child cwd _ "wip" H1 N1 eq_refl eq_refl) as [H2 N2].
  destruct (host_abspath_fixed_child cwd _ "projects" H2 N2 eq_refl eq_refl) as [H3 N3].
  apply (host_abspath_fixed_child cwd _ _ H3 N3).
  - rewrite has_sep_blend_filename, Hs. reflexivity.
  - apply is_simple_blend_filename.
Qed.

(** Wherever the host records the wip file, its folder is "projects". *)
Lemma footer_at_host_path (cwd : string) (c scene : Context) (v : Z) :
  has_sep (asset_name (studio_props scene)) = false ->
  data_filepath (world c) = host_abspath cwd (wip_path_of scene v) ->
  footer_folder_name c = "projects".
Proof.
  intros Hs Hp. unfold footer_folder_name. cbv zeta. rewrite Hp.
  destruct (wip_dir_shape scene v) as [x [Ed Ep]]. rewrite Ep, Ed.
  assert (Hf : has_sep (get_blend_filename scene v "wip") = false)
    by (rewrite has_sep_blend_filename, Hs; reflexivity).
  replace ((x ++ "/" ++ "projects") ++ "/" ++ get_blend_filename scene v "wip")
    with (x ++ "/" ++ "projects" ++ "/" ++ get_blend_filename scene v "wip")
    by (now rewrite !append_assoc).
  destruct (host_abspath_two_last cwd x "projects" (get_blend_filename scene v "wip")
              eq_refl eq_refl Hf (is_simple_blend_filename scene v "wip")) as [Y ->].
  replace (Y ++ "/" ++ "projects" ++ "/" ++ get_blend_filename scene v "wip")
    with ((Y ++ "/" ++ "projects") ++ "/" ++ get_blend_filename scene v "wip")
    by (now rewrite !append_assoc).
  rewrite (dirname_join _ _ "s" Hf); [| |reflexivity].
  - rewrite (basename_join Y "projects" eq_refl).
    destruct Y; reflexivity.
  - rewrite <- append_assoc. now apply last_char_append.
Qed.

(** X12: the folder the panel's footer names.  While the open document has
    no directory part -- an unsaved document, or a bare file name -- the
    footer says "Unsaved".  When the asset name has no separator, the
    footer says "projects" whenever the document is the wip file of the
    current version, and so after every run of the Initializer, the setup
    dialog or Version Up that returns FINISHED, whatever the version. *)
Theorem panel_footer (env : Env) (ctx : Context) :
  (has_sep (data_filepath (world ctx)) = false -> footer_folder_name ctx = "Unsaved") /\
  (has_sep (asset_name (studio_props ctx)) = false ->
   (at_current_wip ctx -> footer_folder_name ctx = "projects") /\
   (forall op,
       op <> finalize -> fst (execute env op ctx) = Returns FINISHED ->
       footer_folder_name (snd (execute env op ctx)) = "projects")).
Proof.
  split.
  - intros H. unfold footer_folder_name. cbv zeta. now rewrite (dirname_no_sep _ H).
  - intros Hs. split.
    + intros Hat. now apply (footer_at_wip_path ctx ctx (version (studio_props ctx))).
    + intros op Hop Hr. destruct op as [|wipe_scene| |]; cbn [execute] in *.
      * apply (footer_at_host_path (cwd env) _ ctx (version (studio_props ctx)) Hs).
        now destruct (create_structure_finished env ctx Hr) as (_ & E & _).
      * apply (footer_at_host_path (cwd env) _ ctx (version (studio_props ctx) + 1) Hs).
        pose proof (archive_iterate_filepath env wipe_scene ctx) as F. cbv zeta in F.
        now rewrite Hr in F.
      * now elim Hop.
      * rewrite startup_dialog_snd. apply startup_dialog_finished in Hr.
        apply (footer_at_host_path (cwd env) _ ctx (version (studio_props ctx)) Hs).
        now destruct (create_structure_finished env ctx Hr) as (_ & E & _).
Qed.

Lemma panel_footer_witness :
  (has_sep (data_filepath (world fresh_project)) = false /\
   has_sep (asset_name (studio_props fresh_project)) = false) /\
  footer_folder_name fresh_project = "Unsaved" /\
  footer_folder_name (snd (execute no_faults create_structure fresh_project)) = "projects" /\
  footer_folder_name (snd (execute no_faults (archive_iterate false) fresh_project))
    = "projects".
Proof.
  assert (H1 : has_sep (data_filepath (world fresh_project)) = false) by reflexivity.
  assert (H2 : has_sep (asset_name (studio_props fresh_project)) = false) by reflexivity.
  split; [split; [exact H1 | exact H2]|].
  destruct (panel_footer no_faults fresh_project) as [A B].
  split; [exact (A H1)|]. destruct (B H2) as [_ B2].
  split; apply B2; try discriminate; vm_compute; reflexivity.
Defined.

(** ** Registration *)

Lemma for_each_register (cs : list RegClass) (b : Bpy) :
  NoDup cs -> (forall c, In c cs -> ~ In c (registered b)) ->
  for_each register_class cs b =
    (None, mkBpy (registered b ++ cs) (Scene_studio_props b) (load_post b) (timers b)).
Proof.
  revert b. induction cs as [|c cs IH]; intros b Hnd Hfresh; cbn [for_each].
  - rewrite app_nil_r. now destruct b.
  - unfold register_class at 1.
    destruct (in_dec RegClass_eq_dec c (registered b)) as [i|_];
      [now elim (Hfresh c (or_introl eq_refl))|].
    inversion Hnd as [|? ? Hc Hnd']; subst.
    rewrite IH; cbn [registered Scene_studio_props load_post timers].
    + now rewrite <- app_assoc.
    + exact Hnd'.
    + intros c' Hc' Hin. apply in_app_or in Hin as [Hin|[<-|[]]].
      * exact (Hfresh c' (or_intror Hc') Hin).
      * exact (Hc Hc').
Qed.

Lemma for_each_unregister (cs l : list RegClass) (s : bool) (lp : list Handler)
      (t : list Timer) :
  NoDup cs -> (forall c, In c cs -> ~ In c l) ->
  for_each unregister_class cs (mkBpy (l ++ cs) s lp t) = (None, mkBpy l s lp t).
Proof.
  induction cs as [|c cs IH]; intros Hnd Hfresh; cbn [for_each].
  - now rewrite app_nil_r.
  - unfold unregister_class at 1. cbn [registered Scene_studio_props load_post timers].
    destruct (in_dec RegClass_eq_dec c (l ++ c :: cs)) as [_|n];
      [|elim n; apply in_or_app; right; now left].
    inversion Hnd as [|? ? Hc Hnd']; subst.
    rewrite remove_app, remove_cons.
    rewrite (notin_remove RegClass_eq_dec l c (Hfresh c (or_introl eq_refl))).
    rewrite (notin_remove RegClass_eq_dec cs c Hc).
    apply IH; [exact Hnd'|]. intros c' Hc'. apply Hfresh. now right.
Qed.

Lemma list_remove_first_last (h : Handler) (l : list Handler) :
  ~ In h l -> list_remove_first h (l ++ [h]) = l.
Proof.
  induction l as [|y l IH]; intros Hn; cbn [app list_remove_first].
  - now destruct (Handler_eq_dec h h).
  - destruct (Handler_eq_dec h y) as [->|_]; [elim Hn; now left|].
    f_equal. apply IH. intros Hin. apply Hn. now right.
Qed.

Lemma classes_NoDup : NoDup classes.
Proof. unfold classes. repeat constructor; simpl; intuition discriminate. Qed.

Lemma register_clean (b : Bpy) :
  clean b ->
  register b = (None, mkBpy (registered b ++ classes) true
                            (load_post b ++ [the_workbench_load_handler]) (timers b)).
Proof.
  intros (Hc & _ & Hh). unfold register.
  rewrite (for_each_register classes b classes_NoDup Hc). cbv zeta.
  cbn [registered Scene_studio_props load_post timers]. unfold handler_in.
  now destruct (in_dec Handler_eq_dec the_workbench_load_handler (load_post b)).
Qed.

Lemma unregister_registered (l : list RegClass) (lp : list Handler) (t : list Timer) :
  (forall c, In c classes -> ~ In c l) -> ~ In the_workbench_load_handler lp ->
  unregister (mkBpy (l ++ classes) true (lp ++ [the_workbench_load_handler]) t) =
    (None, mkBpy l false lp t).
Proof.
  intros Hc Hh. unfold unregister. cbn [registered Scene_studio_props load_post timers].
  unfold handler_in.
  destruct (in_dec Handler_eq_dec the_workbench_load_handler
                   (lp ++ [the_workbench_load_handler])) as [_|n];
    [|elim n; apply in_or_app; right; now left].
  cbv zeta. cbn [registered Scene_studio_props load_post timers].
  rewrite (list_remove_first_last _ lp Hh).
  now apply for_each_unregister; [apply classes_NoDup|].
Qed.

(** X13: registering and unregistering undo each other.  On registries that
    hold nothing of the add-on, [register] returns normally having added
    the six classes in order, defined [Scene.studio_props] and appended
    the load handler after the handlers of others; [unregister] then gives
    back exactly the registries there were before.  Neither can be
    repeated: a second [register] raises [ValueError] at the first class
    and changes nothing, and a second [unregister] raises
    [AttributeError] at the [del] and changes nothing. *)
Theorem registration_round_trip (b : Bpy) :
  clean b ->
  register b = (None, mkBpy (registered b ++ classes) true
                            (load_post b ++ [the_workbench_load_handler]) (timers b)) /\
  unregister (snd (register b)) = (None, b) /\
  (exists msg, register (snd (register b)) = (Some (ValueError msg), snd (register b))) /\
  (exists msg, unregister (snd (unregister (snd (register b)))) =
                 (Some (AttributeError msg), b)).
Proof.
  intros Hclean. pose proof (register_clean b Hclean) as Hreg.
  destruct Hclean as (Hc & Hs & Hh). rewrite Hreg. cbn [snd].
  assert (Hun : unregister (mkBpy (registered b ++ classes) true
                   (load_post b ++ [the_workbench_load_handler]) (timers b)) = (None, b)).
  { rewrite (unregister_registered _ _ _ Hc Hh). destruct b; cbn in *; now subst. }
  repeat split.
  - exact Hun.
  - eexists. unfold register, classes. cbn [for_each]. unfold register_class at 1.
    cbn [registered]. 
    destruct (in_dec RegClass_eq_dec cls_StudioProjectProps _) as [_|n]; [reflexivity|].
    elim n. apply in_or_app. right. now left.
  - eexists. rewrite Hun. cbn [snd]. unfold unregister, handler_in.
    destruct (in_dec Handler_eq_dec the_workbench_load_handler (load_post b)) as [i|_];
      [now elim Hh|].
    cbv zeta. now rewrite Hs.
Qed.

Lemma sample_bpy_clean : clean sample_bpy.
Proof.
  unfold clean, sample_bpy; cbn. repeat split; auto.
  intros [E|[]]; discriminate E.
Qed.

Lemma registration_round_trip_witness :
  clean sample_bpy /\
  load_post (snd (register sample_bpy)) =
    [other_handler "autosave"; the_workbench_load_handler] /\
  unregister (snd (register sample_bpy)) = (None, sample_bpy).
Proof.
  split; [exact sample_bpy_clean|].
  destruct (registration_round_trip sample_bpy sample_bpy_clean) as (R & U & _).
  split; [rewrite R; reflexivity | exact U].
Defined.

Lemma for_each_keeps (f : RegClass -> Reg) (cs : list RegClass) (b : Bpy) :
  (forall c b0, Scene_studio_props (snd (f c b0)) = Scene_studio_props b0 /\
                load_post (snd (f c b0)) = load_post b0 /\
                timers (snd (f c b0)) = timers b0) ->
  Scene_studio_props (snd (for_each f cs b)) = Scene_studio_props b /\
  load_post (snd (for_each f cs b)) = load_post b /\
  timers (snd (for_each f cs b)) = timers b.
Proof.
  intros Hf. revert b. induction cs as [|c cs IH]; intros b; cbn [for_each]; [auto|].
  pose proof (Hf c b) as H. destruct (f c b) as [[e|] b']; cbn [snd] in *; [exact H|].
  destruct (IH b') as (A & B & C). destruct H as (A' & B' & C').
  repeat split; congruence.
Qed.

Lemma register_class_keeps (c : RegClass) (b : Bpy) :
  Scene_studio_props (snd (register_class c b)) = Scene_studio_props b /\
  load_post (snd (register_class c b)) = load_post b /\
  timers (snd (register_class c b)) = timers b.
Proof.
  unfold register_class. now destruct (in_dec RegClass_eq_dec c (registered b)).
Qed.

Lemma unregister_class_keeps (c : RegClass) (b : Bpy) :
  Scene_studio_props (snd (unregister_class c b)) = Scene_studio_props b /\
  load_post (snd (unregister_class c b)) = load_post b /\
  timers (snd (unregister_class c b)) = timers b.
Proof.
  unfold unregister_class. now destruct (in_dec RegClass_eq_dec c (registered b)).
Qed.

Lemma count_occ_remove_first (h x : Handler) (l : list Handler) :
  x <> h -> count_occ Handler_eq_dec (list_remove_first h l) x = count_occ Handler_eq_dec l x.
Proof.
  intros Hx. induction l as [|y l IH]; cbn [list_remove_first]; [reflexivity|].
  destruct (Handler_eq_dec h y) as [<-|_].
  - now rewrite count_occ_cons_neq by congruence.
  - cbn [count_occ]. destruct (Handler_eq_dec y x); now rewrite IH.
Qed.

(** X14: the load handler and the handlers of others.  Whatever the
    registries, and whether or not it raises, [register] leaves the
    handlers of others as they were, each as often and in the same order
    before the add-on's own, and never lists [workbench_load_handler] a
    second time; when it returns normally the handler is listed.
    [unregister], whether or not it raises, takes at most the add-on's
    handler out, and leaves [Scene.studio_props] undefined.  Run by the
    host, the handler changes neither classes nor handlers: it schedules
    the setup dialog, once and 0.1 s later, exactly when the property is
    defined, there is a scene and the scene's [is_generated] is false;
    so after a [register] that returned it prompts for every scene that
    is not set up, and after [unregister] for none. *)
Theorem load_handler_prompts (b : Bpy) (scene : option Context) :
  (* register *)
  ((exists l, load_post (snd (register b)) = (load_post b ++ l)%list /\
      (l = [] \/ l = [the_workbench_load_handler] /\
                 ~ In the_workbench_load_handler (load_post b))) /\
   (fst (register b) = None ->
      In the_workbench_load_handler (load_post (snd (register b))) /\
      Scene_studio_props (snd (register b)) = true)) /\
  (* unregister *)
  ((forall h, h <> the_workbench_load_handler ->
      count_occ Handler_eq_dec (load_post (snd (unregister b))) h =
      count_occ Handler_eq_dec (load_post b) h) /\
   Scene_studio_props (snd (unregister b)) = false) /\
  (* the handler *)
  (let b' := workbench_load_handler scene b in
   registered b' = registered b /\ load_post b' = load_post b /\
   Scene_studio_props b' = Scene_studio_props b /\
   (exists new, timers b' = (timers b ++ new)%list /\
      (new = [] \/ new = [mkTimer invoke_startup_dialog "0.1"]) /\
      (new <> [] <->
       Scene_studio_props b = true /\
       exists c, scene = Some c /\ is_generated (studio_props c) = false))) /\
  workbench_load_handler scene (snd (unregister b)) = snd (unregister b).
Proof.
  assert (Hun : Scene_studio_props (snd (unregister b)) = false).
  { unfold unregister. cbv zeta.
    set (b1 := if handler_in _ _ then _ else b).
    destruct (Scene_studio_props b1) eqn:E; [|exact E].
    now destruct (for_each_keeps unregister_class classes
                    (mkBpy (registered b1) false (load_post b1) (timers b1))
                    unregister_class_keeps) as (-> & _). }
  split; [split|split; [split|split]].
  - unfold register.
    destruct (for_each_keeps register_class classes b register_class_keeps) as (_ & L & _).
    destruct (for_each register_class classes b) as [[e|] b1]; cbn [snd] in *.
    + exists []. rewrite app_nil_r. auto.
    + cbv zeta. cbn [load_post]. unfold handler_in.
      destruct (in_dec Handler_eq_dec the_workbench_load_handler (load_post b1)) as [i|n];
        cbn [negb snd load_post].
      * exists []. rewrite app_nil_r. auto.
      * exists [the_workbench_load_handler]. rewrite L in *. auto.
  - unfold register.
    destruct (for_each register_class classes b) as [[e|] b1]; cbn [fst snd];
      [discriminate|]. intros _. cbv zeta. cbn [load_post]. unfold handler_in.
    destruct (in_dec Handler_eq_dec the_workbench_load_handler (load_post b1)) as [i|n];
      cbn [negb snd load_post Scene_studio_props]; split; auto.
    apply in_or_app. right. now left.
  - intros h Hh. unfold unregister. cbv zeta.
    set (b1 := if handler_in _ _ then _ else b).
    assert (H1 : count_occ Handler_eq_dec (load_post b1) h =
                 count_occ Handler_eq_dec (load_post b) h).
    { subst b1. destruct (handler_in the_workbench_load_handler (load_post b));
        [|reflexivity]. cbn [load_post]. now apply count_occ_remove_first. }
    destruct (Scene_studio_props b1); cbn [snd]; [|exact H1].
    destruct (for_each_keeps unregister_class classes
                (mkBpy (registered b1) false (load_post b1) (timers b1))
                unregister_class_keeps) as (_ & -> & _). exact H1.
  - exact Hun.
  - cbv zeta. unfold workbench_load_handler.
    assert (Hquiet : forall t : list Timer,
               ~ (Scene_studio_props b = true /\
                  exists c, scene = Some c /\ is_generated (studio_props c) = false) ->
               exists new, t = (t ++ new)%list /\
                 (new = [] \/ new = [mkTimer invoke_startup_dialog "0.1"]) /\
                 (new <> [] <->
                  Scene_studio_props b = true /\
                  exists c, scene = Some c /\ is_generated (studio_props c) = false)).
    { intros t Hno. exists []. rewrite app_nil_r.
      split; [reflexivity|]. split; [now left|].
      split; [intros H; now elim H | intros H; now elim Hno]. }
    destruct (Scene_studio_props b) eqn:Es.
    + destruct scene as [c|].
      * destruct (is_generated (studio_props c)) eqn:Eg;
          cbn [negb registered load_post Scene_studio_props timers].
        -- do 3 (split; [auto|]). apply Hquiet.
           intros (_ & c' & E & E'). injection E as <-. congruence.
        -- do 3 (split; [auto|]). eexists. split; [reflexivity|].
           split; [now right|]. split; [|discriminate].
           intros _. split; [reflexivity|]. now exists c.
      * do 3 (split; [auto|]). apply Hquiet.
        intros (_ & c' & E & _). discriminate E.
    + do 3 (split; [auto|]). apply Hquiet. intros (E & _). discriminate E.
  - unfold workbench_load_handler. now rewrite Hun.
Qed.

Example load_handler_on_a_fresh_and_on_an_initialized_scene :
  let b := snd (register sample_bpy) in
  timers (workbench_load_handler (Some fresh_project) b) =
    [mkTimer invoke_startup_dialog "0.1"] /\
  timers (workbench_load_handler (Some initialized_project) b) = [] /\
  timers (workbench_load_handler (Some fresh_project) sample_bpy) = [] /\
  fst (unregister sample_bpy) = Some (AttributeError "studio_props").
Proof. vm_compute. repeat split. Qed.

(** ** What the Version Up dialog announces *)

Lemma take_while_id (f : ascii -> bool) (l : list ascii) :
  (forall c, In c l -> f c = true) -> take_while f l = l.
Proof.
  induction l as [|x l IH]; intros H; cbn [take_while]; [reflexivity|].
  rewrite (H x (or_introl eq_refl)). f_equal. apply IH. intros c Hc. apply H. now right.
Qed.

Lemma basename_no_sep (name : string) :
  has_sep name = false -> os_path_basename name = name.
Proof.
  intros Hn. unfold os_path_basename.
  rewrite (take_while_id _ _ (no_sep_chars name Hn)), rev_involutive.
  apply string_of_list_ascii_of_string.
Qed.

Lemma endswith_split (c : ascii) (a : string) :
  Py.endswith c a = true -> exists a', a = a' ++ String c "".
Proof.
  unfold Py.endswith. induction a as [|x a IH]; cbn [Py.last_char]; [discriminate|].
  destruct a as [|y a].
  - intros H. apply Ascii.eqb_eq in H as ->. now exists "".
  - intros H. destruct (IH H) as [a' E]. exists (String x a'). cbn [append]. now rewrite <- E.
Qed.

(** The last component of a path joined with a single name is that name. *)
Lemma basename_after_join_sep (a name : string) :
  has_sep name = false -> os_path_basename (a ++ join_sep a ++ name) = name.
Proof.
  intros Hn. unfold join_sep. destruct (String.eqb a "") eqn:Ea.
  - apply String.eqb_eq in Ea as ->. cbn [orb append]. now apply basename_no_sep.
  - cbn [orb]. destruct (Py.endswith posixpath.sep a) eqn:Ee.
    + destruct (endswith_split _ _ Ee) as [a' ->]. cbn [append].
      rewrite append_assoc. now apply basename_join.
    + now apply basename_join.
Qed.

(** X15: the Version Up dialog announces what the operator does.  Its two
    labels are "Archive: " and "Create:  " followed by the last component
    of the folder of the current version and of the next one, as the
    path builder names them; the folder in the archive that the old
    version is moved to carries the same last component as the folder it
    comes from; and when the operator returns, the version the project
    is left at is the one announced after "Create:  ", which is also the
    version label the panel then shows. *)
Theorem version_up_dialog_announces (env : Env) (wipe_scene : bool) (ctx : Context) :
  flat_map labels_in (STUDIO_OT_archive_and_iterate_draw ctx) =
    ["Archive: " ++ os_path_basename (get_version_folder ctx (version (studio_props ctx)));
     "Create:  " ++
       os_path_basename (get_version_folder ctx (version (studio_props ctx) + 1))] /\
  os_path_basename (dest_in_arch_of ctx (version (studio_props ctx))) =
    os_path_basename (get_version_folder ctx (version (studio_props ctx))) /\
  forall ctx',
    execute env (archive_iterate wipe_scene) ctx = (Returns FINISHED, ctx') ->
    os_path_basename (get_version_folder ctx' (version (studio_props ctx'))) =
      os_path_basename (get_version_folder ctx (version (studio_props ctx) + 1)) /\
    (is_generated (studio_props ctx) = true ->
     exists name rest,
       flat_map labels_in (STUDIO_PT_asset_management_draw ctx') =
         name :: os_path_basename (get_version_folder ctx (version (studio_props ctx) + 1))
              :: rest).
Proof.
  assert (B : forall scene v,
             os_path_basename (get_version_folder scene v) = "v" ++ Py.format_02d v).
  { intros scene v. rewrite get_version_folder_eq.
    apply basename_after_join_sep, version_name_ok. }
  rewrite !B. split; [reflexivity|]. split.
  - rewrite dest_in_arch_eq. apply basename_after_join_sep, version_name_ok.
  - intros ctx' E. cbn [execute] in E.
    pose proof (archive_iterate_props env wipe_scene ctx) as P. cbv zeta in P.
    rewrite E in P. cbn [fst snd] in P. destruct P as [_ P].
    rewrite B, P. cbn [version set_version]. split; [reflexivity|].
    intros Hg. unfold STUDIO_PT_asset_management_draw. cbv zeta.
    rewrite P. cbn [is_generated set_version version asset_name]. rewrite Hg.
    cbn [negb]. do 2 eexists. reflexivity.
Qed.

Example version_up_dialog_on_version_9 :
  flat_map labels_in (STUDIO_OT_archive_and_iterate_draw
    (mkContext (set_version 9 (studio_props scene_a)) fresh_world)) =
  ["Archive: v09"; "Create:  v10"].
Proof. vm_compute. reflexivity. Qed.

(** ** The setup dialog runs the Initializer through [bpy.ops] *)

Lemma first_error_last (before : list (ReportLevel * string)) (msg : string) :
  first_error before (before ++ [(ERROR, msg)]) = Some msg.
Proof.
  unfold first_error. now rewrite skipn_app, Nat.sub_diag, skipn_all.
Qed.

(** A cancelled Initializer has reported one error, and only that. *)
Lemma create_structure_cancelled (env : Env) (ctx : Context) :
  fst (STUDIO_OT_create_structure_execute env ctx) = Returns CANCELLED ->
  exists e,
    reports (world (snd (STUDIO_OT_create_structure_execute env ctx))) =
      List.app (reports (world ctx))
        [(ERROR, (if is_OSError e then "Could not create folders: "
                  else "Could not save file: ") ++ exn_msg e)].
Proof.
  rewrite create_structure_execute_eq. cbv zeta.
  match goal with
  | |- context [create_structure_makedirs env ?a ?b ?c ctx] =>
      pose proof (create_structure_makedirs_spec env a b c ctx) as S;
      destruct (create_structure_makedirs env a b c ctx) as [[[]|e1] c1]
  end; cbv zeta in S; cbn [fst snd] in S; destruct S as (_ & Rp & _ & _ & S).
  2:{ rewrite S. cbn [fst snd]. intros _. exists e1. rewrite S.
      unfold reported, add_report. cbn [world reports]. now rewrite Rp. }
  rewrite create_structure_save_eq.
  match goal with
  | |- context [bpy_ops_wm_save_as_mainfile env ?f false c1] =>
      pose proof (save_as_mainfile_spec env f false c1) as S2;
      destruct (bpy_ops_wm_save_as_mainfile env f false c1) as [[st|e2] c2]
  end; cbv zeta in S2; cbn [fst snd] in S2; destruct S2 as (_ & _ & R2 & _);
    cbn [fst snd]; [discriminate|].
  intros _. exists (mkExn RuntimeError (exn_msg e2)).
  unfold reported, add_report. cbn [world reports is_OSError exn_class exn_msg].
  now rewrite R2, Rp.
Qed.

(** X16: the setup dialog never returns CANCELLED.  It leaves the project,
    the disk and the messages exactly as the Initializer it runs; it
    returns FINISHED exactly when the Initializer does; and where the
    Initializer reports an error and returns CANCELLED, the dialog's
    [execute] raises a [RuntimeError] instead, whose text is the one
    message the Initializer reported -- "Could not create folders: ..." or
    "Could not save file: ..." -- as [bpy.ops] renders it: after
    "Error: " and followed by a line feed. *)
Theorem setup_dialog_never_cancels (env : Env) (ctx : Context) :
  snd (execute env startup_dialog ctx) = snd (execute env create_structure ctx) /\
  (forall status,
      fst (execute env startup_dialog ctx) = Returns status ->
      status = FINISHED /\ fst (execute env create_structure ctx) = Returns FINISHED) /\
  (fst (execute env create_structure ctx) = Returns FINISHED ->
   fst (execute env startup_dialog ctx) = Returns FINISHED) /\
  (fst (execute env create_structure ctx) = Returns CANCELLED ->
   exists msg,
     fst (execute env startup_dialog ctx) =
       Raises (mkExn RuntimeError ("Error: " ++ msg ++ newline)) /\
     reports (world (snd (execute env startup_dialog ctx))) =
       (reports (world ctx) ++ [(ERROR, msg)])%list /\
     exists detail, msg = "Could not create folders: " ++ detail \/
                    msg = "Could not save file: " ++ detail).
Proof.
  cbn [execute]. split; [apply startup_dialog_snd|].
  assert (Hc : fst (STUDIO_OT_create_structure_execute env ctx) = Returns CANCELLED ->
     exists msg,
       fst (STUDIO_OT_startup_dialog_execute env ctx) =
         Raises (mkExn RuntimeError ("Error: " ++ msg ++ newline)) /\
       reports (world (snd (STUDIO_OT_startup_dialog_execute env ctx))) =
         (reports (world ctx) ++ [(ERROR, msg)])%list /\
       exists detail, msg = "Could not create folders: " ++ detail \/
                      msg = "Could not save file: " ++ detail).
  { intros Hcan. destruct (create_structure_cancelled env ctx Hcan) as [e Rp].
    rewrite startup_dialog_snd.
    unfold STUDIO_OT_startup_dialog_execute, bpy_ops_studio_create_structure.
    destruct (STUDIO_OT_create_structure_execute env ctx) as [r ctx'].
    cbn [fst snd] in *. rewrite Hcan, Rp, first_error_last. cbn [fst].
    eexists. split; [reflexivity|]. split; [reflexivity|].
    exists (exn_msg e). destruct (is_OSError e); auto. }
  split; [|split; [apply startup_dialog_finished | exact Hc]].
  intros status Hs.
  destruct (fst (STUDIO_OT_create_structure_execute env ctx)) as [[|]|e] eqn:Ec.
  - apply startup_dialog_finished in Ec. rewrite Ec in Hs. injection Hs as <-. now split.
  - destruct (Hc eq_refl) as (msg & E & _). rewrite E in Hs. discriminate Hs.
  - unfold STUDIO_OT_startup_dialog_execute, bpy_ops_studio_create_structure in Hs.
    destruct (STUDIO_OT_create_structure_execute env ctx) as [r ctx'].
    cbn [fst] in Ec. subst r. discriminate Hs.
Qed.

Example setup_dialog_when_the_save_is_refused :
  fst (execute env_save_denied create_structure fresh_project) = Returns CANCELLED /\
  fst (execute env_save_denied startup_dialog fresh_project) =
    Raises (mkExn RuntimeError
              ("Error: Could not save file: Cannot save" ++ newline)).
Proof. split; vm_compute; reflexivity. Qed.

(** ** Where the document lives *)

Lemma project_root_stable (c c' : Context) :
  same_identity c c' ->
  Py.startswith "//" (base_path (studio_props c)) = false ->
  get_project_root c' = get_project_root c.
Proof.
  intros (Pb & Pt & Pn) Hb.
  unfold get_project_root, bpy_path_abspath, folder_name, safe_name.
  now rewrite Pb, Pt, Pn, Hb.
Qed.

(** One operator keeps the document at the wip file of the current version. *)
Lemma execute_at_current_wip (env : Env) (op : Operator) (ctx : Context) :
  Py.startswith "//" (base_path (studio_props ctx)) = false ->
  host_abspath (cwd env) (get_project_root ctx) = get_project_root ctx ->
  has_sep (asset_name (studio_props ctx)) = false ->
  INT_MIN <= version (studio_props ctx) + 1 <= INT_MAX ->
  at_current_wip ctx -> at_current_wip (snd (execute env op ctx)).
Proof.
  intros Hb Canon Hs Hv Hat. unfold at_current_wip in *.
  assert (Stable : forall c' v,
             same_identity ctx c' -> wip_path_of c' v = wip_path_of ctx v).
  { intros c' v Id.
    now destruct (paths_stable_absolute ctx c' v Id Hb) as (_ & _ & _ & E & _). }
  assert (Given : forall v, host_abspath (cwd env) (wip_path_of ctx v) = wip_path_of ctx v)
    by (intros v; now apply host_abspath_wip_path).
  destruct op as [|wipe_scene| |]; cbn [execute].
  - pose proof (create_structure_same_config env ctx) as Cfg.
    rewrite (same_config_version _ _ Cfg), (Stable _ _ (same_config_identity _ _ Cfg)).
    destruct (create_structure_filepath env ctx) as [E|[E _]]; cbv zeta in E;
      [now rewrite E, Given | congruence].
  - pose proof (archive_iterate_filepath env wipe_scene ctx) as F. cbv zeta in F.
    pose proof (archive_iterate_props env wipe_scene ctx) as P. cbv zeta in P.
    destruct (fst (STUDIO_OT_archive_and_iterate_execute env wipe_scene ctx)).
    + destruct P as [_ P]. rewrite F, P, Given. cbn [version set_version].
      symmetry. apply Stable. unfold same_identity. rewrite P. now repeat split.
    + rewrite (F Hv), Hat, P. symmetry. apply Stable. unfold same_identity. rewrite P.
      now repeat split.
  - pose proof (finalize_same_props env ctx) as P. unfold same_props in P.
    pose proof (finalize_same_filepath env ctx) as F. unfold same_filepath in F.
    rewrite F, Hat, P. symmetry. apply Stable. unfold same_identity. rewrite P.
    now repeat split.
  - rewrite startup_dialog_snd.
    pose proof (create_structure_same_config env ctx) as Cfg.
    rewrite (same_config_version _ _ Cfg), (Stable _ _ (same_config_identity _ _ Cfg)).
    destruct (create_structure_filepath env ctx) as [E|[E _]]; cbv zeta in E;
      [now rewrite E, Given | congruence].
Qed.

(** X7: the open document is the wip file of the current version.  Take a
    project whose root the host records as given -- an absolute,
    normalised path -- and not relative to the document, and whose asset
    name is a plain name.  Then every run of the Initializer, the setup
    dialog or Version Up that returns FINISHED leaves the document recorded
    at the wip path of the version the project is then at, whatever was
    open before; and once that holds it keeps holding over every sequence
    of operators, however each run ends, as long as the version stays
    within what the property can hold. *)
Theorem document_is_current_wip (env : Env) (ctx : Context) :
  Py.startswith "//" (base_path (studio_props ctx)) = false ->
  host_abspath (cwd env) (get_project_root ctx) = get_project_root ctx ->
  has_sep (asset_name (studio_props ctx)) = false ->
  (forall op,
      op <> finalize ->
      fst (execute env op ctx) = Returns FINISHED ->
      at_current_wip (snd (execute env op ctx))) /\
  (forall ops,
      1 <= version (studio_props ctx) ->
      version (studio_props ctx) + Z.of_nat (List.length ops) <= INT_MAX ->
      at_current_wip ctx -> at_current_wip (run_all env ops ctx)).
Proof.
  intros Hb Canon Hs. split.
  - intros op Hop Hr. unfold at_current_wip.
    assert (Stable : forall c' v,
               same_identity ctx c' -> wip_path_of c' v = wip_path_of ctx v).
    { intros c' v Id.
      now destruct (paths_stable_absolute ctx c' v Id Hb) as (_ & _ & _ & E & _). }
    assert (Given : forall v,
               host_abspath (cwd env) (wip_path_of ctx v) = wip_path_of ctx v)
      by (intros v; now apply host_abspath_wip_path).
    destruct op as [|wipe_scene| |]; cbn [execute] in *.
    + pose proof (create_structure_same_config env ctx) as Cfg.
      rewrite (same_config_version _ _ Cfg), (Stable _ _ (same_config_identity _ _ Cfg)).
      destruct (create_structure_filepath env ctx) as [E|[_ E]]; cbv zeta in E;
        [now rewrite E, Given | contradiction].
    + pose proof (archive_iterate_filepath env wipe_scene ctx) as F. cbv zeta in F.
      pose proof (archive_iterate_props env wipe_scene ctx) as P. cbv zeta in P.
      rewrite Hr in F, P. destruct P as [_ P]. rewrite F, P, Given.
      cbn [version set_version].
      symmetry. apply Stable. unfold same_identity. rewrite P. now repeat split.
    + now elim Hop.
    + rewrite startup_dialog_snd. apply startup_dialog_finished in Hr.
      pose proof (create_structure_same_config env ctx) as Cfg.
      rewrite (same_config_version _ _ Cfg), (Stable _ _ (same_config_identity _ _ Cfg)).
      destruct (create_structure_filepath env ctx) as [E|[_ E]]; cbv zeta in E;
        [now rewrite E, Given | contradiction].
  - intros ops. revert ctx Hb Canon Hs.
    induction ops as [|op ops IH]; intros ctx Hb Canon Hs Hv1 Hv Hat;
      cbn [run_all]; [exact Hat|].
    cbn [List.length] in Hv. rewrite Nat2Z.inj_succ in Hv.
    assert (Id : same_identity ctx (snd (execute env op ctx)) /\
                 version (studio_props ctx) <= version (studio_props (snd (execute env op ctx)))
                   <= version (studio_props ctx) + 1).
    { unfold same_identity.
      destruct (execute_props env op ctx) as [E|[E|E]]; cbv zeta in E; rewrite E;
        cbn; repeat split; lia || reflexivity. }
    destruct Id as [Id Hv'].
    apply IH.
    + destruct Id as (-> & _). exact Hb.
    + rewrite (project_root_stable _ _ Id Hb). exact Canon.
    + destruct Id as (_ & _ & ->). exact Hs.
    + lia.
    + lia.
    + apply execute_at_current_wip; auto. unfold INT_MIN. lia.
Qed.

Lemma document_is_current_wip_witness :
  (Py.startswith "//" (base_path (studio_props fresh_project)) = false /\
   host_abspath (cwd no_faults) (get_project_root fresh_project)
     = get_project_root fresh_project /\
   has_sep (asset_name (studio_props fresh_project)) = false) /\
  at_current_wip initialized_project /\
  at_current_wip (run_all no_faults [finalize; archive_iterate true; finalize]
                          initialized_project) /\
  at_current_wip (run_all env_save_denied [archive_iterate true; create_structure]
                          initialized_project).
Proof.
  assert (Hb : Py.startswith "//" (base_path (studio_props fresh_project)) = false)
    by reflexivity.
  assert (Hc : host_abspath (cwd no_faults) (get_project_root fresh_project)
               = get_project_root fresh_project) by (vm_compute; reflexivity).
  assert (Hs : has_sep (asset_name (studio_props fresh_project)) = false)
    by reflexivity.
  assert (Hb' : Py.startswith "//" (base_path (studio_props initialized_project)) = false)
    by (vm_compute; reflexivity).
  assert (Hc1 : host_abspath (cwd no_faults) (get_project_root initialized_project)
                = get_project_root initialized_project) by (vm_compute; reflexivity).
  assert (Hc2 : host_abspath (cwd env_save_denied) (get_project_root initialized_project)
                = get_project_root initialized_project) by (vm_compute; reflexivity).
  assert (Hs' : has_sep (asset_name (studio_props initialized_project)) = false)
    by (vm_compute; reflexivity).
  assert (Hv1 : 1 <= version (studio_props initialized_project))
    by (vm_compute; discriminate).
  assert (Hr : fst (execute no_faults create_structure fresh_project) = Returns FINISHED)
    by (vm_compute; reflexivity).
  split; [split; [exact Hb | split; [exact Hc | exact Hs]]|].
  destruct (document_is_current_wip no_faults fresh_project Hb Hc Hs) as [Est _].
  assert (H0 : at_current_wip initialized_project).
  { apply (Est create_structure); [discriminate | exact Hr]. }
  split; [exact H0|]. split.
  - destruct (document_is_current_wip no_faults initialized_project Hb' Hc1 Hs')
      as [_ Keep].
    apply (Keep [finalize; archive_iterate true; finalize] Hv1); [|exact H0].
    vm_compute. discriminate.
  - destruct (document_is_current_wip env_save_denied initialized_project Hb' Hc2 Hs')
      as [_ Keep].
    apply (Keep [archive_iterate true; create_structure] Hv1); [|exact H0].
    vm_compute. discriminate.
Defined.

(** ** The Structure Initializer, from start to end *)

(** The folder step adds nothing but the three folders and what lies above
    them. *)
Lemma create_structure_makedirs_new_dirs (env : Env) (wip fin arch : string)
      (ctx : Context) (n : node) :
  mem n (fs_dirs (world (snd (create_structure_makedirs env wip fin arch ctx)))) = true ->
  mem n (fs_dirs (world ctx)) = true \/
  In n (prefixes (node_of wip) ++ prefixes (node_of fin) ++ prefixes (node_of arch)).
Proof.
  unfold create_structure_makedirs, bind.
  pose proof (os_makedirs_new_dirs env wip true ctx n) as N1.
  destruct (os_makedirs env wip true ctx) as [[[]|e1] c1]; cbn [snd] in *.
  2:{ intros H. destruct (N1 H) as [H1|H1]; [now left|]. right. apply in_or_app. now left. }
  pose proof (os_makedirs_new_dirs env fin true c1 n) as N2.
  destruct (os_makedirs env fin true c1) as [[[]|e2] c2]; cbn [snd] in *.
  2:{ intros H. destruct (N2 H) as [H2|H2].
      - destruct (N1 H2) as [H1|H1]; [now left|]. right. apply in_or_app. now left.
      - right. apply in_or_app. right. apply in_or_app. now left. }
  pose proof (os_makedirs_new_dirs env arch true c2 n) as N3.
  intros H. destruct (N3 H) as [H3|H3].
  - destruct (N2 H3) as [H2|H2].
    + destruct (N1 H2) as [H1|H1]; [now left|]. right. apply in_or_app. now left.
    + right. apply in_or_app. right. apply in_or_app. now left.
  - right. apply in_or_app. right. apply in_or_app. now right.
Qed.

Lemma create_structure_makedirs_dirs_kept (env : Env) (wip fin arch : string) :
  preserves dirs_kept (create_structure_makedirs env wip fin arch).
Proof. unfold create_structure_makedirs. frame. Qed.




(** ** The Finalizer, from start to end *)

(** A file can be written into a directory that is there, under a plain
    name that is not taken by a directory. *)
Lemma save_possible_in_folder (w : World) (dir fname : string) :
  dir <> "" -> snd (node_of dir) <> [] -> fname <> "" -> has_sep fname = false ->
  isdir w dir = true -> isdir w (posixpath.join2 dir fname) = false ->
  save_possible w (posixpath.join2 dir fname) = true.
Proof.
  intros Hd Hc Hn Hs Hdir Hfree. unfold save_possible.
  assert (Hne : snd (node_of (posixpath.join2 dir fname)) <> []).
  { rewrite (node_of_join2 dir fname Hd Hn Hs). cbn [snd]. intros E.
    apply app_eq_nil in E as [_ E]. discriminate E. }
  rewrite (isdir_mem w _ Hne) in Hfree. rewrite Hfree.
  rewrite (isdir_mem w _ Hc) in Hdir.
  rewrite (node_of_join2 dir fname Hd Hn Hs) in *. cbn [snd] in *.
  destruct (snd (node_of dir) ++ [fname])%list as [|x l] eqn:E; [now elim Hne|].
  rewrite <- E. unfold parent, node_isdir. cbn [fst snd]. rewrite removelast_last.
  destruct (snd (node_of dir)) as [|y l'] eqn:E'; [now elim Hc|].
  rewrite <- E', <- surjective_pairing, Hdir. reflexivity.
Qed.

Lemma fin_dir_entry (scene : Context) (v : Z) :
  fin_dir_of scene v <> "" /\ snd (node_of (fin_dir_of scene v)) <> [].
Proof.
  split; [apply version_subfolder_nonempty|].
  unfold fin_dir_of. rewrite (node_of_version_subfolder scene v "fin"); [|discriminate|reflexivity].
  cbn [snd]. intros E. apply app_eq_nil in E as [_ E]. discriminate E.
Qed.

(** C9: the Finalizer leaves every field of the property group as it
    found it and leaves the document where it lived, whether it returns or
    raises; the only save it ever issues is a save with [copy=True] at the
    fin file name of the current version inside that version's
    final-projects folder.  When it returns, it returns FINISHED, that
    save was its last call, the file exists and a message names it.  And
    it does return, for an asset name that is a plain name, whenever
    nothing stands in the way: when the final-projects folder is a
    directory, no directory sits at the file's path and the host does not
    refuse the save; or when the folder is absent, its creation returns,
    and then again no directory sits at the file's path and the host does
    not refuse the save. *)
Theorem finalize_frame (env : Env) (ctx : Context) :
  let r := STUDIO_OT_finalize_execute env ctx in
  let v := version (studio_props ctx) in
  let fin := fin_dir_of ctx v in
  let path := fin_path_of ctx v in
  studio_props (snd r) = studio_props ctx /\
  data_filepath (world (snd r)) = data_filepath (world ctx) /\
  path = posixpath.join fin [get_blend_filename ctx v "fin"] /\
  (exists new,
      calls (world (snd r)) = (calls (world ctx) ++ new)%list /\
      forall p c, In (wm_save_as_mainfile_call p c) new -> p = path /\ c = true) /\
  match fst r with
  | Returns st =>
      st = FINISHED /\
      calls (world (snd r)) =
        (calls (world ctx)
         ++ (if os_path_exists (world ctx) fin then [] else [os_makedirs_call fin true])
         ++ [wm_save_as_mainfile_call path true])%list /\
      isfile (world (snd r)) path = true /\
      reports (world (snd r)) =
        List.app (reports (world ctx))
                 [(INFO, "Published Final: " ++ get_blend_filename ctx v "fin")]
  | Raises _ => reports (world (snd r)) = reports (world ctx)
  end /\
  (has_sep (asset_name (studio_props ctx)) = false ->
   (isdir (world ctx) fin = true ->
    isdir (world ctx) path = false ->
    save_fault env (world ctx) path true = None ->
    fst r = Returns FINISHED) /\
   (forall c1,
       os_path_exists (world ctx) fin = false ->
       os_makedirs env fin true ctx = (Returns tt, c1) ->
       isdir (world c1) path = false ->
       save_fault env (world c1) path true = None ->
       fst r = Returns FINISHED)).
Proof.
  intros r v fin path. subst r.
  split; [apply (finalize_same_props env ctx)|].
  split; [apply (finalize_same_filepath env ctx)|].
  split; [reflexivity|].
  pose proof (finalize_calls env ctx) as H. cbv zeta in H. fold v fin path in H.
  assert (Hin : forall p c,
             In (wm_save_as_mainfile_call p c)
                ((if os_path_exists (world ctx) fin then [] else [os_makedirs_call fin true])
                 ++ [wm_save_as_mainfile_call path true]) -> p = path /\ c = true).
  { intros p c Hi. apply in_app_or in Hi as [Hi|Hi].
    - destruct (os_path_exists (world ctx) fin); [contradiction|].
      destruct Hi as [Hi|[]]. discriminate Hi.
    - destruct Hi as [Hi|[]]. injection Hi as <- <-. now split. }
  assert (Frame :
    (exists new,
        calls (world (snd (STUDIO_OT_finalize_execute env ctx))) =
          (calls (world ctx) ++ new)%list /\
        forall p c, In (wm_save_as_mainfile_call p c) new -> p = path /\ c = true) /\
    match fst (STUDIO_OT_finalize_execute env ctx) with
    | Returns st =>
        st = FINISHED /\
        calls (world (snd (STUDIO_OT_finalize_execute env ctx))) =
          (calls (world ctx)
           ++ (if os_path_exists (world ctx) fin then [] else [os_makedirs_call fin true])
           ++ [wm_save_as_mainfile_call path true])%list /\
        isfile (world (snd (STUDIO_OT_finalize_execute env ctx))) path = true /\
        reports (world (snd (STUDIO_OT_finalize_execute env ctx))) =
          List.app (reports (world ctx))
                   [(INFO, "Published Final: " ++ get_blend_filename ctx v "fin")]
    | Raises _ =>
        reports (world (snd (STUDIO_OT_finalize_execute env ctx))) = reports (world ctx)
    end).
  { destruct (fst (STUDIO_OT_finalize_execute env ctx)).
    - destruct H as (Hs & Hc & Hf & _ & Hr).
      split; [eexists; split; [exact Hc | exact Hin]|].
      split; [exact Hs|]. split; [exact Hc|]. split; [exact Hf | exact Hr].
    - destruct H as (Hr & [Hc|Hc]); (split; [|exact Hr]).
      + eexists. split; [exact Hc|]. intros p c Hi. apply (Hin p c).
        apply in_or_app. now left.
      + eexists. split; [exact Hc | exact Hin]. }
  destruct Frame as [Fc Fm]. split; [exact Fc|]. split; [exact Fm|].
  clear H Hin Fc Fm. intros Hs.
  destruct (fin_dir_entry ctx v) as [Hd Hc]. fold fin in Hd, Hc.
  assert (Hn : has_sep (get_blend_filename ctx v "fin") = false)
    by (rewrite has_sep_blend_filename, Hs; reflexivity).
  assert (Run : forall c1,
             studio_props c1 = studio_props ctx ->
             isdir (world c1) fin = true -> isdir (world c1) path = false ->
             save_fault env (world c1) path true = None ->
             fst (match bpy_ops_wm_save_as_mainfile env path true c1 with
                  | (Raises e, c2) => (Raises e, c2)
                  | (Returns _, c2) =>
                      (Returns FINISHED,
                       reported INFO ("Published Final: " ++ get_blend_filename ctx v "fin")
                                c2)
                  end) = Returns FINISHED).
  { intros c1 P Hdir Hfree Hsave.
    assert (R : fst (bpy_ops_wm_save_as_mainfile env path true c1) = Returns FINISHED).
    { apply save_returns. split; [exact Hsave|].
      unfold path, fin_path_of, posixpath.join. cbn [fold_left].
      apply save_possible_in_folder; auto using get_blend_filename_nonempty. }
    now destruct (bpy_ops_wm_save_as_mainfile env path true c1) as [[st|e] c2]. }
  split.
  - intros Hdir Hfree Hsave. rewrite finalize_execute_eq. cbv zeta. fold v fin.
    assert (Ex : os_path_exists (world ctx) fin = true)
      by (unfold os_path_exists; now rewrite Hdir).
    rewrite Ex. now apply Run.
  - intros c1 Ex Hmk Hfree Hsave. rewrite finalize_execute_eq. cbv zeta. fold v fin.
    rewrite Ex, Hmk.
    pose proof (os_makedirs_spec env fin true ctx) as S. cbv zeta in S.
    rewrite Hmk in S. cbn [fst snd] in S. destruct S as (P & _ & _ & _ & _ & _ & D).
    rewrite P, (get_blend_filename_same_props ctx c1 _ _ P). fold v.
    now apply Run.
Qed.

(** Publishing the initialized project, whose final-projects folder is
    there, and publishing a project that was never initialized, whose
    folder the Finalizer makes. *)
Lemma finalize_frame_witness :
  (fst (STUDIO_OT_finalize_execute no_faults initialized_project) = Returns FINISHED /\
   isfile (world (snd (STUDIO_OT_finalize_execute no_faults initialized_project)))
          "/proj/prp_My_Asset/v01/fin/projects/prp_My_Asset_v01_fin.blend" = true /\
   data_filepath (world (snd (STUDIO_OT_finalize_execute no_faults initialized_project))) =
     data_filepath (world initialized_project)) /\
  (fst (STUDIO_OT_finalize_execute no_faults fresh_project) = Returns FINISHED /\
   calls (world (snd (STUDIO_OT_finalize_execute no_faults fresh_project))) =
     [os_makedirs_call "/proj/prp_My_Asset/v01/fin/projects" true;
      wm_save_as_mainfile_call
        "/proj/prp_My_Asset/v01/fin/projects/prp_My_Asset_v01_fin.blend" true]).
Proof.
  split.
  - destruct (finalize_frame no_faults initialized_project)
      as (_ & F & _ & _ & M & Go).
    cbv zeta in *.
    assert (Hs : has_sep (asset_name (studio_props initialized_project)) = false)
      by (vm_compute; reflexivity).
    destruct (Go Hs) as [Go1 _].
    assert (R : fst (STUDIO_OT_finalize_execute no_faults initialized_project)
                = Returns FINISHED).
    { apply Go1; vm_compute; reflexivity. }
    split; [exact R|]. rewrite R in M. destruct M as (_ & _ & Hf & _).
    split; [|exact F].
    assert (E : fin_path_of initialized_project (version (studio_props initialized_project))
                = "/proj/prp_My_Asset/v01/fin/projects/prp_My_Asset_v01_fin.blend")
      by (vm_compute; reflexivity).
    rewrite E in Hf. exact Hf.
  - destruct (finalize_frame no_faults fresh_project) as (_ & _ & _ & _ & M & Go).
    cbv zeta in *.
    assert (Hs : has_sep (asset_name (studio_props fresh_project)) = false)
      by reflexivity.
    destruct (Go Hs) as [_ Go2].
    assert (R : fst (STUDIO_OT_finalize_execute no_faults fresh_project)
                = Returns FINISHED).
    { apply (Go2 (snd (os_makedirs no_faults
                         (fin_dir_of fresh_project (version (studio_props fresh_project)))
                         true fresh_project))); vm_compute; reflexivity. }
    split; [exact R|]. rewrite R in M. destruct M as (_ & C & _).
    assert (E : (calls (world fresh_project) ++
                 (if os_path_exists (world fresh_project)
                       (fin_dir_of fresh_project (version (studio_props fresh_project)))
                  then []
                  else [os_makedirs_call
                          (fin_dir_of fresh_project
                             (version (studio_props fresh_project))) true]) ++
                 [wm_save_as_mainfile_call
                    (fin_path_of fresh_project (version (studio_props fresh_project)))
                    true])%list =
                [os_makedirs_call "/proj/prp_My_Asset/v01/fin/projects" true;
                 wm_save_as_mainfile_call
                   "/proj/prp_My_Asset/v01/fin/projects/prp_My_Asset_v01_fin.blend" true])
      by (vm_compute; reflexivity).
    rewrite E in C. exact C.
Defined.

Example finalize_on_initialized_project :
  let r := STUDIO_OT_finalize_execute no_faults initialized_project in
  fst r = Returns FINISHED /\
  calls_after 4 (snd r) =
    [wm_save_as_mainfile_call
       "/proj/prp_My_Asset/v01/fin/projects/prp_My_Asset_v01_fin.blend" true] /\
  data_filepath (world (snd r)) =
    "/proj/prp_My_Asset/v01/wip/projects/prp_My_Asset_v01_wip.blend" /\
  studio_props (snd r) = mkProps "/proj" prp "My Asset" 1 true.
Proof. vm_compute. repeat split. Qed.

(** ** The archive step of Version Up, on the operator's own arguments *)

Lemma version_folder_node_nonempty (scene : Context) (v : Z) :
  snd (node_of (get_version_folder scene v)) <> [].
Proof.
  rewrite node_of_version_folder. cbn [snd]. intros E.
  apply app_eq_nil in E as [_ E]. discriminate E.
Qed.

Lemma dest_in_arch_node_nonempty (scene : Context) (v : Z) :
  snd (node_of (dest_in_arch_of scene v)) <> [].
Proof.
  rewrite node_of_dest_in_arch. cbn [snd]. intros E.
  apply app_eq_nil in E as [_ E]. discriminate E.
Qed.

Lemma arch_folder_node_nonempty (scene : Context) :
  snd (node_of (get_arch_folder scene)) <> [].
Proof.
  rewrite node_of_arch_folder. cbn [snd]. intros E.
  apply app_eq_nil in E as [_ E]. discriminate E.
Qed.

(** The archive destination is not inside the folder that is moved. *)
Lemma dest_not_under_old (scene : Context) (v : Z) :
  under (node_of (get_version_folder scene v)) (node_of (dest_in_arch_of scene v)) = false.
Proof.
  unfold under. rewrite node_of_version_folder, node_of_dest_in_arch.
  cbn [fst snd]. rewrite strip_prefix_differ; [apply andb_false_r | discriminate].
Qed.

Lemma parent_of_dest_in_arch (scene : Context) (v : Z) :
  parent (node_of (dest_in_arch_of scene v)) = node_of (get_arch_folder scene).
Proof.
  rewrite node_of_dest_in_arch, node_of_arch_folder. unfold parent.
  cbn [fst snd]. f_equal.
  replace (List.app (snd (node_of (get_project_root scene))) ["arch"; "v" ++ Py.format_02d v])
    with (List.app (List.app (snd (node_of (get_project_root scene))) ["arch"])
                   ["v" ++ Py.format_02d v]) by now rewrite <- app_assoc.
  apply removelast_last.
Qed.

(** A move that returns was not failed by the host. *)
Lemma shutil_move_returns_no_fault (env : Env) (src dst : string) (ctx c1 : Context) :
  shutil_move env src dst ctx = (Returns tt, c1) ->
  move_fault env (world ctx) src dst = None.
Proof.
  unfold shutil_move. cbv zeta.
  destruct (move_fault env (world ctx) src dst); [discriminate | reflexivity].
Qed.

(** An entry that is kept still exists. *)
Lemma entry_kept_exists (w w' : World) (p : string) :
  snd (node_of p) <> [] ->
  (mem (node_of p) (fs_dirs w) = true -> mem (node_of p) (fs_dirs w') = true) ->
  (mem (node_of p) (fs_files w) = true -> mem (node_of p) (fs_files w') = true) ->
  os_path_exists w p = true -> os_path_exists w' p = true.
Proof.
  intros Hne Hd Hf. unfold os_path_exists, isfile. rewrite !(isdir_mem _ _ Hne).
  intros H. apply orb_true_iff in H as [H|H]; apply orb_true_iff; [left|right]; auto.
Qed.

Lemma below_self (n : node) : below n n = false.
Proof. unfold below. rewrite node_eqb_refl. apply andb_false_r. Qed.

Lemma below_under (src n : node) : under src n = false -> below src n = false.
Proof. unfold below. now intros ->. Qed.



